(** * finance_agent_web: the browser dashboards of [static/app.js] and
    [static/enhanced_app.js]

    A shallow embedding of the two page scripts.  JSON bodies are values of
    [Js.value]; JS numbers are IEEE binary64 floats; strings are the UTF-8
    bytes of the JS strings.  No member of a parsed body is callable, so the
    conversion of an object to a string or a number throws when the object
    has a member named toString, as every template literal over it does.  The page (DOM text, the script's globals, the
    chart widgets and the requests sent so far) is a record that every
    function threads; a JS exception is the [Throw] result of a computation
    and leaves the mutations made before it in place, as in JS.  An [async]
    function is split at its [await]s: a synchronous prefix that issues the
    request, and a continuation run when the request settles. *)

From Stdlib Require Import String Ascii List ZArith Floats Bool Lia Arith.
From Stdlib Require Import DecimalString.
Import ListNotations.
Open Scope string_scope.
Set Warnings "-register-all,-inexact-float".

(* ===================================================================== *)
(** * JS values and the built-ins the scripts use *)
(* ===================================================================== *)

Module Js.

Inductive value : Type :=
| VUndef
| VNull
| VBool (b : bool)
| VNum (x : float)
| VStr (s : string)
| VArr (items : list value)
| VObj (props : list (string * value)).

(** An Error object: [name] and [message]. *)
Record error : Type := mkError { err_name : string; err_message : string }.

(** The result of running JS code: a value, or a thrown exception. *)
Inductive completion (A : Type) : Type :=
| Normal (a : A)
| Throw (e : error).
Arguments Normal {A} a.
Arguments Throw {A} e.

(** What the script takes from the browser and does not define itself:
    locale and number formatting, engine error messages, and the random
    source.  Every theorem below holds for every host. *)
Class Host : Type := {
  (** Number::toString of a finite number that is not a safe integer *)
  shortest_decimal : float -> string;
  (** Number.prototype.toFixed(digits) *)
  to_fixed : float -> nat -> string;
  (** Number.prototype.toLocaleString() in the page's locale *)
  to_locale_string : float -> string;
  (** StringToNumber, the numeric value of a string operand *)
  string_to_number : string -> float;
  (** the message of the TypeError of reading a property of undefined/null *)
  cannot_read_message : value -> string -> string;
  (** the message of the TypeError of calling something that is no function *)
  not_a_function_message : string -> string;
  (** the message of the TypeError of converting an object that has no
      method giving a primitive *)
  cannot_convert_message : string;
  (** the n-th result of Math.random() since the page was loaded *)
  math_random : nat -> float
}.

Definition float_of_nat (n : nat) : float :=
  PrimFloat.of_uint63 (Uint63.of_Z (Z.of_nat n)).

(** The integer a float denotes, when it is one of magnitude at most 2^53. *)
Definition safe_integer (x : float) : option Z :=
  match FloatOps.Prim2SF x with
  | SpecFloat.S754_zero _ => Some 0%Z
  | SpecFloat.S754_finite neg m e =>
      let mag :=
        if (0 <=? e)%Z then Some (Z.pos m * 2 ^ e)%Z
        else if (Z.pos m mod 2 ^ (- e) =? 0)%Z then Some (Z.pos m / 2 ^ (- e))%Z
        else None in
      match mag with
      | Some n => if (n <=? 2 ^ 53)%Z then Some (if neg then (- n)%Z else n) else None
      | None => None
      end
  | _ => None
  end.

Definition decimal_of_Z (z : Z) : string := NilZero.string_of_int (Z.to_int z).

(** UTF-16 code units of a string held as UTF-8 bytes: one per lead byte,
    two for the lead byte of a four-byte sequence. *)
Fixpoint utf16_length (s : string) : nat :=
  match s with
  | EmptyString => 0
  | String c r =>
      let b := nat_of_ascii c in
      ((if b <? 128 then 1 else if b <? 192 then 0 else if b <? 240 then 1 else 2)
       + utf16_length r)%nat
  end.

Definition is_nullish (v : value) : bool :=
  match v with VUndef | VNull => true | _ => false end.

(** ToBoolean *)
Definition truthy (v : value) : bool :=
  match v with
  | VUndef | VNull => false
  | VBool b => b
  | VNum x => negb (PrimFloat.eqb x 0%float) && negb (PrimFloat.is_nan x)
  | VStr s => negb (s =? EmptyString)
  | VArr _ | VObj _ => true
  end.

(** [a || b] *)
Definition or_else (a b : value) : value := if truthy a then a else b.

Fixpoint lookup (k : string) (props : list (string * value)) : value :=
  match props with
  | [] => VUndef
  | (k', v) :: rest => if k =? k' then v else lookup k rest
  end.

Fixpoint join (sep : string) (parts : list string) : string :=
  match parts with
  | [] => EmptyString
  | [p] => p
  | p :: rest => p ++ sep ++ join sep rest
  end.

(** Sequencing of fallible pure code: the first exception ends it. *)
Definition and_then {A B : Type} (c : completion A) (k : A -> completion B)
  : completion B :=
  match c with
  | Normal a => k a
  | Throw e => Throw e
  end.

Notation "'let*' x ':=' c 'in' k" := (and_then c (fun x => k))
  (at level 10, x name, c at level 100, k at level 200).

(** [items.map(f)] on the elements, left to right *)
Fixpoint map_each {A B : Type} (f : A -> completion B) (items : list A)
  : completion (list B) :=
  match items with
  | [] => Normal []
  | it :: rest =>
      let* y := f it in
      let* ys := map_each f rest in
      Normal (y :: ys)
  end.

Section WithHost.
Context {host : Host}.

Definition type_error (msg : string) : error := mkError "TypeError" msg.

(** Number::toString *)
Definition number_to_string (x : float) : string :=
  if PrimFloat.is_nan x then "NaN"
  else if PrimFloat.eqb x PrimFloat.infinity then "Infinity"
  else if PrimFloat.eqb x PrimFloat.neg_infinity then "-Infinity"
  else match safe_integer x with
       | Some z => decimal_of_Z z
       | None => shortest_decimal x
       end.

(** Whether an object has an own member named [k]. *)
Definition has_own (k : string) (props : list (string * value)) : bool :=
  existsb (fun kv => k =? fst kv) props.

(** Whether ToPrimitive of [v] returns.  The values are those of a parsed
    JSON body, none of whose members is callable.  An object with an own
    [toString] member hides Object.prototype.toString behind a value that
    cannot be called, and valueOf gives back the object: no method yields a
    primitive and the conversion throws a TypeError.  An object without one
    converts through Object.prototype.toString, and an array through
    Array.prototype.join, which converts each of its elements. *)
Fixpoint prints (v : value) : bool :=
  match v with
  | VArr items => forallb prints items
  | VObj props => negb (has_own "toString" props)
  | _ => true
  end.

(** The string of a value whose conversion returns (see [prints]), with
    the numbers printed by [num]: Array.prototype.join prints undefined and
    null elements as the empty string, an object without a [toString] of
    its own prints as [object Object]. *)
Fixpoint stringify (num : float -> string) (v : value) : string :=
  match v with
  | VUndef => "undefined"
  | VNull => "null"
  | VBool b => if b then "true" else "false"
  | VNum x => num x
  | VStr s => s
  | VArr items =>
      join "," (map (fun it => if is_nullish it then EmptyString else stringify num it) items)
  | VObj _ => "[object Object]"
  end.

(** The string ToString gives when it returns. *)
Definition to_str (v : value) : string := stringify number_to_string v.

(** The number ToNumber gives when it returns. *)
Definition to_number (v : value) : float :=
  match v with
  | VUndef => PrimFloat.nan
  | VNull => 0%float
  | VBool b => if b then 1%float else 0%float
  | VNum x => x
  | VStr s => string_to_number s
  | VArr _ => string_to_number (to_str v)
  | VObj _ => PrimFloat.nan
  end.

(** ToString, as a template literal and the setter of textContent apply
    it: a TypeError when ToPrimitive does not return. *)
Definition ToString (v : value) : completion string :=
  if prints v then Normal (to_str v) else Throw (type_error cannot_convert_message).

(** ToNumber, as the arithmetic and relational operators apply it. *)
Definition ToNumber (v : value) : completion float :=
  if prints v then Normal (to_number v) else Throw (type_error cannot_convert_message).

(** [v.toLocaleString()].  A number prints in the locale, a string as
    itself, a boolean through toString.  Object.prototype.toLocaleString
    calls [this.toString()], Array.prototype.toLocaleString calls
    toLocaleString on each element that is neither undefined nor null; an
    own member of either name cannot be called. *)
Fixpoint call_toLocaleString (v : value) : completion string :=
  match v with
  | VUndef | VNull => Throw (type_error (cannot_read_message v "toLocaleString"))
  | VBool b => Normal (if b then "true" else "false")
  | VNum x => Normal (to_locale_string x)
  | VStr s => Normal s
  | VArr items =>
      let* parts :=
        (fix each (l : list value) : completion (list string) :=
           match l with
           | [] => Normal []
           | it :: rest =>
               let* part := (if is_nullish it then Normal EmptyString
                             else call_toLocaleString it) in
               let* parts := each rest in
               Normal (part :: parts)
           end) items in
      Normal (join "," parts)
  | VObj props =>
      if has_own "toLocaleString" props
      then Throw (type_error (not_a_function_message "toLocaleString"))
      else if has_own "toString" props
           then Throw (type_error (not_a_function_message "toString"))
           else Normal "[object Object]"
  end.

(** [v.k]: a TypeError on undefined and null; [length] of arrays and
    strings; any other property of a primitive or an array is undefined
    (the scripts read no other built-in property this way). *)
Definition get (v : value) (k : string) : completion value :=
  match v with
  | VUndef | VNull => Throw (type_error (cannot_read_message v k))
  | VObj props => Normal (lookup k props)
  | VArr items => Normal (if k =? "length" then VNum (float_of_nat (length items)) else VUndef)
  | VStr s => Normal (if k =? "length" then VNum (float_of_nat (utf16_length s)) else VUndef)
  | VBool _ | VNum _ => Normal VUndef
  end.

(** [v.toFixed(digits)]: only a number has the method. *)
Definition call_toFixed (v : value) (digits : nat) : completion string :=
  match v with
  | VNum x => Normal (to_fixed x digits)
  | VUndef | VNull => Throw (type_error (cannot_read_message v "toFixed"))
  | _ => Throw (type_error (not_a_function_message "toFixed"))
  end.

(** The receiver of [v.map(...)] / [v.forEach(...)]: only an array has the
    method. *)
Definition array_method (name : string) (v : value) : completion (list value) :=
  match v with
  | VArr items => Normal items
  | VUndef | VNull => Throw (type_error (cannot_read_message v name))
  | _ => Throw (type_error (not_a_function_message name))
  end.

(** [v.map(item => item.k)] *)
Definition map_prop (v : value) (k : string) : completion (list value) :=
  let* items := array_method "map" v in
  map_each (fun item => get item k) items.

(** Error.prototype.toString *)
Definition error_to_string (e : error) : string :=
  if err_name e =? EmptyString then err_message e
  else if err_message e =? EmptyString then err_name e
  else err_name e ++ ": " ++ err_message e.

End WithHost.

(** String.prototype.trim removes white space and line terminators from
    both ends; here as the UTF-8 byte sequences of those code points. *)
Definition bytes (l : list nat) : string :=
  fold_right (fun b s => String (ascii_of_nat b) s) EmptyString l.

Definition white_space : list string :=
  map bytes
    [ [9]; [10]; [11]; [12]; [13]; [32]; [194; 160]; [225; 154; 128];
      [226; 128; 128]; [226; 128; 129]; [226; 128; 130]; [226; 128; 131];
      [226; 128; 132]; [226; 128; 133]; [226; 128; 134]; [226; 128; 135];
      [226; 128; 136]; [226; 128; 137]; [226; 128; 138]; [226; 128; 168];
      [226; 128; 169]; [226; 128; 175]; [226; 129; 159]; [227; 128; 128];
      [239; 187; 191] ].

Fixpoint drop_prefix (p s : string) : option string :=
  match p, s with
  | EmptyString, _ => Some s
  | String a p', String b s' => if Ascii.eqb a b then drop_prefix p' s' else None
  | String _ _, EmptyString => None
  end.

Fixpoint drop_any (ps : list string) (s : string) : option string :=
  match ps with
  | [] => None
  | p :: rest => match drop_prefix p s with Some r => Some r | None => drop_any rest s end
  end.

Fixpoint trim_start_fuel (ws : list string) (fuel : nat) (s : string) : string :=
  match fuel with
  | O => s
  | S fuel' => match drop_any ws s with
               | Some r => trim_start_fuel ws fuel' r
               | None => s
               end
  end.

Fixpoint rev_string (s acc : string) : string :=
  match s with
  | EmptyString => acc
  | String c r => rev_string r (String c acc)
  end.

Definition reverse (s : string) : string := rev_string s EmptyString.

Definition trim_start (s : string) : string :=
  trim_start_fuel white_space (String.length s) s.

Definition trim_end (s : string) : string :=
  reverse (trim_start_fuel (map reverse white_space) (String.length s) (reverse s)).

Definition trim (s : string) : string := trim_end (trim_start s).

End Js.

Notation "'let*' x ':=' c 'in' k" := (Js.and_then c (fun x => k))
  (at level 10, x name, c at level 100, k at level 200).

(** The double quote and the line feed of the scripts' HTML templates. *)
Definition dq : string := String (ascii_of_nat 34) EmptyString.
Definition lf : string := String (ascii_of_nat 10) EmptyString.

(* ===================================================================== *)
(** * Code that reads and writes a page and may throw *)
(* ===================================================================== *)

(** A computation over a state [S]: the state it returns after an exception
    holds every write made before the exception. *)
Module Eff.

Definition M (S A : Type) : Type := S -> Js.completion A * S.

Definition ret {S A : Type} (a : A) : M S A := fun p => (Js.Normal a, p).

Definition bind {S A B : Type} (c : M S A) (k : A -> M S B) : M S B :=
  fun p => match c p with
           | (Js.Normal a, p') => k a p'
           | (Js.Throw e, p') => (Js.Throw e, p')
           end.

Definition lift {S A : Type} (c : Js.completion A) : M S A := fun p => (c, p).

Definition throw {S A : Type} (e : Js.error) : M S A := fun p => (Js.Throw e, p).

Definition read {S A : Type} (f : S -> A) : M S A := fun p => (Js.Normal (f p), p).

Definition modify {S : Type} (f : S -> S) : M S unit := fun p => (Js.Normal tt, f p).

(** [try { body } catch (error) { handler(error) }] *)
Definition try_catch {S : Type} (body : M S unit) (handler : Js.error -> M S unit)
  : M S unit :=
  fun p => match body p with
           | (Js.Normal _, p') => (Js.Normal tt, p')
           | (Js.Throw e, p') => handler e p'
           end.

(** [items.map(f)] with an [f] that writes state *)
Fixpoint each {S A B : Type} (f : A -> M S B) (items : list A) : M S (list B) :=
  match items with
  | [] => ret []
  | it :: rest => bind (f it) (fun y => bind (each f rest) (fun ys => ret (y :: ys)))
  end.

End Eff.

Notation "x <- c ;; k" := (Eff.bind c (fun x => k))
  (at level 61, c at next level, right associativity).
Notation "c ;;; k" := (Eff.bind c (fun _ => k))
  (at level 61, right associativity).

(* ===================================================================== *)
(** * The chart widget library, as far as the scripts use it *)
(* ===================================================================== *)

Module ChartJs.

Record dataset : Type := mkDataset {
  ds_label : string;
  ds_data : list Js.value;
  ds_borderColor : option string;
  ds_backgroundColor : option string;
  ds_borderWidth : option float;
  ds_fill : bool;
  ds_tension : option float
}.

Record axis : Type := mkAxis { axis_display : bool; axis_title : option string }.

Record options : Type := mkOptions {
  opt_responsive : bool;
  opt_maintainAspectRatio : option bool;
  opt_title : option string;
  opt_legend : option bool;
  opt_x : option axis;
  opt_y : option axis;
  opt_interaction : option (bool * string)
}.

Record config : Type := mkConfig {
  cfg_type : string;
  cfg_labels : list Js.value;
  cfg_datasets : list dataset;
  cfg_options : options
}.

(** A constructed Chart: the canvas it draws on, what it shows, and whether
    [destroy()] was called on it. *)
Record widget : Type := mkWidget {
  w_canvas : string;
  w_config : config;
  w_destroyed : bool
}.

(** [new Chart(ctx, cfg)]: the new widget and its reference. *)
Definition construct (canvas : string) (cfg : config) (ws : list widget)
  : nat * list widget :=
  (length ws, (ws ++ [mkWidget canvas cfg false])%list).

(** [chart.destroy()] *)
Fixpoint destroy (ref : nat) (ws : list widget) : list widget :=
  match ws, ref with
  | [], _ => []
  | w :: rest, O => mkWidget (w_canvas w) (w_config w) true :: rest
  | w :: rest, S ref' => w :: destroy ref' rest
  end.

(** The widgets on a canvas that were constructed and not destroyed. *)
Definition live_on (canvas : string) (ws : list widget) : list widget :=
  filter (fun w => (w_canvas w =? canvas) && negb (w_destroyed w)) ws.

(** What a chart reference shows, while it is live. *)
Definition shown (ref : option nat) (ws : list widget) : option config :=
  match ref with
  | None => None
  | Some r => match nth_error ws r with
              | Some w => if w_destroyed w then None else Some (w_config w)
              | None => None
              end
  end.

End ChartJs.

(* ===================================================================== *)
(** * fetch(): requests and the ways they settle *)
(* ===================================================================== *)

Module Net.

(** A GET request: the path and the query parameters before URL encoding. *)
Record request : Type := mkRequest {
  req_path : string;
  req_query : list (string * string);
  req_settled : bool
}.

(** How [await fetch(url)] followed by [await response.json()] ends. *)
Inductive outcome : Type :=
| FetchRejected (e : Js.error)
| JsonRejected (status : nat) (e : Js.error)
| Responded (status : nat) (data : Js.value).

(** [response.ok] *)
Definition response_ok (status : nat) : bool :=
  (200 <=? status)%nat && (status <=? 299)%nat.

(** [response.status] in a template literal *)
Definition status_text (status : nat) : string := Js.decimal_of_Z (Z.of_nat status).

Fixpoint settle (r : nat) (rs : list request) : list request :=
  match rs, r with
  | [], _ => []
  | q :: rest, O => mkRequest (req_path q) (req_query q) true :: rest
  | q :: rest, S r' => q :: settle r' rest
  end.

Definition query_param (k : string) (q : request) : string :=
  match find (fun kv => fst kv =? k) (req_query q) with
  | Some kv => snd kv
  | None => EmptyString
  end.

End Net.

(* ===================================================================== *)
(** * static/enhanced_app.js *)
(* ===================================================================== *)

Module Enhanced.
Import Js Eff.

(** #symbolInput, #periodSelect, #intervalSelect, #analysisSelect *)
Record form_controls : Type := mkForm {
  symbolInput : string;
  periodSelect : string;
  intervalSelect : string;
  analysisSelect : string
}.

(** A .tab-btn: its data-indicator attribute and whether its class list
    holds 'active'. *)
Record tab_btn : Type := mkTab { tab_indicator : string; tab_active : bool }.

Record page : Type := mkPage {
  (** the query form's controls, as the user left them *)
  form : form_controls;
  (** the .tab-btn buttons, in document order *)
  tabBtns : list tab_btn;
  (** #status: className and textContent *)
  status_className : string;
  status_textContent : string;
  (** innerHTML of the four text panels *)
  stockInfoBox : string;
  technicalSummary : string;
  tradingSignals : string;
  analysisBox : string;
  (** the script's globals; a chart is a reference into [widgets] *)
  priceChart : option nat;
  indicatorChart : option nat;
  currentIndicator : string;
  (** window.currentStockData *)
  currentStockData : value;
  (** every Chart constructed so far *)
  widgets : list ChartJs.widget;
  (** how many times Math.random() has been called *)
  random_calls : nat;
  (** every fetch() issued so far, in order *)
  requests : list Net.request
}.

Definition set_form (x : form_controls) (p : page) : page :=
  {| form := x; tabBtns := tabBtns p; status_className := status_className p;
     status_textContent := status_textContent p; stockInfoBox := stockInfoBox p;
     technicalSummary := technicalSummary p; tradingSignals := tradingSignals p;
     analysisBox := analysisBox p; priceChart := priceChart p;
     indicatorChart := indicatorChart p; currentIndicator := currentIndicator p;
     currentStockData := currentStockData p; widgets := widgets p;
     random_calls := random_calls p; requests := requests p |}.

Definition set_tabBtns (x : list tab_btn) (p : page) : page :=
  {| form := form p; tabBtns := x; status_className := status_className p;
     status_textContent := status_textContent p; stockInfoBox := stockInfoBox p;
     technicalSummary := technicalSummary p; tradingSignals := tradingSignals p;
     analysisBox := analysisBox p; priceChart := priceChart p;
     indicatorChart := indicatorChart p; currentIndicator := currentIndicator p;
     currentStockData := currentStockData p; widgets := widgets p;
     random_calls := random_calls p; requests := requests p |}.

Definition set_status_className (x : string) (p : page) : page :=
  {| form := form p; tabBtns := tabBtns p; status_className := x;
     status_textContent := status_textContent p; stockInfoBox := stockInfoBox p;
     technicalSummary := technicalSummary p; tradingSignals := tradingSignals p;
     analysisBox := analysisBox p; priceChart := priceChart p;
     indicatorChart := indicatorChart p; currentIndicator := currentIndicator p;
     currentStockData := currentStockData p; widgets := widgets p;
     random_calls := random_calls p; requests := requests p |}.

Definition set_status_textContent (x : string) (p : page) : page :=
  {| form := form p; tabBtns := tabBtns p; status_className := status_className p;
     status_textContent := x; stockInfoBox := stockInfoBox p;
     technicalSummary := technicalSummary p; tradingSignals := tradingSignals p;
     analysisBox := analysisBox p; priceChart := priceChart p;
     indicatorChart := indicatorChart p; currentIndicator := currentIndicator p;
     currentStockData := currentStockData p; widgets := widgets p;
     random_calls := random_calls p; requests := requests p |}.

Definition set_stockInfoBox (x : string) (p : page) : page :=
  {| form := form p; tabBtns := tabBtns p; status_className := status_className p;
     status_textContent := status_textContent p; stockInfoBox := x;
     technicalSummary := technicalSummary p; tradingSignals := tradingSignals p;
     analysisBox := analysisBox p; priceChart := priceChart p;
     indicatorChart := indicatorChart p; currentIndicator := currentIndicator p;
     currentStockData := currentStockData p; widgets := widgets p;
     random_calls := random_calls p; requests := requests p |}.

Definition set_technicalSummary (x : string) (p : page) : page :=
  {| form := form p; tabBtns := tabBtns p; status_className := status_className p;
     status_textContent := status_textContent p; stockInfoBox := stockInfoBox p;
     technicalSummary := x; tradingSignals := tradingSignals p;
     analysisBox := analysisBox p; priceChart := priceChart p;
     indicatorChart := indicatorChart p; currentIndicator := currentIndicator p;
     currentStockData := currentStockData p; widgets := widgets p;
     random_calls := random_calls p; requests := requests p |}.

Definition set_tradingSignals (x : string) (p : page) : page :=
  {| form := form p; tabBtns := tabBtns p; status_className := status_className p;
     status_textContent := status_textContent p; stockInfoBox := stockInfoBox p;
     technicalSummary := technicalSummary p; tradingSignals := x;
     analysisBox := analysisBox p; priceChart := priceChart p;
     indicatorChart := indicatorChart p; currentIndicator := currentIndicator p;
     currentStockData := currentStockData p; widgets := widgets p;
     random_calls := random_calls p; requests := requests p |}.

Definition set_analysisBox (x : string) (p : page) : page :=
  {| form := form p; tabBtns := tabBtns p; status_className := status_className p;
     status_textContent := status_textContent p; stockInfoBox := stockInfoBox p;
     technicalSummary := technicalSummary p; tradingSignals := tradingSignals p;
     analysisBox := x; priceChart := priceChart p;
     indicatorChart := indicatorChart p; currentIndicator := currentIndicator p;
     currentStockData := currentStockData p; widgets := widgets p;
     random_calls := random_calls p; requests := requests p |}.

Definition set_priceChart (x : option nat) (p : page) : page :=
  {| form := form p; tabBtns := tabBtns p; status_className := status_className p;
     status_textContent := status_textContent p; stockInfoBox := stockInfoBox p;
     technicalSummary := technicalSummary p; tradingSignals := tradingSignals p;
     analysisBox := analysisBox p; priceChart := x;
     indicatorChart := indicatorChart p; currentIndicator := currentIndicator p;
     currentStockData := currentStockData p; widgets := widgets p;
     random_calls := random_calls p; requests := requests p |}.

Definition set_indicatorChart (x : option nat) (p : page) : page :=
  {| form := form p; tabBtns := tabBtns p; status_className := status_className p;
     status_textContent := status_textContent p; stockInfoBox := stockInfoBox p;
     technicalSummary := technicalSummary p; tradingSignals := tradingSignals p;
     analysisBox := analysisBox p; priceChart := priceChart p; indicatorChart := x;
     currentIndicator := currentIndicator p; currentStockData := currentStockData p;
     widgets := widgets p; random_calls := random_calls p; requests := requests p |}.

Definition set_currentIndicator (x : string) (p : page) : page :=
  {| form := form p; tabBtns := tabBtns p; status_className := status_className p;
     status_textContent := status_textContent p; stockInfoBox := stockInfoBox p;
     technicalSummary := technicalSummary p; tradingSignals := tradingSignals p;
     analysisBox := analysisBox p; priceChart := priceChart p;
     indicatorChart := indicatorChart p; currentIndicator := x;
     currentStockData := currentStockData p; widgets := widgets p;
     random_calls := random_calls p; requests := requests p |}.

Definition set_currentStockData (x : value) (p : page) : page :=
  {| form := form p; tabBtns := tabBtns p; status_className := status_className p;
     status_textContent := status_textContent p; stockInfoBox := stockInfoBox p;
     technicalSummary := technicalSummary p; tradingSignals := tradingSignals p;
     analysisBox := analysisBox p; priceChart := priceChart p;
     indicatorChart := indicatorChart p; currentIndicator := currentIndicator p;
     currentStockData := x; widgets := widgets p; random_calls := random_calls p;
     requests := requests p |}.

Definition set_widgets (x : list ChartJs.widget) (p : page) : page :=
  {| form := form p; tabBtns := tabBtns p; status_className := status_className p;
     status_textContent := status_textContent p; stockInfoBox := stockInfoBox p;
     technicalSummary := technicalSummary p; tradingSignals := tradingSignals p;
     analysisBox := analysisBox p; priceChart := priceChart p;
     indicatorChart := indicatorChart p; currentIndicator := currentIndicator p;
     currentStockData := currentStockData p; widgets := x;
     random_calls := random_calls p; requests := requests p |}.

Definition set_random_calls (x : nat) (p : page) : page :=
  {| form := form p; tabBtns := tabBtns p; status_className := status_className p;
     status_textContent := status_textContent p; stockInfoBox := stockInfoBox p;
     technicalSummary := technicalSummary p; tradingSignals := tradingSignals p;
     analysisBox := analysisBox p; priceChart := priceChart p;
     indicatorChart := indicatorChart p; currentIndicator := currentIndicator p;
     currentStockData := currentStockData p; widgets := widgets p; random_calls := x;
     requests := requests p |}.

Definition set_requests (x : list Net.request) (p : page) : page :=
  {| form := form p; tabBtns := tabBtns p; status_className := status_className p;
     status_textContent := status_textContent p; stockInfoBox := stockInfoBox p;
     technicalSummary := technicalSummary p; tradingSignals := tradingSignals p;
     analysisBox := analysisBox p; priceChart := priceChart p;
     indicatorChart := indicatorChart p; currentIndicator := currentIndicator p;
     currentStockData := currentStockData p; widgets := widgets p;
     random_calls := random_calls p; requests := x |}.

Definition M : Type -> Type := Eff.M page.

Definition send (path : string) (query : list (string * string)) (p : page) : page :=
  set_requests (requests p ++ [Net.mkRequest path query false])%list p.

Section Script.
Context {host : Host}.

(** [value === 0] *)
Definition is_zero (v : value) : bool :=
  match v with VNum x => PrimFloat.eqb x 0%float | _ => false end.

Definition is_null (v : value) : bool :=
  match v with VNull => true | _ => false end.

Definition is_undefined (v : value) : bool :=
  match v with VUndef => true | _ => false end.

(** [value === 'text'] *)
Definition is_string (text : string) (v : value) : bool :=
  match v with VStr s => s =? text | _ => false end.

(** [value > bound] with a number on the right *)
Definition greater (v : value) (bound : float) : completion bool :=
  let* x := ToNumber v in Normal (PrimFloat.ltb bound x).

(** [(value / unit).toFixed(digits)] *)
Definition scaled (v : value) (unit : float) (digits : nat) : completion string :=
  let* x := ToNumber v in Normal (to_fixed (x / unit)%float digits).

Definition div_loading (text : string) : string :=
  "<div class=" ++ dq ++ "loading" ++ dq ++ ">" ++ text ++ "</div>".

Definition pre (text : string) : string := "<pre>" ++ text ++ "</pre>".

(** The synchronous part of fetchStockData, up to [await fetch(...)]. *)
Definition fetchStockData_begin (symbol period interval analysisType : string)
  (p : page) : page :=
  let p := set_status_className "status loading" p in
  let p := set_status_textContent ("正在分析 " ++ symbol ++ "...") p in
  let p := set_stockInfoBox (div_loading "加载股票信息中...") p in
  let p := set_technicalSummary (div_loading "计算技术指标中...") p in
  let p := set_tradingSignals (div_loading "生成交易信号中...") p in
  let p := set_analysisBox (div_loading "AI分析中...") p in
  send "/api/stock_data"
       [("symbol", symbol); ("period", period); ("interval", interval);
        ("analysis_type", analysisType)] p.

Definition formatValue (value : value) (suffix : string) : Js.value :=
  if is_null value || is_undefined value || is_zero value then VStr "N/A"
  else match value with
       | VNum x => VStr (to_locale_string x ++ suffix)
       | _ => value
       end.

Definition formatMarketCap (value : value) : completion string :=
  if negb (truthy value) || is_zero value then Normal "N/A"
  else
    let* trillions := greater value 1e12%float in
    if trillions : bool
    then let* text := scaled value 1e12%float 2 in Normal ("$" ++ text ++ "T")
    else
      let* billions := greater value 1e9%float in
      if billions : bool
      then let* text := scaled value 1e9%float 2 in Normal ("$" ++ text ++ "B")
      else
        let* millions := greater value 1e6%float in
        if millions : bool
        then let* text := scaled value 1e6%float 2 in Normal ("$" ++ text ++ "M")
        else let* text := call_toLocaleString value in Normal ("$" ++ text).

Definition info_item (label text : string) : string :=
  "    <div class=" ++ dq ++ "info-item" ++ dq ++ ">" ++ lf ++
  "      <span class=" ++ dq ++ "info-label" ++ dq ++ ">" ++ label ++ "</span>" ++ lf ++
  "      <span class=" ++ dq ++ "info-value" ++ dq ++ ">" ++ text ++ "</span>" ++ lf ++
  "    </div>" ++ lf.

(** The HTML updateStockInfo assigns to #stockInfoBox. *)
Definition stockInfo_html (stockInfo : value) : completion string :=
  let* unavailable := (if truthy stockInfo
                       then let* e := get stockInfo "error" in Normal (truthy e)
                       else Normal true) in
  if unavailable : bool then Normal (div_loading "股票信息不可用")
  else
    let* name := get stockInfo "name" in
    let* name := ToString (or_else name (VStr "N/A")) in
    let* sector := get stockInfo "sector" in
    let* sector := ToString (or_else sector (VStr "N/A")) in
    let* market_cap := get stockInfo "market_cap" in
    let* market_cap := formatMarketCap market_cap in
    let* pe_ratio := get stockInfo "pe_ratio" in
    let* pe_ratio := ToString (formatValue pe_ratio EmptyString) in
    let* dividend_yield := get stockInfo "dividend_yield" in
    let* dividend_yield := ToNumber dividend_yield in
    let* dividend_yield :=
      ToString (formatValue (VNum (dividend_yield * 100)%float) "%") in
    let* beta := get stockInfo "beta" in
    let* beta := ToString (formatValue beta EmptyString) in
    let* price := get stockInfo "price" in
    let* price := ToString (formatValue price EmptyString) in
    let* exchange := get stockInfo "exchange" in
    let* exchange := ToString (or_else exchange (VStr "N/A")) in
    Normal
      (lf ++
       info_item "公司名称:" name ++
       info_item "行业:" sector ++
       info_item "市值:" market_cap ++
       info_item "市盈率:" pe_ratio ++
       info_item "股息率:" dividend_yield ++
       info_item "Beta系数:" beta ++
       info_item "当前价格:" ("$" ++ price) ++
       info_item "交易所:" exchange ++
       "  ").

Definition updateStockInfo (stockInfo : value) : M unit :=
  html <- lift (stockInfo_html stockInfo) ;;
  modify (set_stockInfoBox html).

Definition technicalSummary_html (summary : value) : completion string :=
  let* text := ToString (or_else summary (VStr "暂无技术分析数据")) in
  Normal (pre text).

Definition updateTechnicalSummary (summary : value) : M unit :=
  html <- lift (technicalSummary_html summary) ;;
  modify (set_technicalSummary html).

Definition getSignalClass (signal : value) : string :=
  if is_string "bullish" signal then "signal-bullish"
  else if is_string "bearish" signal then "signal-bearish"
  else "signal-neutral".

Definition getSignalIcon (signal : value) : string :=
  if is_string "bullish" signal then "↗"
  else if is_string "bearish" signal then "↘"
  else "→".

Definition signal_row (signal : value) : completion string :=
  let* text := ToString signal in
  Normal
    (lf ++
     "        <div class=" ++ dq ++ "signal-item" ++ dq ++ ">" ++ lf ++
     "          <div class=" ++ dq ++ "signal-icon signal-neutral" ++ dq ++ ">•</div>" ++ lf ++
     "          <div>" ++ text ++ "</div>" ++ lf ++
     "        </div>" ++ lf ++
     "      ").

(** The HTML updateTradingSignals assigns to #tradingSignals. *)
Definition tradingSignals_html (signals : value) : completion string :=
  let* missing := (if truthy signals
                   then let* l := get signals "signals" in Normal (negb (truthy l))
                   else Normal true) in
  if missing : bool then Normal (div_loading "暂无交易信号")
  else
    let* overall := get signals "overall_signal" in
    let* overall_text := ToString overall in
    let* strength := get signals "signal_strength" in
    let* strength := ToNumber strength in
    let html :=
      lf ++
      "    <div class=" ++ dq ++ "signal-item" ++ dq ++ ">" ++ lf ++
      "      <div class=" ++ dq ++ "signal-icon " ++ getSignalClass overall ++ dq ++ ">" ++ lf ++
      "        " ++ getSignalIcon overall ++ lf ++
      "      </div>" ++ lf ++
      "      <div>" ++ lf ++
      "        <strong>总体信号: " ++ overall_text ++ "</strong>" ++ lf ++
      "        <br>" ++ lf ++
      "        <small>信号强度: " ++ to_fixed (strength * 100)%float 1 ++ "%</small>" ++ lf ++
      "      </div>" ++ lf ++
      "    </div>" ++ lf ++
      "  " in
    let* l := get signals "signals" in
    let* some := (if truthy l
                  then let* n := get l "length" in greater n 0%float
                  else Normal false) in
    let* rows := (if some : bool
                  then let* items := array_method "forEach" l in map_each signal_row items
                  else Normal []) in
    Normal (html ++ String.concat EmptyString rows).

Definition updateTradingSignals (signals : value) : M unit :=
  html <- lift (tradingSignals_html signals) ;;
  modify (set_tradingSignals html).

Definition analysis_html (analysis : value) : completion string :=
  let* text := ToString (or_else analysis (VStr "暂无分析数据")) in
  Normal (pre text).

Definition updateAnalysis (analysis : value) : M unit :=
  html <- lift (analysis_html analysis) ;;
  modify (set_analysisBox html).

(** [if (chart) chart.destroy()] *)
Definition destroy_if_any (ref : option nat) (ws : list ChartJs.widget)
  : list ChartJs.widget :=
  match ref with
  | Some r => ChartJs.destroy r ws
  | None => ws
  end.

(** [new Chart(ctx, cfg)] on the canvas with the given id *)
Definition new_Chart (canvas : string) (cfg : ChartJs.config) : M nat :=
  fun p => let (r, ws) := ChartJs.construct canvas cfg (widgets p) in
           (Normal r, set_widgets ws p).

Definition line_options (title yAxisTitle : string) : ChartJs.options :=
  ChartJs.mkOptions true (Some false) (Some title) (Some true)
    (Some (ChartJs.mkAxis true (Some "时间")))
    (Some (ChartJs.mkAxis true (Some yAxisTitle)))
    (Some (false, "index")).

(** The configuration renderPriceChart passes to [new Chart]. *)
Definition priceChart_config (data : value) : completion ChartJs.config :=
  let* rows := get data "data" in
  let* labels := map_prop rows "date" in
  let* rows := get data "data" in
  let* prices := map_prop rows "close" in
  let* rows := get data "data" in
  let* volumes := map_prop rows "volume" in
  let* symbol := get data "symbol" in
  let* label := ToString symbol in
  let* symbol := get data "symbol" in
  let* symbol := ToString symbol in
  let* period := get data "period" in
  let* period := ToString period in
  Normal
    (ChartJs.mkConfig "line" labels
       [ChartJs.mkDataset (label ++ " 收盘价") prices
          (Some "#2a5298") (Some "rgba(42, 82, 152, 0.1)") (Some 2%float)
          true (Some 0.1%float)]
       (line_options (symbol ++ " 价格走势 (" ++ period ++ ")") "价格 ($)")).

Definition renderPriceChart (data : value) : M unit :=
  old <- read priceChart ;;
  modify (fun p => set_widgets (destroy_if_any old (widgets p)) p) ;;;
  cfg <- lift (priceChart_config data) ;;
  r <- new_Chart "priceChart" cfg ;;
  modify (set_priceChart (Some r)).

(** [Math.random()] *)
Definition Math_random : M float :=
  fun p => (Normal (math_random (random_calls p)),
            set_random_calls (S (random_calls p)) p).

(** The datasets, title and y-axis title of each case of the switch in
    renderIndicatorChart. *)
Definition series : Type := (list ChartJs.dataset * string * string)%type.

Definition no_series : series := ([], EmptyString, EmptyString).

Definition rsi_series (data : value) : completion series :=
  let* rsi := get data "rsi" in
  let* present := (if truthy rsi
                   then let* n := get rsi "length" in greater n 0%float
                   else Normal false) in
  if present : bool then
    let* rsi := get data "rsi" in
    let* values := map_prop rsi "value" in
    Normal ([ChartJs.mkDataset "RSI" values (Some "#ff6b6b")
               (Some "rgba(255, 107, 107, 0.1)") (Some 2%float) false None],
            "RSI 相对强弱指数", "RSI")
  else Normal no_series.

Definition macd_series (data : value) : M series :=
  rows <- lift (get data "data") ;;
  items <- lift (array_method "map" rows) ;;
  values <- each (fun _ => x <- Math_random ;; Eff.ret (VNum (x * 2 - 1)%float)) items ;;
  ret ([ChartJs.mkDataset "MACD" values (Some "#4ecdc4")
          (Some "rgba(78, 205, 196, 0.1)") (Some 2%float) false None],
       "MACD 指标", "MACD").

Definition volume_series (data : value) : completion series :=
  let* rows := get data "data" in
  let* values := map_prop rows "volume" in
  Normal ([ChartJs.mkDataset "成交量" values (Some "#45b7d1")
             (Some "rgba(69, 183, 209, 0.3)") (Some 1%float) true None],
          "成交量", "成交量").

Definition indicator_series (indicator : string) (data : value) : M series :=
  if indicator =? "rsi" then lift (rsi_series data)
  else if indicator =? "macd" then macd_series data
  else if indicator =? "volume" then lift (volume_series data)
  else ret no_series.

Definition renderIndicatorChart (data : value) : M unit :=
  old <- read indicatorChart ;;
  modify (fun p => set_widgets (destroy_if_any old (widgets p)) p) ;;;
  rows <- lift (get data "data") ;;
  labels <- lift (map_prop rows "date") ;;
  indicator <- read currentIndicator ;;
  chosen <- indicator_series indicator data ;;
  let '(datasets, title, yAxisTitle) := chosen in
  r <- new_Chart "indicatorChart"
         (ChartJs.mkConfig "line" labels datasets (line_options title yAxisTitle)) ;;
  modify (set_indicatorChart (Some r)).

(** [!response.ok || data.error] *)
Definition response_failed (status : nat) (data : value) : completion bool :=
  if negb (Net.response_ok status) then Normal true
  else let* e := get data "error" in Normal (truthy e).

(** The branch of fetchStockData taken when the test above holds. *)
Definition fetchStockData_failure (status : nat) (data : value) : M unit :=
  e <- lift (get data "error") ;;
  let errorMsg := or_else e (VStr ("HTTP错误: " ++ Net.status_text status)) in
  modify (set_status_className "status error") ;;;
  text <- lift (ToString errorMsg) ;;
  modify (set_status_textContent ("❌ 错误: " ++ text)) ;;;
  modify (set_stockInfoBox (div_loading "数据加载失败")) ;;;
  modify (set_technicalSummary (div_loading "技术分析失败")) ;;;
  modify (set_tradingSignals (div_loading "信号生成失败")) ;;;
  modify (set_analysisBox (div_loading "AI分析失败")).

(** The rest of the [try] block, taken otherwise. *)
Definition fetchStockData_success (symbol : string) (data : value) : M unit :=
  modify (set_currentStockData data) ;;;
  modify (set_status_className "status success") ;;;
  rows <- lift (get data "data") ;;
  n <- lift (get rows "length") ;;
  n <- lift (ToString n) ;;
  modify (set_status_textContent
            ("✅ 成功获取 " ++ symbol ++ " 数据 (" ++ n ++ " 条记录)")) ;;;
  stock_info <- lift (get data "stock_info") ;;
  updateStockInfo stock_info ;;;
  indicators <- lift (get data "technical_indicators") ;;
  summary <- lift (get indicators "summary") ;;
  updateTechnicalSummary summary ;;;
  indicators <- lift (get data "technical_indicators") ;;
  signals <- lift (get indicators "signals") ;;
  updateTradingSignals signals ;;;
  analysis <- lift (get data "analysis") ;;
  updateAnalysis analysis ;;;
  renderPriceChart data ;;;
  renderIndicatorChart data.

(** fetchStockData after [await response.json()]: the body of the [try]
    from the test of the response on. *)
Definition fetchStockData_response (symbol : string) (status : nat) (data : value)
  : M unit :=
  failed <- lift (response_failed status data) ;;
  if failed : bool
  then fetchStockData_failure status data
  else fetchStockData_success symbol data.

(** The [catch] block of fetchStockData (console.error writes no page
    state). *)
Definition fetchStockData_catch (error : error) : M unit :=
  modify (set_status_className "status error") ;;;
  modify (set_status_textContent ("❌ 请求异常: " ++ err_message error)).

(** fetchStockData from the moment its request settles. *)
Definition fetchStockData_settle (symbol : string) (o : Net.outcome) (p : page) : page :=
  snd (try_catch
         (match o with
          | Net.FetchRejected e => throw e
          | Net.JsonRejected _ e => throw e
          | Net.Responded status data => fetchStockData_response symbol status data
          end)
         fetchStockData_catch p).

(** The form's submit listener (preventDefault only stops the navigation). *)
Definition submit (p : page) : page :=
  let symbol := trim (symbolInput (form p)) in
  if symbol =? EmptyString then p
  else fetchStockData_begin symbol (periodSelect (form p)) (intervalSelect (form p))
                            (analysisSelect (form p)) p.

Fixpoint activate (i : nat) (btns : list tab_btn) : list tab_btn :=
  match btns, i with
  | [], _ => []
  | b :: rest, O => mkTab (tab_indicator b) true :: rest
  | b :: rest, S i' => b :: activate i' rest
  end.

(** The click listener of the i-th tab button.  An exception thrown by the
    render is uncaught: the listener ends and the writes made stay. *)
Definition tab_click (i : nat) (p : page) : page :=
  match nth_error (tabBtns p) i with
  | None => p
  | Some btn =>
      let p := set_tabBtns
                 (activate i (map (fun b => mkTab (tab_indicator b) false) (tabBtns p))) p in
      let p := set_currentIndicator (tab_indicator btn) p in
      if truthy (currentStockData p)
      then snd (renderIndicatorChart (currentStockData p) p)
      else p
  end.

Definition initializeApp (p : page) : page :=
  if negb (symbolInput (form p) =? EmptyString)
  then fetchStockData_begin (trim (symbolInput (form p))) "1mo" "1d" "quick" p
  else p.

(** The synchronous part of loadMarketOverview.  The index grid it fills is
    not part of [page]: nothing else in the script reads or writes it. *)
Definition loadMarketOverview_begin (p : page) : page :=
  send "/api/market_overview" [] p.

Definition DOMContentLoaded (p : page) : page :=
  loadMarketOverview_begin (initializeApp p).

(** What can happen to a loaded page. *)
Inductive event : Type :=
| Edit (f : form_controls)
| Submit
| TabClick (i : nat)
| Settled (r : nat) (o : Net.outcome).

Definition step (ev : event) (p : page) : page :=
  match ev with
  | Edit f => set_form f p
  | Submit => submit p
  | TabClick i => tab_click i p
  | Settled r o =>
      match nth_error (requests p) r with
      | Some q =>
          if Net.req_settled q then p
          else
            let p := set_requests (Net.settle r (requests p)) p in
            if Net.req_path q =? "/api/stock_data"
            then fetchStockData_settle (Net.query_param "symbol" q) o p
            else p
      | None => p
      end
  end.

Definition run (evs : list event) (p : page) : page :=
  fold_left (fun q ev => step ev q) evs p.

End Script.

End Enhanced.

(* ===================================================================== *)
(** * static/app.js *)
(* ===================================================================== *)

Module Basic.
Import Js Eff.

Record page : Type := mkPage {
  (** value of #symbolInput *)
  symbolInput : string;
  (** textContent of #status, #summaryBox and #analysisBox *)
  status_textContent : string;
  summaryBox : string;
  analysisBox : string;
  (** the script's global; a reference into [widgets] *)
  chart : option nat;
  (** every Chart constructed so far *)
  widgets : list ChartJs.widget;
  (** every fetch() issued so far, in order *)
  requests : list Net.request
}.

Definition set_symbolInput (x : string) (p : page) : page :=
  {| symbolInput := x; status_textContent := status_textContent p;
     summaryBox := summaryBox p; analysisBox := analysisBox p; chart := chart p;
     widgets := widgets p; requests := requests p |}.

Definition set_status_textContent (x : string) (p : page) : page :=
  {| symbolInput := symbolInput p; status_textContent := x;
     summaryBox := summaryBox p; analysisBox := analysisBox p; chart := chart p;
     widgets := widgets p; requests := requests p |}.

Definition set_summaryBox (x : string) (p : page) : page :=
  {| symbolInput := symbolInput p; status_textContent := status_textContent p;
     summaryBox := x; analysisBox := analysisBox p; chart := chart p;
     widgets := widgets p; requests := requests p |}.

Definition set_analysisBox (x : string) (p : page) : page :=
  {| symbolInput := symbolInput p; status_textContent := status_textContent p;
     summaryBox := summaryBox p; analysisBox := x; chart := chart p;
     widgets := widgets p; requests := requests p |}.

Definition set_chart (x : option nat) (p : page) : page :=
  {| symbolInput := symbolInput p; status_textContent := status_textContent p;
     summaryBox := summaryBox p; analysisBox := analysisBox p; chart := x;
     widgets := widgets p; requests := requests p |}.

Definition set_widgets (x : list ChartJs.widget) (p : page) : page :=
  {| symbolInput := symbolInput p; status_textContent := status_textContent p;
     summaryBox := summaryBox p; analysisBox := analysisBox p; chart := chart p;
     widgets := x; requests := requests p |}.

Definition set_requests (x : list Net.request) (p : page) : page :=
  {| symbolInput := symbolInput p; status_textContent := status_textContent p;
     summaryBox := summaryBox p; analysisBox := analysisBox p; chart := chart p;
     widgets := widgets p; requests := x |}.

Definition M : Type -> Type := Eff.M page.

Definition send (path : string) (query : list (string * string)) (p : page) : page :=
  set_requests (requests p ++ [Net.mkRequest path query false])%list p.

Section Script.
Context {host : Host}.

(** The synchronous part of fetchStock, up to [await fetch(...)]. *)
Definition fetchStock_begin (symbol : string) (p : page) : page :=
  let p := set_status_textContent ("正在查询 " ++ symbol ++ "...") p in
  let p := set_summaryBox "加载中..." p in
  let p := set_analysisBox "加载中..." p in
  send "/api/stock" [("symbol", symbol)] p.

Definition renderChart (labels data : list value) (symbol : value) : M unit :=
  old <- read chart ;;
  modify (fun p => set_widgets (match old with
                                | Some r => ChartJs.destroy r (widgets p)
                                | None => widgets p
                                end) p) ;;;
  label <- lift (ToString symbol) ;;
  fun p =>
    let (r, ws) :=
      ChartJs.construct "priceChart"
        (ChartJs.mkConfig "line" labels
           [ChartJs.mkDataset (label ++ " 收盘价") data None None None false None]
           (ChartJs.mkOptions true None None None
              (Some (ChartJs.mkAxis false None)) None None))
        (widgets p) in
    (Normal tt, set_chart (Some r) (set_widgets ws p)).

(** [!resp.ok || data.error] *)
Definition response_failed (status : nat) (data : value) : completion bool :=
  if negb (Net.response_ok status) then Normal true
  else let* e := get data "error" in Normal (truthy e).

(** The branch of fetchStock taken when the test above holds. *)
Definition fetchStock_failure (status : nat) (data : value) : M unit :=
  e <- lift (get data "error") ;;
  let msg := or_else e (VStr ("HTTP 错误: " ++ Net.status_text status)) in
  text <- lift (ToString msg) ;;
  modify (set_status_textContent ("❌ 出错：" ++ text)) ;;;
  modify (set_summaryBox "暂无数据") ;;;
  modify (set_analysisBox "暂无分析").

(** [lines.join('\n')] of the summary lines *)
Definition summary_text (s : value) : completion string :=
  let* s_symbol := get s "symbol" in
  let* s_symbol := ToString s_symbol in
  let* first_time := get s "first_time" in
  let* first_time := ToString first_time in
  let* last_time := get s "last_time" in
  let* last_time := ToString last_time in
  let* first_close := (let* v := get s "first_close" in call_toFixed v 2) in
  let* last_close := (let* v := get s "last_close" in call_toFixed v 2) in
  let* change := (let* v := get s "change" in call_toFixed v 2) in
  let* change_pct := (let* v := get s "change_pct" in call_toFixed v 2) in
  let* high := (let* v := get s "high" in call_toFixed v 2) in
  let* low := (let* v := get s "low" in call_toFixed v 2) in
  Normal
    (join lf
       [ "股票代码：" ++ s_symbol;
         "时间范围：" ++ first_time ++ "  ~  " ++ last_time;
         "起始收盘价：" ++ first_close;
         "最新收盘价：" ++ last_close;
         "涨跌：" ++ change ++ "  (" ++ change_pct ++ "%)";
         "最高价：" ++ high;
         "最低价：" ++ low ]).

(** The rest of the [try] block, taken otherwise. *)
Definition fetchStock_success (symbol : string) (data : value) : M unit :=
  points <- lift (get data "points") ;;
  n <- lift (get points "length") ;;
  n <- lift (ToString n) ;;
  modify (set_status_textContent
            ("✅ 已获取 " ++ symbol ++ " 数据，共 " ++ n ++ " 条记录")) ;;;
  s <- lift (get data "summary") ;;
  text <- lift (summary_text s) ;;
  modify (set_summaryBox text) ;;;
  points <- lift (get data "points") ;;
  labels <- lift (map_prop points "time") ;;
  points <- lift (get data "points") ;;
  closes <- lift (map_prop points "close") ;;
  s_symbol <- lift (get s "symbol") ;;
  renderChart labels closes s_symbol ;;;
  llm <- lift (get data "llm_analysis") ;;
  if truthy llm
  then text <- lift (ToString llm) ;; modify (set_analysisBox text)
  else modify (set_analysisBox
                 "未启用 LLM 分析或调用失败。可以在 config.yaml 中开启 llm.enable。").

(** fetchStock after [await resp.json()]. *)
Definition fetchStock_response (symbol : string) (status : nat) (data : value) : M unit :=
  failed <- lift (response_failed status data) ;;
  if failed : bool
  then fetchStock_failure status data
  else fetchStock_success symbol data.

(** The [catch] block of fetchStock. *)
Definition fetchStock_catch (err : error) : M unit :=
  modify (set_status_textContent ("❌ 请求异常：" ++ error_to_string err)) ;;;
  modify (set_summaryBox "暂无数据") ;;;
  modify (set_analysisBox "暂无分析").

Definition fetchStock_settle (symbol : string) (o : Net.outcome) (p : page) : page :=
  snd (try_catch
         (match o with
          | Net.FetchRejected e => throw e
          | Net.JsonRejected _ e => throw e
          | Net.Responded status data => fetchStock_response symbol status data
          end)
         fetchStock_catch p).

(** The form's submit listener. *)
Definition submit (p : page) : page :=
  let symbol := trim (symbolInput p) in
  if symbol =? EmptyString then p else fetchStock_begin symbol p.

Definition DOMContentLoaded (p : page) : page :=
  if negb (symbolInput p =? EmptyString)
  then fetchStock_begin (trim (symbolInput p)) p
  else p.

(** What happens on the page after it was loaded: the user edits the
    input or submits the form, or a request settles and the rest of the
    fetchStock that issued it runs.  Every request of app.js is a stock
    query. *)
Inductive event : Type :=
| Edit (symbol : string)
| Submit
| Settled (r : nat) (o : Net.outcome).

Definition step (ev : event) (p : page) : page :=
  match ev with
  | Edit symbol => set_symbolInput symbol p
  | Submit => submit p
  | Settled r o =>
      match nth_error (requests p) r with
      | Some q =>
          if Net.req_settled q then p
          else fetchStock_settle (Net.query_param "symbol" q) o
                 (set_requests (Net.settle r (requests p)) p)
      | None => p
      end
  end.

Definition run (evs : list event) (p : page) : page :=
  fold_left (fun q ev => step ev q) evs p.

End Script.

End Basic.

(* ===================================================================== *)
(** * static/enhanced_app.js: the market overview *)
(* ===================================================================== *)

Module Overview.
Import Js Eff.

(** The enhanced page together with the innerHTML of #indicesGrid, which
    loadMarketOverview alone writes. *)
Record board : Type := mkBoard { page : Enhanced.page; indicesGrid : string }.

Definition set_page (x : Enhanced.page) (b : board) : board :=
  {| page := x; indicesGrid := indicesGrid b |}.

Definition set_indicesGrid (x : string) (b : board) : board :=
  {| page := page b; indicesGrid := x |}.

Definition M : Type -> Type := Eff.M board.

(** ** Object.entries *)

Definition is_digit (c : ascii) : bool :=
  (48 <=? nat_of_ascii c)%nat && (nat_of_ascii c <=? 57)%nat.

Fixpoint decimal_value (s : string) (acc : N) : option N :=
  match s with
  | EmptyString => Some acc
  | String c r =>
      if is_digit c
      then decimal_value r (10 * acc + N.of_nat (nat_of_ascii c - 48))%N
      else None
  end.

(** The array index a property key denotes: a canonical decimal numeral
    below 2^32 - 1. *)
Definition array_index (k : string) : option N :=
  match k with
  | EmptyString => None
  | String c r =>
      if (nat_of_ascii c =? 48)%nat && negb (r =? EmptyString) then None
      else match decimal_value k 0%N with
           | Some n => if (n <? 4294967295)%N then Some n else None
           | None => None
           end
  end.

Fixpoint insert_by_index (n : N) (e : string * value) (l : list (N * (string * value)))
  : list (N * (string * value)) :=
  match l with
  | [] => [(n, e)]
  | (m, e') :: rest =>
      if (n <? m)%N then (n, e) :: l else (m, e') :: insert_by_index n e rest
  end.

(** The own properties of an object in enumeration order: the array
    indices ascending, then the other keys in creation order. *)
Definition ordered (props : list (string * value)) : list (string * value) :=
  let indexed :=
    fold_left (fun acc e => match array_index (fst e) with
                            | Some n => insert_by_index n e acc
                            | None => acc
                            end) props [] in
  (map snd indexed ++
   filter (fun e => match array_index (fst e) with Some _ => false | None => true end)
          props)%list.

Fixpoint numbered (i : nat) (items : list value) : list (string * value) :=
  match items with
  | [] => []
  | v :: rest => (decimal_of_Z (Z.of_nat i), v) :: numbered (S i) rest
  end.

(** Up to [n] continuation bytes (10xxxxxx) from the front of [s]. *)
Fixpoint continuation (n : nat) (s : string) : string * string :=
  match n, s with
  | S n', String c r =>
      if ((128 <=? nat_of_ascii c) && (nat_of_ascii c <? 192))%nat
      then let (t, r') := continuation n' r in (String c t, r')
      else (EmptyString, s)
  | _, _ => (EmptyString, s)
  end.

Definition byte_at (i : nat) (s : string) : N :=
  match String.get i s with
  | Some c => N_of_ascii c
  | None => 0%N
  end.

(** A UTF-16 code unit as the three bytes that hold a code point of the
    range 0800..FFFF. *)
Definition unit_bytes (u : N) : string :=
  bytes (map N.to_nat [224 + u / 4096; 128 + (u / 64) mod 64; 128 + u mod 64]%N).

(** The surrogate pair of a four-byte sequence. *)
Definition surrogates (s : string) : list string :=
  let cp := ((byte_at 0 s mod 8) * 262144 + (byte_at 1 s mod 64) * 4096 +
             (byte_at 2 s mod 64) * 64 + byte_at 3 s mod 64)%N in
  let v := (cp - 65536)%N in
  [unit_bytes (55296 + v / 1024)%N; unit_bytes (56320 + v mod 1024)%N].

(** The UTF-16 code units of a string, each as a string of its own. *)
Fixpoint code_units_fuel (fuel : nat) (s : string) : list string :=
  match fuel, s with
  | S fuel', String c r =>
      let b := nat_of_ascii c in
      if (b <? 128)%nat then String c EmptyString :: code_units_fuel fuel' r
      else if (b <? 192)%nat then code_units_fuel fuel' r
      else if (b <? 224)%nat then
        let (t, r') := continuation 1 r in String c t :: code_units_fuel fuel' r'
      else if (b <? 240)%nat then
        let (t, r') := continuation 2 r in String c t :: code_units_fuel fuel' r'
      else
        let (t, r') := continuation 3 r in
        (surrogates (String c t) ++ code_units_fuel fuel' r')%list
  | _, _ => []
  end.

Definition code_units (s : string) : list string := code_units_fuel (String.length s) s.

(** [Object.entries(v)] of a parsed JSON value. *)
Definition entries (v : value) : completion (list (string * value)) :=
  match v with
  | VUndef | VNull =>
      Throw (mkError "TypeError" "Cannot convert undefined or null to object")
  | VObj props => Normal (ordered props)
  | VArr items => Normal (numbered 0 items)
  | VStr s => Normal (numbered 0 (map VStr (code_units s)))
  | VBool _ | VNum _ => Normal []
  end.

Section Script.
Context {host : Host}.

(** [value >= bound] with a number on the right *)
Definition at_least (v : value) (bound : float) : completion bool :=
  let* x := ToNumber v in Normal (PrimFloat.leb bound x).

(** One turn of the loop of loadMarketOverview: the card of an index. *)
Definition index_card (name : string) (info : value) : completion string :=
  let* pct := get info "change_pct" in
  let* up := at_least pct 0%float in
  let changeClass := if up : bool then "positive" else "negative" in
  let* pct := get info "change_pct" in
  let* up := at_least pct 0%float in
  let changeSymbol := if up : bool then "+" else EmptyString in
  let* price := (let* v := get info "current_price" in call_toFixed v 2) in
  let* change := (let* v := get info "change" in call_toFixed v 2) in
  let* change_pct := (let* v := get info "change_pct" in call_toFixed v 2) in
  Normal
    (lf ++
     "        <div class=" ++ dq ++ "index-card" ++ dq ++ ">" ++ lf ++
     "          <div class=" ++ dq ++ "index-name" ++ dq ++ ">" ++ name ++ "</div>" ++ lf ++
     "          <div class=" ++ dq ++ "index-price" ++ dq ++ ">$" ++ price ++ "</div>" ++ lf ++
     "          <div class=" ++ dq ++ "index-change " ++ changeClass ++ dq ++ ">" ++ lf ++
     "            " ++ changeSymbol ++ change ++ " (" ++ changeSymbol ++ change_pct ++ "%)" ++ lf ++
     "          </div>" ++ lf ++
     "        </div>" ++ lf ++
     "      ").

(** The HTML the loop builds from [data.market_overview]. *)
Definition overview_html (data : value) : completion string :=
  let* overview := get data "market_overview" in
  let* named := entries overview in
  let* cards := map_each (fun e => index_card (fst e) (snd e)) named in
  Normal (String.concat EmptyString cards).

Definition loading : string := Enhanced.div_loading "加载市场数据中...".
Definition failure : string := Enhanced.div_loading "市场数据加载失败".

(** The synchronous part of loadMarketOverview, up to [await fetch(...)]. *)
Definition loadMarketOverview_begin (b : board) : board :=
  set_page (Enhanced.loadMarketOverview_begin (page b)) (set_indicesGrid loading b).

(** loadMarketOverview after [await response.json()]. *)
Definition loadMarketOverview_response (status : nat) (data : value) : M unit :=
  failed <- lift (Enhanced.response_failed status data) ;;
  if failed : bool then modify (set_indicesGrid failure)
  else
    html <- lift (overview_html data) ;;
    modify (set_indicesGrid html).

(** The [catch] block of loadMarketOverview. *)
Definition loadMarketOverview_catch (error : error) : M unit :=
  modify (set_indicesGrid failure).

Definition loadMarketOverview_settle (o : Net.outcome) (b : board) : board :=
  snd (try_catch
         (match o with
          | Net.FetchRejected e => throw e
          | Net.JsonRejected _ e => throw e
          | Net.Responded status data => loadMarketOverview_response status data
          end)
         loadMarketOverview_catch b).

(** The DOMContentLoaded listener: initializeApp(), then
    loadMarketOverview(). *)
Definition DOMContentLoaded (b : board) : board :=
  loadMarketOverview_begin (set_page (Enhanced.initializeApp (page b)) b).

(** An event on the whole page: a settled market overview request runs the
    rest of loadMarketOverview, every other event is the page's. *)
Definition step (ev : Enhanced.event) (b : board) : board :=
  match ev with
  | Enhanced.Settled r o =>
      match nth_error (Enhanced.requests (page b)) r with
      | Some q =>
          if Net.req_settled q then b
          else if Net.req_path q =? "/api/market_overview"
               then loadMarketOverview_settle o (set_page (Enhanced.step ev (page b)) b)
               else set_page (Enhanced.step ev (page b)) b
      | None => b
      end
  | _ => set_page (Enhanced.step ev (page b)) b
  end.

Definition run (evs : list Enhanced.event) (b : board) : board :=
  fold_left (fun q ev => step ev q) evs b.

End Script.

End Overview.

(* ===================================================================== *)
(** * A concrete host and concrete inputs *)
(* ===================================================================== *)

(** One host to run the scripts on: an en-US page in a V8 browser.  Finite
    numbers are printed from their exact binary value.  Number::toString of
    a non-integer prints that exact decimal expansion (what a browser prints
    for the short dyadic values used below); StringToNumber reads unsigned
    decimal integers and takes every other string as not a number. *)
Module Browser.
Import Js.

Fixpoint zeros (n : nat) : string :=
  match n with
  | O => EmptyString
  | S n' => String "0" (zeros n')
  end.

Fixpoint strip_zeros_rev (s : string) : string :=
  match s with
  | String "0" r => strip_zeros_rev r
  | _ => s
  end.

(** Trailing zeros of a fraction removed. *)
Definition strip_zeros (s : string) : string := reverse (strip_zeros_rev (reverse s)).

(** Integer digits grouped in threes from the right. *)
Fixpoint group_rev (s : string) (k : nat) : string :=
  match s with
  | EmptyString => EmptyString
  | String c r =>
      match k with
      | O => String "," (String c (group_rev r 2))
      | S k' => String c (group_rev r k')
      end
  end.

Definition group (s : string) : string := reverse (group_rev (reverse s) 3).

(** The digits of [n / 10^d]: integer part and the [d] fraction digits. *)
Definition split_digits (n : Z) (d : nat) : string * string :=
  let ds := decimal_of_Z n in
  let ds := zeros (S d - String.length ds) ++ ds in
  (substring 0 (String.length ds - d) ds, substring (String.length ds - d) d ds).

(** The sign bit of a finite number and its magnitude times 10^d, rounded
    half up, or exact when [d] is not given. *)
Definition scaled (x : float) (d : option nat) : option (bool * Z * nat) :=
  match FloatOps.Prim2SF x with
  | SpecFloat.S754_zero neg => Some (neg, 0%Z, match d with Some k => k | None => O end)
  | SpecFloat.S754_finite neg m e =>
      let k := match d with Some k => k | None => Z.to_nat (- e) end in
      let num := (Z.pos m * 10 ^ Z.of_nat k)%Z in
      Some (neg,
            if (0 <=? e)%Z then (num * 2 ^ e)%Z
            else ((2 * num + 2 ^ (- e)) / 2 ^ (1 - e))%Z,
            k)
  | _ => None
  end.

Definition special (x : float) (inf : string) : string :=
  if PrimFloat.is_nan x then "NaN"
  else if PrimFloat.ltb x 0%float then "-" ++ inf else inf.

Definition toFixed (x : float) (d : nat) : string :=
  match scaled x (Some d) with
  | Some (_, n, k) =>
      let (i, f) := split_digits n k in
      (if PrimFloat.ltb x 0%float then "-" else EmptyString) ++ i ++
      (if String.length f =? 0 then EmptyString else "." ++ f)%nat
  | None => special x "Infinity"
  end.

Definition toLocaleString (x : float) : string :=
  match scaled x (Some 3) with
  | Some (neg, n, k) =>
      let (i, f) := split_digits n k in
      let f := strip_zeros f in
      (if neg : bool then "-" else EmptyString) ++ group i ++
      (if String.length f =? 0 then EmptyString else "." ++ f)%nat
  | None => special x "∞"
  end.

Definition exact_decimal (x : float) : string :=
  match scaled x None with
  | Some (_, n, k) =>
      let (i, f) := split_digits n k in
      let f := strip_zeros f in
      (if PrimFloat.ltb x 0%float then "-" else EmptyString) ++ i ++
      (if String.length f =? 0 then EmptyString else "." ++ f)%nat
  | None => special x "Infinity"
  end.

Fixpoint digits_value (s : string) (acc : Z) : option Z :=
  match s with
  | EmptyString => Some acc
  | String c r =>
      let b := Z.of_nat (nat_of_ascii c) in
      if ((48 <=? b) && (b <=? 57))%Z then digits_value r (10 * acc + (b - 48))%Z
      else None
  end.

Definition stringToNumber (s : string) : float :=
  match digits_value (trim s) 0%Z with
  | Some z => PrimFloat.of_uint63 (Uint63.of_Z z)
  | None => PrimFloat.nan
  end.

Definition nullish_name (v : value) : string :=
  match v with VNull => "null" | _ => "undefined" end.

#[export] Instance host : Host := {|
  shortest_decimal := exact_decimal;
  to_fixed := toFixed;
  to_locale_string := toLocaleString;
  string_to_number := stringToNumber;
  cannot_read_message := fun v k =>
    "Cannot read properties of " ++ nullish_name v ++ " (reading '" ++ k ++ "')";
  not_a_function_message := fun k => k ++ " is not a function";
  cannot_convert_message := "Cannot convert object to primitive value";
  math_random := fun n => (float_of_nat (n mod 8) / 8)%float
|}.

End Browser.

(** Response bodies and pages the statements below are run on. *)
Module Samples.
Import Js.

Definition row (date : string) (close volume : float) : value :=
  VObj [("date", VStr date); ("close", VNum close); ("volume", VNum volume)].

(** The fields of a complete /api/stock_data body. *)
Definition stock_fields (symbol : string) (open_close : float) : list (string * value) :=
  [ ("symbol", VStr symbol);
    ("period", VStr "1mo");
    ("data", VArr [row "2024-01-02" open_close 1000; row "2024-01-03" 184.25 1200]);
    ("rsi", VArr [VObj [("value", VNum 55)]; VObj [("value", VNum 57.5)]]);
    ("stock_info",
     VObj [ ("name", VStr symbol); ("sector", VStr "Technology");
            ("market_cap", VNum 2.5e12); ("pe_ratio", VNum 28.5);
            ("dividend_yield", VNum 0.005); ("beta", VNum 1.25);
            ("price", VNum 184.25); ("exchange", VStr "NMS") ]);
    ("technical_indicators",
     VObj [ ("summary", VStr "RSI 57.5");
            ("signals",
             VObj [ ("overall_signal", VStr "bullish");
                    ("signal_strength", VNum 0.75);
                    ("signals", VArr [VStr "RSI neutral"]) ]) ]);
    ("analysis", VStr "steady") ].

Definition stock (symbol : string) (open_close : float) : value :=
  VObj (stock_fields symbol open_close).

Definition aapl : value := stock "AAPL" 185.5.

(** The same body without the optional technical_indicators field. *)
Definition no_indicators : value :=
  VObj
    [ ("symbol", VStr "AAPL");
      ("period", VStr "1mo");
      ("data", VArr [row "2024-01-02" 185.5 1000; row "2024-01-03" 184.25 1200]);
      ("stock_info", VObj [("name", VStr "AAPL")]);
      ("analysis", VStr "steady") ].

Definition tabs : list Enhanced.tab_btn :=
  [Enhanced.mkTab "rsi" true; Enhanced.mkTab "macd" false; Enhanced.mkTab "volume" false].

(** The enhanced page as loaded, with [symbol] typed into the input. *)
Definition fresh (symbol : string) : Enhanced.page :=
  Enhanced.mkPage (Enhanced.mkForm symbol "3mo" "1wk" "detailed") tabs
    "status" EmptyString EmptyString EmptyString EmptyString EmptyString
    None None "rsi" VUndef [] 0 [].

(** The basic page as loaded, with [symbol] typed into the input. *)
Definition fresh_basic (symbol : string) : Basic.page :=
  Basic.mkPage symbol EmptyString EmptyString EmptyString None [] [].







(** The enhanced page after a query for AAPL was submitted and answered. *)
Definition loaded : Enhanced.page :=
  Enhanced.run (host := Browser.host)
    [Enhanced.Submit; Enhanced.Settled 0 (Net.Responded 200 aapl)]
    (fresh "AAPL").

(** A /api/market_overview body with two indices. *)
Definition overview : value :=
  VObj [ ("market_overview",
          VObj [ ("S&P 500",
                  VObj [ ("current_price", VNum 4783.45); ("change", VNum 12.5);
                         ("change_pct", VNum 0.26) ]);
                 ("NASDAQ",
                  VObj [ ("current_price", VNum 15055.65); ("change", VNum (-20.25));
                         ("change_pct", VNum (-0.13)) ]) ]) ].

(** The enhanced page and its grid as loaded. *)
Definition fresh_board (symbol : string) : Overview.board :=
  Overview.mkBoard (fresh symbol) EmptyString.

(** A complete /api/stock body of app.js, with the given analysis. *)
Definition basic_with (llm_analysis : value) : value :=
  VObj [ ("summary",
          VObj [ ("symbol", VStr "AAPL");
                 ("first_time", VStr "2024-01-02"); ("last_time", VStr "2024-01-03");
                 ("first_close", VNum 185.5); ("last_close", VNum 184.25);
                 ("change", VNum (-1.25)); ("change_pct", VNum (-0.67));
                 ("high", VNum 186); ("low", VNum 183.5) ]);
         ("points",
          VArr [ VObj [("time", VStr "2024-01-02"); ("close", VNum 185.5)];
                 VObj [("time", VStr "2024-01-03"); ("close", VNum 184.25)] ]);
         ("llm_analysis", llm_analysis) ].

Definition basic_body : value := basic_with (VStr "steady").

(** The same body with an analysis that does not convert to a string. *)
Definition unprintable_analysis : value := basic_with (VObj [("toString", VNum 1)]).

End Samples.

(* ===================================================================== *)
(** * What the statements speak about *)
(* ===================================================================== *)

(** [keeps I c]: running [c] from a state in [I] ends in a state in [I],
    whether [c] returns or throws. *)
Definition keeps {S A : Type} (I : S -> Prop) (c : Eff.M S A) : Prop :=
  forall p, I p -> I (snd (c p)).

Module View.
Import Js Enhanced.






(** The text of the status line and of the four panels. *)
Definition texts (p : page) : list string :=
  [status_className p; status_textContent p; stockInfoBox p; technicalSummary p;
   tradingSignals p; analysisBox p].


(** Every field of the page but the widgets, the count of random draws and
    the indicator chart's global. *)
Definition around_indicator (p0 p : page) : Prop :=
  form p = form p0 /\ tabBtns p = tabBtns p0 /\ texts p = texts p0 /\
  priceChart p = priceChart p0 /\ currentIndicator p = currentIndicator p0 /\
  currentStockData p = currentStockData p0 /\ requests p = requests p0.

(** The values of the MACD case: one result of Math.random per row,
    scaled to [-1, 1), from the [start]-th call on. *)
Fixpoint draws {host : Host} (start n : nat) : list value :=
  match n with
  | O => []
  | S n' => VNum (math_random start * 2 - 1)%float :: draws (S start) n'
  end.

(** The text of a loading placeholder, as fetchStockData writes them. *)
Definition loading_texts : list string :=
  [ div_loading "加载股票信息中..."; div_loading "计算技术指标中...";
    div_loading "生成交易信号中..."; div_loading "AI分析中..." ].




End View.

(** [returns P c Q]: when [c] runs from a state in [P] and returns, it ends
    in a state in [Q]. *)
Definition returns {S A : Type} (P : S -> Prop) (c : Eff.M S A) (Q : S -> Prop) : Prop :=
  forall p, P p -> forall a, fst (c p) = Js.Normal a -> Q (snd (c p)).

(** [total c]: [c] returns from every state. *)
Definition total {S A : Type} (c : Eff.M S A) : Prop :=
  forall p, exists a, fst (c p) = Js.Normal a.

(** [oblivious g c]: [c] neither reads nor writes what [g] writes, so that
    [g] can be applied before or after it. *)
Definition oblivious {S A : Type} (g : S -> S) (c : Eff.M S A) : Prop :=
  forall p, c (g p) = (fst (c p), g (snd (c p))).

Module Shape.
Import Js.

Section WithHost.
Context {host : Host}.

Definition readable (c : completion value) (ok : value -> bool) : bool :=
  match c with
  | Normal v => ok v
  | Throw _ => false
  end.

(** An array none of whose elements is undefined or null. *)
Definition rows_ok (v : value) : bool :=
  match v with
  | VArr items => forallb (fun it => negb (is_nullish it)) items
  | _ => false
  end.

(** An array, or a falsy value standing for an absent one. *)
Definition list_or_absent (v : value) : bool :=
  match v with
  | VArr _ => true
  | _ => negb (truthy v)
  end.

(** The shape of body the success branch of fetchStockData reads without
    an exception: [data] an array of rows, [technical_indicators] present
    with [signals] absent or holding a list (or nothing) under [signals],
    and [rsi] absent or an array of points. *)
Definition well_shaped (data : value) : bool :=
  readable (get data "data") rows_ok &&
  readable (get data "technical_indicators")
    (fun ti =>
       negb (is_nullish ti) &&
       readable (get ti "signals")
         (fun s => negb (truthy s) || readable (get s "signals") list_or_absent)) &&
  readable (get data "rsi") (fun r => negb (truthy r) || rows_ok r).

(** A body no object of which, at any depth, has a member named toString
    or toLocaleString: every value in it converts to a string and to a
    number, and prints in the locale. *)
Fixpoint plain (v : value) : bool :=
  match v with
  | VArr items => forallb plain items
  | VObj props =>
      negb (has_own "toString" props) && negb (has_own "toLocaleString" props) &&
      forallb (fun kv => plain (snd kv)) props
  | _ => true
  end.

End WithHost.

End Shape.

Module Widgets.
Import Enhanced.

(** Every widget that was not destroyed is the one a chart global refers
    to, on that global's canvas. *)
Definition tidy (p : page) : Prop :=
  forall r w,
    nth_error (widgets p) r = Some w ->
    ChartJs.w_destroyed w = false ->
    (priceChart p = Some r /\ ChartJs.w_canvas w = "priceChart") \/
    (indicatorChart p = Some r /\ ChartJs.w_canvas w = "indicatorChart").

(** The same for the single chart of app.js. *)
Definition tidy_basic (b : Basic.page) : Prop :=
  forall r w,
    nth_error (Basic.widgets b) r = Some w ->
    ChartJs.w_destroyed w = false ->
    Basic.chart b = Some r /\ ChartJs.w_canvas w = "priceChart".

(** The status line of a stock query that succeeded. *)
Definition success_line (symbol : string) (p : page) : Prop :=
  status_className p = "status success" /\
  exists n, status_textContent p = "✅ 成功获取 " ++ symbol ++ " 数据 (" ++ n ++ " 条记录)".

(** No text panel shows the loading placeholder fetchStockData began
    with. *)
Definition panels_settled (p : page) : Prop :=
  stockInfoBox p <> div_loading "加载股票信息中..." /\
  technicalSummary p <> div_loading "计算技术指标中..." /\
  tradingSignals p <> div_loading "生成交易信号中..." /\
  analysisBox p <> div_loading "AI分析中...".


End Widgets.

(* ===================================================================== *)
(** * What a settled query shows *)
(* ===================================================================== *)

Section BasicOutcomes.
Context {host : Js.Host}.
Import Js Eff Basic.

(** The failure texts of app.js, with the chart left as it was in [b]. *)
Definition failure_shown (b b' : page) : Prop :=
  (exists msg, status_textContent b' = "❌ " ++ msg) /\
  summaryBox b' = "暂无数据" /\
  analysisBox b' = "暂无分析" /\
  chart b' = chart b /\
  widgets b' = widgets b.

Definition success_shown (symbol : string) (data : value) (b' : page) : Prop :=
  (exists n, status_textContent b' =
             "✅ 已获取 " ++ symbol ++ " 数据，共 " ++ n ++ " 条记录") /\
  (exists s, get data "summary" = Normal s /\ summary_text s = Normal (summaryBox b')) /\
  summaryBox b' <> "加载中..." /\
  (exists llm, get data "llm_analysis" = Normal llm /\
               analysisBox b' =
               if truthy llm then to_str llm
               else "未启用 LLM 分析或调用失败。可以在 config.yaml 中开启 llm.enable。") /\
  ChartJs.shown (chart b') (widgets b') <> None.

(** The failure texts of app.js over a chart that was drawn anew: the
    success branch got as far as renderChart, and the analysis text then
    did not convert to a string. *)
Definition failure_over_new_chart (data : value) (b b' : page) : Prop :=
  status_textContent b' =
    "❌ 请求异常：" ++ error_to_string (type_error cannot_convert_message) /\
  summaryBox b' = "暂无数据" /\
  analysisBox b' = "暂无分析" /\
  (exists llm, get data "llm_analysis" = Normal llm /\
               truthy llm = true /\ prints llm = false) /\
  chart b' = Some (length (widgets b)) /\
  exists cfg,
    widgets b' =
      (match chart b with
       | Some r => ChartJs.destroy r (widgets b)
       | None => widgets b
       end ++ [ChartJs.mkWidget "priceChart" cfg false])%list.

End BasicOutcomes.

(** Every dataset of a chart has one value per label. *)
Definition aligned (cfg : ChartJs.config) : Prop :=
  Forall (fun ds => length (ChartJs.ds_data ds) = length (ChartJs.cfg_labels cfg))
         (ChartJs.cfg_datasets cfg).

Section OverviewOutcomes.
Context {host : Js.Host}.
Import Js Eff Overview.

(** The grid a settled market overview request leaves, whatever the page. *)
Definition grid_of (o : Net.outcome) : string :=
  match o with
  | Net.FetchRejected _ | Net.JsonRejected _ _ => failure
  | Net.Responded status data =>
      match Enhanced.response_failed status data with
      | Normal false =>
          match overview_html data with
          | Normal html => html
          | Throw _ => failure
          end
      | _ => failure
      end
  end.

End OverviewOutcomes.

(* ===================================================================== *)
(** * Widgets and requests *)
(* ===================================================================== *)

Lemma destroy_length (r : nat) (ws : list ChartJs.widget) :
  length (ChartJs.destroy r ws) = length ws.
Proof.
  revert r; induction ws as [|w ws IH]; intros [|r]; cbn; auto.
Qed.


Lemma nth_error_new {A : Type} (ws : list A) (w : A) :
  nth_error (ws ++ [w]) (length ws) = Some w.
Proof.
  rewrite nth_error_app2 by lia. rewrite Nat.sub_diag. reflexivity.
Qed.

Lemma nth_error_old {A : Type} (ws : list A) (w : A) (r : nat) :
  r < length ws -> nth_error (ws ++ [w]) r = nth_error ws r.
Proof. intros H. apply nth_error_app1; exact H. Qed.

Lemma settle_other (r r' : nat) (rs : list Net.request) :
  r <> r' -> nth_error (Net.settle r rs) r' = nth_error rs r'.
Proof.
  revert r r'; induction rs as [|q rs IH]; intros [|r] [|r'] Hne; cbn; auto;
    try congruence.
Qed.

(* ===================================================================== *)
(** * Rules for [keeps] *)
(* ===================================================================== *)

Section KeepsRules.
Context {S : Type} (I : S -> Prop).

Lemma keeps_ret {A : Type} (a : A) : keeps I (Eff.ret a).
Proof. intros p H; exact H. Qed.

Lemma keeps_lift {A : Type} (c : Js.completion A) : keeps I (Eff.lift c).
Proof. intros p H; exact H. Qed.

Lemma keeps_throw {A : Type} (e : Js.error) : keeps I (@Eff.throw S A e).
Proof. intros p H; exact H. Qed.

Lemma keeps_read {A : Type} (f : S -> A) : keeps I (Eff.read f).
Proof. intros p H; exact H. Qed.

Lemma keeps_modify (f : S -> S) : (forall p, I p -> I (f p)) -> keeps I (Eff.modify f).
Proof. intros Hf p H; apply Hf; exact H. Qed.

Lemma keeps_bind {A B : Type} (c : Eff.M S A) (k : A -> Eff.M S B) :
  keeps I c -> (forall a, keeps I (k a)) -> keeps I (Eff.bind c k).
Proof.
  intros Hc Hk p H. unfold Eff.bind.
  specialize (Hc p H). destruct (c p) as [[a|e] p']; cbn in *.
  - apply Hk; exact Hc.
  - exact Hc.
Qed.

Lemma keeps_try_catch (body : Eff.M S unit) (handler : Js.error -> Eff.M S unit) :
  keeps I body -> (forall e, keeps I (handler e)) -> keeps I (Eff.try_catch body handler).
Proof.
  intros Hb Hh p H. unfold Eff.try_catch.
  specialize (Hb p H). destruct (body p) as [[a|e] p']; cbn in *.
  - exact Hb.
  - apply Hh; exact Hb.
Qed.

Lemma keeps_each {A B : Type} (f : A -> Eff.M S B) (items : list A) :
  (forall a, keeps I (f a)) -> keeps I (Eff.each f items).
Proof.
  intros Hf. induction items as [|it rest IH]; cbn [Eff.each].
  - apply keeps_ret.
  - apply keeps_bind; [apply Hf|]. intros y.
    apply keeps_bind; [exact IH|]. intros ys. apply keeps_ret.
Qed.

End KeepsRules.

(** Splits a [keeps] goal along the structure of the code. *)
Ltac keeps_step :=
  match goal with
  | |- keeps _ (Eff.bind _ _) => apply keeps_bind; [| intros ?]
  | |- keeps _ (Eff.ret _) => apply keeps_ret
  | |- keeps _ (Eff.lift _) => apply keeps_lift
  | |- keeps _ (Eff.throw _) => apply keeps_throw
  | |- keeps _ (Eff.read _) => apply keeps_read
  | |- keeps _ (Eff.each _ _) => apply keeps_each; intros ?
  | |- keeps _ (Eff.try_catch _ _) => apply keeps_try_catch; [| intros ?]
  | |- keeps _ (if ?b then _ else _) => destruct b
  | |- keeps _ (match ?x with Some _ => _ | None => _ end) => destruct x
  | |- keeps _ (let '(_, _) := ?x in _) => destruct x
  end.

(* ===================================================================== *)
(** * enhanced_app.js: what each function touches *)
(* ===================================================================== *)

Section EnhancedFacts.
Context {host : Js.Host}.
Import Js Eff Enhanced View.

(** Unfolds the sequencing of a computation applied to a page. *)
Ltac run_eff :=
  cbv beta iota delta [Eff.bind Eff.ret Eff.lift Eff.read Eff.modify Eff.throw
                       Eff.try_catch new_Chart ChartJs.construct Math_random];
  cbn [fst snd].

Lemma set_random_calls_same (p : page) : set_random_calls (random_calls p) p = p.
Proof. destruct p; reflexivity. Qed.

Lemma each_random (items : list value) (p : page) :
  each (fun _ => x <- Math_random ;; ret (VNum (x * 2 - 1)%float)) items p =
  (Normal (draws (random_calls p) (length items)),
   set_random_calls (random_calls p + length items) p).
Proof.
  revert p. induction items as [|it rest IH]; intros p; cbn [each length draws].
  - unfold ret. rewrite Nat.add_0_r, set_random_calls_same. reflexivity.
  - run_eff. rewrite IH. cbn [random_calls set_random_calls].
    f_equal. destruct p; unfold set_random_calls; cbn. f_equal; lia.
Qed.

(** The switch of renderIndicatorChart writes nothing but the count of
    random draws. *)
Lemma indicator_series_effect (indicator : string) (data : value) (p : page) :
  exists n, snd (indicator_series indicator data p) = set_random_calls n p.
Proof.
  unfold indicator_series.
  destruct (indicator =? "rsi").
  { exists (random_calls p). cbn. apply eq_sym, set_random_calls_same. }
  destruct (indicator =? "macd").
  { unfold macd_series. run_eff.
    destruct (get data "data") as [rows|e]; cbn [snd];
      [|exists (random_calls p); apply eq_sym, set_random_calls_same].
    destruct (array_method "map" rows) as [items|e]; cbn [snd];
      [|exists (random_calls p); apply eq_sym, set_random_calls_same].
    rewrite each_random. cbn [snd]. eexists; reflexivity. }
  destruct (indicator =? "volume");
    exists (random_calls p); cbn; apply eq_sym, set_random_calls_same.
Qed.

Lemma indicator_series_pure (indicator : string) (data : value) (p : page) :
  (indicator =? "macd") = false ->
  exists r, forall q, indicator_series indicator data q = (r, q).
Proof.
  intros Hm. unfold indicator_series. rewrite Hm.
  destruct (indicator =? "rsi"); [eexists; intros q; reflexivity|].
  destruct (indicator =? "volume"); eexists; intros q; reflexivity.
Qed.

(** An invariant that does not mention the count of random draws or the
    widgets survives the switch and the construction of a chart. *)
Lemma keeps_indicator_series (I : page -> Prop) (indicator : string) (data : value) :
  (forall n p, I p -> I (set_random_calls n p)) ->
  keeps I (indicator_series indicator data).
Proof.
  intros HI p Hp. destruct (indicator_series_effect indicator data p) as [n E].
  rewrite E. apply HI, Hp.
Qed.

Lemma keeps_new_Chart (I : page -> Prop) (canvas : string) (cfg : ChartJs.config) :
  (forall ws p, I p -> I (set_widgets ws p)) ->
  keeps I (new_Chart canvas cfg).
Proof. intros HI p Hp. unfold new_Chart. cbn. apply HI, Hp. Qed.

Lemma renderIndicatorChart_around (p0 : page) (data : value) :
  keeps (around_indicator p0) (renderIndicatorChart data).
Proof.
  unfold renderIndicatorChart.
  repeat first
    [ apply keeps_modify; intros q Hq; exact Hq
    | apply keeps_indicator_series; intros n q Hq; exact Hq
    | apply keeps_new_Chart; intros ws q Hq; exact Hq
    | keeps_step ].
Qed.



(** ** The chart globals stay well formed *)








End EnhancedFacts.

(* ===================================================================== *)
(** * Indicator tabs *)
(* ===================================================================== *)

Section IndicatorTabs.
Context {host : Js.Host}.
Import Js Eff Enhanced View.

Ltac run_eff :=
  cbv beta iota delta [Eff.bind Eff.ret Eff.lift Eff.read Eff.modify Eff.throw
                       Eff.try_catch new_Chart ChartJs.construct Math_random];
  cbn [fst snd].

Lemma shown_new (ws : list ChartJs.widget) (canvas : string) (cfg : ChartJs.config) :
  ChartJs.shown (Some (length ws)) (ws ++ [ChartJs.mkWidget canvas cfg false]) = Some cfg.
Proof. unfold ChartJs.shown. rewrite nth_error_new. reflexivity. Qed.


(** Whatever the body holds, the MACD chart is filled with one fresh
    random draw per row; no field of the body supplies its values. *)
Lemma renderIndicatorChart_macd (data : value) (items labels : list value) (p : page) :
  currentIndicator p = "macd" ->
  get data "data" = Normal (VArr items) ->
  map_prop (VArr items) "date" = Normal labels ->
  let p' := snd (renderIndicatorChart data p) in
  ChartJs.shown (indicatorChart p') (widgets p') =
    Some (ChartJs.mkConfig "line" labels
            [ChartJs.mkDataset "MACD" (draws (random_calls p) (length items))
               (Some "#4ecdc4") (Some "rgba(78, 205, 196, 0.1)") (Some 2%float)
               false None]
            (line_options "MACD 指标" "MACD")) /\
  random_calls p' = random_calls p + length items /\
  currentIndicator p' = "macd".
Proof.
  intros Hm Hrows Hlabels. unfold renderIndicatorChart. run_eff.
  rewrite Hrows. cbn [currentIndicator set_widgets]. rewrite Hlabels, Hm.
  unfold indicator_series, macd_series. cbn [String.eqb Ascii.eqb Bool.eqb].
  cbv beta iota delta [Eff.bind Eff.ret Eff.lift Eff.read Eff.modify].
  rewrite Hrows. cbn [array_method].
  pose proof (each_random items
                (set_widgets (destroy_if_any (indicatorChart p) (widgets p)) p)) as Hdraws.
  cbv beta iota delta [Eff.bind Eff.ret] in Hdraws. rewrite Hdraws.
  cbv beta iota delta [new_Chart ChartJs.construct]. cbn [fst snd].
  cbn [random_calls currentIndicator indicatorChart widgets set_widgets
       set_random_calls set_indicatorChart].
  split; [apply shown_new|]. split; [reflexivity | exact Hm].
Qed.







End IndicatorTabs.

(* ===================================================================== *)
(** * Responses: failure, success, and the order of arrival *)
(* ===================================================================== *)

Section Responses.
Context {host : Js.Host}.
Import Js Eff Enhanced View.

Ltac run_eff :=
  cbv beta iota delta [Eff.bind Eff.ret Eff.lift Eff.read Eff.modify Eff.throw
                       Eff.try_catch new_Chart ChartJs.construct Math_random];
  cbn [fst snd].

Ltac keeps_fields :=
  repeat first
    [ apply keeps_modify; intros ? ?; assumption
    | apply keeps_indicator_series; intros ? ? ?; assumption
    | apply keeps_new_Chart; intros ? ? ?; assumption
    | keeps_step ].

(** ** What a settled request leaves alone *)



(** ** The failure branch *)



Lemma fetchStockData_success_stores (symbol : string) (data : value) (p : page) :
  currentStockData
    (snd (try_catch (fetchStockData_success symbol data) fetchStockData_catch p)) = data.
Proof.
  revert p.
  assert (K : keeps (fun q => currentStockData q = data)
                (try_catch
                   (modify (set_status_className "status success") ;;;
                    rows <- lift (get data "data") ;;
                    n <- lift (get rows "length") ;;
                    n <- lift (ToString n) ;;
                    modify (set_status_textContent
                              ("✅ 成功获取 " ++ symbol ++ " 数据 (" ++ n ++ " 条记录)")) ;;;
                    stock_info <- lift (get data "stock_info") ;;
                    updateStockInfo stock_info ;;;
                    indicators <- lift (get data "technical_indicators") ;;
                    summary <- lift (get indicators "summary") ;;
                    updateTechnicalSummary summary ;;;
                    indicators <- lift (get data "technical_indicators") ;;
                    signals <- lift (get indicators "signals") ;;
                    updateTradingSignals signals ;;;
                    analysis <- lift (get data "analysis") ;;
                    updateAnalysis analysis ;;;
                    renderPriceChart data ;;;
                    renderIndicatorChart data)
                   fetchStockData_catch)).
  { unfold updateStockInfo, updateTechnicalSummary, updateTradingSignals, updateAnalysis,
      renderPriceChart, renderIndicatorChart, fetchStockData_catch.
    keeps_fields. }
  intros p. apply (K (set_currentStockData data p)). reflexivity.
Qed.




End Responses.

Section Arrival.
Context {host : Js.Host}.
Import Js Eff Enhanced View.

Ltac run_eff :=
  cbv beta iota delta [Eff.bind Eff.ret Eff.lift Eff.read Eff.modify Eff.throw
                       Eff.try_catch new_Chart ChartJs.construct Math_random];
  cbn [fst snd].





(** ** The same for app.js *)





End Arrival.


(* ===================================================================== *)
(** * Submitting the form and loading the page *)
(* ===================================================================== *)

Section Queries.
Context {host : Js.Host}.
Import Js Eff.

(** C8.  A submission whose symbol input is empty after trimming changes
    nothing on either page: no request is added to those sent, and the page
    (status line, panels, charts, stored data) is the same page. *)
Theorem empty_symbol_submit_is_noop (p : Enhanced.page) (b : Basic.page) :
  trim (Enhanced.symbolInput (Enhanced.form p)) = EmptyString ->
  trim (Basic.symbolInput b) = EmptyString ->
  Enhanced.step Enhanced.Submit p = p /\
  Enhanced.requests (Enhanced.submit p) = Enhanced.requests p /\
  Basic.submit b = b /\
  Basic.requests (Basic.submit b) = Basic.requests b.
Proof.
  intros Hp Hb. cbn [Enhanced.step]. unfold Enhanced.submit, Basic.submit.
  rewrite Hp, Hb. cbn. repeat split.
Qed.

(** C10.  When the symbol input holds a value as the page loads, the
    enhanced page sends a stock query for the trimmed value with period
    1mo, interval 1d and analysis type quick, whatever the three selectors
    show, before its market overview request; the basic page sends a stock
    query for the trimmed value. *)
Theorem page_load_auto_query (p : Enhanced.page) (b : Basic.page) :
  Enhanced.symbolInput (Enhanced.form p) <> EmptyString ->
  Basic.symbolInput b <> EmptyString ->
  Enhanced.requests (Enhanced.DOMContentLoaded p) =
    (Enhanced.requests p ++
     [ Net.mkRequest "/api/stock_data"
         [ ("symbol", trim (Enhanced.symbolInput (Enhanced.form p)));
           ("period", "1mo"); ("interval", "1d"); ("analysis_type", "quick") ]
         false;
       Net.mkRequest "/api/market_overview" [] false ])%list /\
  Basic.requests (Basic.DOMContentLoaded b) =
    (Basic.requests b ++
     [ Net.mkRequest "/api/stock" [("symbol", trim (Basic.symbolInput b))] false ])%list.
Proof.
  intros Hp Hb.
  apply String.eqb_neq in Hp. apply String.eqb_neq in Hb.
  unfold Enhanced.DOMContentLoaded, Enhanced.initializeApp, Basic.DOMContentLoaded.
  rewrite Hp, Hb. cbn. rewrite <- app_assoc. split; reflexivity.
Qed.

End Queries.

Lemma empty_symbol_submit_is_noop_witness :
  Enhanced.step (host := Browser.host) Enhanced.Submit (Samples.fresh "   ")
    = Samples.fresh "   " /\
  Basic.submit (Samples.fresh_basic " ") = Samples.fresh_basic " ".
Proof.
  destruct (empty_symbol_submit_is_noop (host := Browser.host)
              (Samples.fresh "   ") (Samples.fresh_basic " ") eq_refl eq_refl)
    as (H1 & _ & H3 & _).
  split; [exact H1 | exact H3].
Defined.

Lemma page_load_auto_query_witness :
  Enhanced.requests (Enhanced.DOMContentLoaded (Samples.fresh " AAPL")) =
    [ Net.mkRequest "/api/stock_data"
        [("symbol", "AAPL"); ("period", "1mo"); ("interval", "1d");
         ("analysis_type", "quick")] false;
      Net.mkRequest "/api/market_overview" [] false ] /\
  Basic.requests (Basic.DOMContentLoaded (Samples.fresh_basic "MSFT ")) =
    [ Net.mkRequest "/api/stock" [("symbol", "MSFT")] false ].
Proof.
  assert (Hp : Enhanced.symbolInput (Enhanced.form (Samples.fresh " AAPL")) <> EmptyString)
    by discriminate.
  assert (Hb : Basic.symbolInput (Samples.fresh_basic "MSFT ") <> EmptyString)
    by discriminate.
  destruct (page_load_auto_query _ _ Hp Hb) as [H1 H2].
  split; [exact H1 | exact H2].
Defined.





(* ===================================================================== *)
(** * Where the code departs from what is claimed of it *)
(* ===================================================================== *)

Section Departures.
Context {host : Js.Host}.
Import Js Eff Enhanced View.

Ltac run_eff :=
  cbv beta iota delta [Eff.bind Eff.ret Eff.lift Eff.read Eff.modify Eff.throw
                       Eff.try_catch new_Chart ChartJs.construct Math_random];
  cbn [fst snd].

(** C2 does not hold of fetchStockData: when the request or the reading of
    its body is rejected, the [catch] block rewrites the status line only,
    and the four panels keep the loading placeholders the call began with. *)
Theorem rejected_fetch_leaves_panels_loading
  (symbol period interval analysisType : string) (status : nat) (e : error) (p : page) :
  let began := fetchStockData_begin symbol period interval analysisType p in
  let p1 := fetchStockData_settle symbol (Net.FetchRejected e) began in
  let p2 := fetchStockData_settle symbol (Net.JsonRejected status e) began in
  texts p1 = ("status error" :: ("❌ 请求异常: " ++ err_message e) :: loading_texts) /\
  texts p2 = ("status error" :: ("❌ 请求异常: " ++ err_message e) :: loading_texts).
Proof. split; reflexivity. Qed.

(** The sibling script does reset its panels in the [catch] block. *)
Lemma fetchStock_rejected_resets_panels (symbol : string) (e : error) (b : Basic.page) :
  let b' := Basic.fetchStock_settle symbol (Net.FetchRejected e) (Basic.fetchStock_begin symbol b) in
  Basic.status_textContent b' = "❌ 请求异常：" ++ error_to_string e /\
  Basic.summaryBox b' = "暂无数据" /\
  Basic.analysisBox b' = "暂无分析".
Proof. repeat split. Qed.

(** C5 does not hold when technical_indicators is absent: reading
    [data.technical_indicators.summary] throws, the [catch] block reports
    the exception in the status line, the summary, signals and analysis
    panels stay on their loading placeholders and no chart is drawn. *)
Theorem missing_technical_indicators_throws
  (symbol period interval analysisType : string) (p : page) :
  let began := fetchStockData_begin symbol period interval analysisType p in
  let p' := fetchStockData_settle symbol (Net.Responded 200 Samples.no_indicators) began in
  get Samples.no_indicators "technical_indicators" = Normal VUndef /\
  response_failed 200 Samples.no_indicators = Normal false /\
  status_className p' = "status error" /\
  status_textContent p' = "❌ 请求异常: " ++ cannot_read_message VUndef "summary" /\
  technicalSummary p' = div_loading "计算技术指标中..." /\
  tradingSignals p' = div_loading "生成交易信号中..." /\
  analysisBox p' = div_loading "AI分析中..." /\
  widgets p' = widgets p.
Proof. repeat split. Qed.

(** The other optional fields are tolerated: an absent stock_info shows
    the unavailable placeholder, and an absent rsi series gives the
    indicator chart no dataset. *)
Lemma missing_stock_info_is_unavailable :
  stockInfo_html VUndef = Normal (div_loading "股票信息不可用") /\
  forall data, get data "rsi" = Normal VUndef -> rsi_series data = Normal no_series.
Proof.
  split; [reflexivity|]. intros data H. unfold rsi_series. rewrite H. reflexivity.
Qed.

(** ** The MACD case *)

(** C3 does not hold: with the macd tab selected, the indicator chart of a
    body with rows shows a MACD dataset made of [Math.random() * 2 - 1],
    one draw per row, and never an unavailable result. *)
Theorem macd_series_is_random_draws (data : value) (items labels : list value) (p : page) :
  currentIndicator p = "macd" ->
  get data "data" = Normal (VArr items) ->
  map_prop (VArr items) "date" = Normal labels ->
  let p' := snd (renderIndicatorChart data p) in
  option_map ChartJs.cfg_datasets (ChartJs.shown (indicatorChart p') (widgets p')) =
    Some [ChartJs.mkDataset "MACD" (draws (random_calls p) (length items))
            (Some "#4ecdc4") (Some "rgba(78, 205, 196, 0.1)") (Some 2%float)
            false None] /\
  random_calls p' = random_calls p + length items.
Proof.
  intros Hm Hrows Hlabels.
  destruct (renderIndicatorChart_macd data items labels p Hm Hrows Hlabels)
    as (Hs & Hr & _).
  cbv zeta. rewrite Hs. split; [reflexivity | exact Hr].
Qed.

(** C4 does not hold of renderIndicatorChart with the macd tab selected:
    two renders of the same body draw different random values, so the
    second chart differs from the first whenever the draws do. *)
Theorem macd_render_twice_differs (data : value) (items labels : list value) (p : page) :
  currentIndicator p = "macd" ->
  get data "data" = Normal (VArr items) ->
  map_prop (VArr items) "date" = Normal labels ->
  draws (random_calls p) (length items) <>
    draws (random_calls p + length items) (length items) ->
  let p1 := snd (renderIndicatorChart data p) in
  let p2 := snd (renderIndicatorChart data p1) in
  ChartJs.shown (indicatorChart p1) (widgets p1) <>
  ChartJs.shown (indicatorChart p2) (widgets p2).
Proof.
  intros Hm Hrows Hlabels Hd.
  destruct (renderIndicatorChart_macd data items labels p Hm Hrows Hlabels)
    as (Hs1 & Hr1 & Hm1).
  destruct (renderIndicatorChart_macd data items labels _ Hm1 Hrows Hlabels)
    as (Hs2 & _ & _).
  cbv zeta. rewrite Hs1, Hs2, Hr1. intros E. apply Hd.
  injection E as E. exact E.
Qed.

(** The same renderers with the same input show the same chart when no
    random draw is involved: the price chart, and the indicator chart of
    every tab but macd. *)
Lemma renderPriceChart_shows (data : value) (cfg : ChartJs.config) (p : page) :
  priceChart_config data = Normal cfg ->
  let p' := snd (renderPriceChart data p) in
  ChartJs.shown (priceChart p') (widgets p') = Some cfg.
Proof.
  intros Hc. unfold renderPriceChart. run_eff. rewrite Hc. cbn. apply shown_new.
Qed.

Lemma renderPriceChart_twice (data : value) (cfg : ChartJs.config) (p : page) :
  priceChart_config data = Normal cfg ->
  let p1 := snd (renderPriceChart data p) in
  let p2 := snd (renderPriceChart data p1) in
  ChartJs.shown (priceChart p2) (widgets p2) = ChartJs.shown (priceChart p1) (widgets p1).
Proof.
  intros Hc. cbv zeta. rewrite !(renderPriceChart_shows data cfg) by exact Hc. reflexivity.
Qed.

Lemma renderIndicatorChart_twice (data : value) (p : page) :
  (currentIndicator p =? "macd") = false ->
  fst (renderIndicatorChart data p) = Normal tt ->
  let p1 := snd (renderIndicatorChart data p) in
  let p2 := snd (renderIndicatorChart data p1) in
  ChartJs.shown (indicatorChart p2) (widgets p2) =
  ChartJs.shown (indicatorChart p1) (widgets p1).
Proof.
  intros Hmacd Hret.
  destruct (indicator_series_pure (currentIndicator p) data p Hmacd) as [ser Hser].
  revert Hret. unfold renderIndicatorChart. run_eff.
  destruct (get data "data") as [rows|e]; [|discriminate].
  destruct (map_prop rows "date") as [labels|e]; [|discriminate].
  cbn [currentIndicator set_widgets]. rewrite !Hser.
  destruct ser as [[[ds t] y]|e]; [|discriminate].
  cbn [fst snd currentIndicator set_widgets set_indicatorChart indicatorChart widgets].
  intros _. rewrite !Hser. cbn [fst snd indicatorChart widgets set_widgets set_indicatorChart].
  rewrite !shown_new. reflexivity.
Qed.

(** ** The stock-info panel *)

Lemma percent_is_not_NA (s : string) : s ++ "%" <> "N/A".
Proof.
  destruct s as [|a [|b [|c [|d s]]]]; cbn; intros H; discriminate H.
Qed.

(** What formatValue and formatMarketCap make of missing and zero values. *)
Lemma formatValue_NA (suffix : string) :
  formatValue VNull suffix = VStr "N/A" /\
  formatValue VUndef suffix = VStr "N/A" /\
  formatValue (VNum 0%float) suffix = VStr "N/A" /\
  formatValue (VNum (-0)%float) suffix = VStr "N/A" /\
  formatMarketCap VNull = Normal "N/A" /\
  formatMarketCap VUndef = Normal "N/A" /\
  formatMarketCap (VNum 0%float) = Normal "N/A" /\
  formatValue (VNum (to_number VNull * 100)%float) suffix = VStr "N/A" /\
  formatValue (VNum (to_number (VNum 0%float) * 100)%float) suffix = VStr "N/A".
Proof. repeat split. Qed.

(** C9 does not hold of the dividend yield: the field is multiplied by 100
    before formatValue sees it, so a stock_info without dividend_yield shows
    the locale's text for NaN followed by a percent sign, where every other
    missing numeric field shows N/A. *)
Theorem missing_dividend_yield_is_not_NA :
  let cell := to_str (formatValue (VNum (to_number VUndef * 100)%float) "%") in
  cell = to_locale_string PrimFloat.nan ++ "%" /\
  cell <> "N/A" /\
  stockInfo_html (VObj [("name", VStr "AAPL")]) =
    Normal
      (lf ++
       info_item "公司名称:" "AAPL" ++
       info_item "行业:" "N/A" ++
       info_item "市值:" "N/A" ++
       info_item "市盈率:" "N/A" ++
       info_item "股息率:" cell ++
       info_item "Beta系数:" "N/A" ++
       info_item "当前价格:" "$N/A" ++
       info_item "交易所:" "N/A" ++
       "  ").
Proof.
  cbv zeta. split; [reflexivity|]. split; [|reflexivity].
  change (to_str (formatValue (VNum (to_number VUndef * 100)%float) "%"))
    with (to_locale_string PrimFloat.nan ++ "%").
  apply percent_is_not_NA.
Qed.

End Departures.

Lemma macd_series_is_random_draws_witness :
  let p := Enhanced.set_currentIndicator "macd" Samples.loaded in
  let p' := snd (Enhanced.renderIndicatorChart (host := Browser.host) Samples.aapl p) in
  option_map ChartJs.cfg_datasets
    (ChartJs.shown (Enhanced.indicatorChart p') (Enhanced.widgets p')) =
    Some [ChartJs.mkDataset "MACD" [Js.VNum (-1)%float; Js.VNum (-0.75)%float]
            (Some "#4ecdc4") (Some "rgba(78, 205, 196, 0.1)") (Some 2%float)
            false None].
Proof.
  destruct (macd_series_is_random_draws (host := Browser.host) Samples.aapl
              [Samples.row "2024-01-02" 185.5 1000; Samples.row "2024-01-03" 184.25 1200]
              [Js.VStr "2024-01-02"; Js.VStr "2024-01-03"]
              (Enhanced.set_currentIndicator "macd" Samples.loaded)
              eq_refl eq_refl eq_refl) as [H _].
  exact H.
Defined.

Lemma float_values_differ (x y : float) :
  PrimFloat.eqb x y = false -> PrimFloat.eqb x x = true -> Js.VNum x <> Js.VNum y.
Proof.
  intros Hxy Hxx E. injection E as E. rewrite <- E in Hxy. congruence.
Qed.

Lemma macd_render_twice_differs_witness :
  let p := Enhanced.set_currentIndicator "macd" Samples.loaded in
  let p1 := snd (Enhanced.renderIndicatorChart (host := Browser.host) Samples.aapl p) in
  let p2 := snd (Enhanced.renderIndicatorChart (host := Browser.host) Samples.aapl p1) in
  ChartJs.shown (Enhanced.indicatorChart p1) (Enhanced.widgets p1) <>
  ChartJs.shown (Enhanced.indicatorChart p2) (Enhanced.widgets p2).
Proof.
  apply (macd_render_twice_differs (host := Browser.host) Samples.aapl
           [Samples.row "2024-01-02" 185.5 1000; Samples.row "2024-01-03" 184.25 1200]
           [Js.VStr "2024-01-02"; Js.VStr "2024-01-03"]
           (Enhanced.set_currentIndicator "macd" Samples.loaded)
           eq_refl eq_refl eq_refl).
  intros E. vm_compute in E.
  pose proof (f_equal (hd Js.VUndef) E) as E1. cbn [hd] in E1.
  revert E1. apply float_values_differ; reflexivity.
Defined.

(* ===================================================================== *)
(** * Rules for [returns] and [oblivious] *)
(* ===================================================================== *)

Section ReturnsRules.
Context {S : Type}.

Lemma returns_keep {A B : Type} (P Q : S -> Prop) (c : Eff.M S A) (k : A -> Eff.M S B) :
  keeps P c -> (forall a, returns P (k a) Q) -> returns P (Eff.bind c k) Q.
Proof.
  intros Hc Hk p Hp b. unfold Eff.bind. specialize (Hc p Hp).
  destruct (c p) as [[a|e] p']; cbn in *; [|discriminate].
  apply Hk; exact Hc.
Qed.

Lemma returns_then_keep {A B : Type} (P Q : S -> Prop) (c : Eff.M S A)
  (k : A -> Eff.M S B) :
  returns P c Q -> (forall a, keeps Q (k a)) -> returns P (Eff.bind c k) Q.
Proof.
  intros Hc Hk p Hp b. unfold Eff.bind. specialize (Hc p Hp).
  destruct (c p) as [[a|e] p']; cbn in *; [|discriminate].
  intros Hb. apply Hk. apply (Hc a). reflexivity.
Qed.

Lemma returns_bind {A B : Type} (P R Q : S -> Prop) (c : Eff.M S A)
  (k : A -> Eff.M S B) :
  returns P c R -> (forall a, returns R (k a) Q) -> returns P (Eff.bind c k) Q.
Proof.
  intros Hc Hk p Hp b. unfold Eff.bind. specialize (Hc p Hp).
  destruct (c p) as [[a|e] p']; cbn in *; [|discriminate].
  apply Hk. apply (Hc a). reflexivity.
Qed.

Lemma returns_of_keeps {A : Type} (P : S -> Prop) (c : Eff.M S A) :
  keeps P c -> returns P c P.
Proof. intros H p Hp a _. apply H, Hp. Qed.

Lemma returns_weaken {A : Type} (P Q Q' : S -> Prop) (c : Eff.M S A) :
  returns P c Q -> (forall p, Q p -> Q' p) -> returns P c Q'.
Proof. intros H HQ p Hp a Ha. apply HQ, (H p Hp a Ha). Qed.

Lemma returns_modify (P Q : S -> Prop) (f : S -> S) :
  (forall p, P p -> Q (f p)) -> returns P (Eff.modify f) Q.
Proof. intros H p Hp a _. apply H, Hp. Qed.

End ReturnsRules.

Section ObliviousRules.
Context {S : Type} (g : S -> S).

Lemma oblivious_ret {A : Type} (a : A) : oblivious g (Eff.ret a).
Proof. intros p; reflexivity. Qed.

Lemma oblivious_lift {A : Type} (c : Js.completion A) : oblivious g (Eff.lift c).
Proof. intros p; reflexivity. Qed.

Lemma oblivious_throw {A : Type} (e : Js.error) : oblivious g (@Eff.throw S A e).
Proof. intros p; reflexivity. Qed.

Lemma oblivious_read {A : Type} (f : S -> A) :
  (forall p, f (g p) = f p) -> oblivious g (Eff.read f).
Proof. intros H p. unfold Eff.read. rewrite H. reflexivity. Qed.

Lemma oblivious_modify (f : S -> S) :
  (forall p, f (g p) = g (f p)) -> oblivious g (Eff.modify f).
Proof. intros H p. unfold Eff.modify. rewrite H. reflexivity. Qed.

Lemma oblivious_bind {A B : Type} (c : Eff.M S A) (k : A -> Eff.M S B) :
  oblivious g c -> (forall a, oblivious g (k a)) -> oblivious g (Eff.bind c k).
Proof.
  intros Hc Hk p. unfold Eff.bind. rewrite Hc.
  destruct (c p) as [[a|e] p']; cbn [fst snd]; [apply Hk | reflexivity].
Qed.

Lemma oblivious_try_catch (body : Eff.M S unit) (handler : Js.error -> Eff.M S unit) :
  oblivious g body -> (forall e, oblivious g (handler e)) ->
  oblivious g (Eff.try_catch body handler).
Proof.
  intros Hb Hh p. unfold Eff.try_catch. rewrite Hb.
  destruct (body p) as [[a|e] p']; cbn [fst snd]; [reflexivity | apply Hh].
Qed.

Lemma oblivious_each {A B : Type} (f : A -> Eff.M S B) (items : list A) :
  (forall a, oblivious g (f a)) -> oblivious g (Eff.each f items).
Proof.
  intros Hf. induction items as [|it rest IH]; cbn [Eff.each].
  - apply oblivious_ret.
  - apply oblivious_bind; [apply Hf|]. intros y.
    apply oblivious_bind; [exact IH|]. intros ys. apply oblivious_ret.
Qed.

End ObliviousRules.

Section TotalRules.
Context {S : Type}.

Lemma total_ret {A : Type} (a : A) : total (@Eff.ret S A a).
Proof. intros p. exists a. reflexivity. Qed.

Lemma total_modify (f : S -> S) : total (Eff.modify f).
Proof. intros p. exists tt. reflexivity. Qed.

Lemma total_read {A : Type} (f : S -> A) : total (Eff.read f).
Proof. intros p. exists (f p). reflexivity. Qed.

Lemma total_bind {A B : Type} (c : Eff.M S A) (k : A -> Eff.M S B) :
  total c -> (forall a, total (k a)) -> total (Eff.bind c k).
Proof.
  intros Hc Hk p. unfold Eff.bind. destruct (Hc p) as [a Ha].
  destruct (c p) as [[a'|e] p']; cbn in *; [|discriminate]. apply Hk.
Qed.

(** A step that has been read as a value passes the value on. *)
Lemma total_step {A B : Type} (v : A) (k : A -> Eff.M S B) :
  total (k v) -> total (Eff.bind (Eff.lift (Js.Normal v)) k).
Proof. intros H p. exact (H p). Qed.

End TotalRules.

(** Splits an [oblivious] goal along the structure of the code. *)
Ltac oblivious_step :=
  match goal with
  | |- oblivious _ (Eff.bind _ _) => apply oblivious_bind; [| intros ?]
  | |- oblivious _ (Eff.ret _) => apply oblivious_ret
  | |- oblivious _ (Eff.lift _) => apply oblivious_lift
  | |- oblivious _ (Eff.throw _) => apply oblivious_throw
  | |- oblivious _ (Eff.each _ _) => apply oblivious_each; intros ?
  | |- oblivious _ (Eff.try_catch _ _) => apply oblivious_try_catch; [| intros ?]
  | |- oblivious _ (Eff.read _) => apply oblivious_read; intros ?; reflexivity
  | |- oblivious _ (Eff.modify _) => apply oblivious_modify; intros ?; reflexivity
  | |- oblivious _ (if ?b then _ else _) => destruct b
  | |- oblivious _ (match ?x with Some _ => _ | None => _ end) => destruct x
  | |- oblivious _ (let '(_, _) := ?x in _) => destruct x
  end.

(* ===================================================================== *)
(** * enhanced_app.js: further properties of the stock query *)
(* ===================================================================== *)

Section StockQuery.
Context {host : Js.Host}.
Import Js Eff Enhanced View Widgets.

Ltac keeps_fields :=
  repeat first
    [ apply keeps_modify; intros ? ?; assumption
    | apply keeps_indicator_series; intros ? ? ?; assumption
    | apply keeps_new_Chart; intros ? ? ?; assumption
    | keeps_step ].

(** ** The status line *)

Lemma fetchStockData_success_line (symbol : string) (data : value) :
  returns (fun _ => True) (fetchStockData_success symbol data) (success_line symbol).
Proof.
  unfold fetchStockData_success.
  apply returns_bind with (R := fun _ => True); [apply returns_modify; auto|]. intros _.
  apply returns_bind with (R := fun q => status_className q = "status success");
    [apply returns_modify; reflexivity|]. intros _.
  apply returns_bind with (R := fun q => status_className q = "status success");
    [apply returns_of_keeps, keeps_lift|]. intros rows.
  apply returns_bind with (R := fun q => status_className q = "status success");
    [apply returns_of_keeps, keeps_lift|]. intros n.
  apply returns_bind with (R := fun q => status_className q = "status success");
    [apply returns_of_keeps, keeps_lift|]. intros text.
  apply returns_bind with (R := success_line symbol).
  - apply returns_modify. intros q Hq. split; [exact Hq|]. exists text. reflexivity.
  - intros _. apply returns_of_keeps.
    unfold updateStockInfo, updateTechnicalSummary, updateTradingSignals, updateAnalysis,
      renderPriceChart, renderIndicatorChart.
    keeps_fields.
Qed.

(** ** Bodies of the expected shape *)

Lemma get_of_readable (v x : value) (k k' : string) :
  get v k = Normal x -> exists y, get v k' = Normal y.
Proof.
  destruct v; cbn; intros H; try discriminate H; eexists; reflexivity.
Qed.

Lemma get_of_truthy (v : value) (k : string) :
  truthy v = true -> exists y, get v k = Normal y.
Proof.
  destruct v; cbn; intros H; try discriminate H; eexists; reflexivity.
Qed.

Lemma append_length (a b : string) :
  String.length (a ++ b) = String.length a + String.length b.
Proof. induction a as [|c a IH]; cbn; [reflexivity | rewrite IH; reflexivity]. Qed.

Lemma append_cancel_r (a b s : string) : a ++ s = b ++ s -> a = b.
Proof.
  revert b. induction a as [|c a IH]; intros [|d b] H; cbn in H.
  - reflexivity.
  - exfalso. apply (f_equal String.length) in H. cbn in H. rewrite append_length in H. lia.
  - exfalso. apply (f_equal String.length) in H. cbn in H. rewrite append_length in H. lia.
  - injection H as -> H. f_equal. apply IH, H.
Qed.

Lemma div_loading_inj (a b : string) : div_loading a = div_loading b -> a = b.
Proof.
  unfold div_loading. cbn [append dq]. intros H.
  repeat match type of H with String _ _ = String _ _ => injection H as H end.
  apply append_cancel_r in H. exact H.
Qed.

(** ** Plain bodies convert *)

Lemma plain_prints : forall v, Shape.plain v = true -> prints v = true.
Proof.
  fix IH 1. intros [| | | | |items|props]; cbn [Shape.plain prints]; intros H;
    try reflexivity.
  - induction items as [|it rest IHr]; cbn [forallb] in *; [reflexivity|].
    apply andb_prop in H. destruct H as [H1 H2].
    rewrite (IH it H1). apply IHr, H2.
  - apply andb_prop in H. destruct H as [H _].
    apply andb_prop in H. destruct H as [H _]. exact H.
Qed.

Lemma plain_lookup (k : string) (props : list (string * value)) :
  forallb (fun kv => Shape.plain (snd kv)) props = true ->
  Shape.plain (lookup k props) = true.
Proof.
  induction props as [|[k' v] rest IH]; cbn [forallb lookup snd]; intros H;
    [reflexivity|].
  apply andb_prop in H. destruct H as [Hv Hrest].
  destruct (k =? k'); [exact Hv | apply IH, Hrest].
Qed.

Lemma plain_get (v x : value) (k : string) :
  Shape.plain v = true -> get v k = Normal x -> Shape.plain x = true.
Proof.
  destruct v as [| | | | |items|props]; cbn [get]; intros Hp E; try discriminate E;
    injection E as <-; try reflexivity.
  - destruct (k =? "length"); reflexivity.
  - destruct (k =? "length"); reflexivity.
  - cbn [Shape.plain] in Hp. apply andb_prop in Hp. destruct Hp as [_ Hp].
    apply plain_lookup, Hp.
Qed.

Lemma plain_or_else (a : value) (text : string) :
  Shape.plain a = true -> Shape.plain (or_else a (VStr text)) = true.
Proof. intros H. unfold or_else. destruct (truthy a); [exact H | reflexivity]. Qed.

Lemma plain_formatValue (v : value) (suffix : string) :
  Shape.plain v = true -> Shape.plain (formatValue v suffix) = true.
Proof.
  intros H. unfold formatValue.
  destruct (is_null v || is_undefined v || is_zero v); [reflexivity|].
  destruct v; try exact H; reflexivity.
Qed.

Lemma ToString_plain (v : value) :
  Shape.plain v = true -> ToString v = Normal (to_str v).
Proof. intros H. unfold ToString. rewrite (plain_prints v H). reflexivity. Qed.

Lemma ToNumber_plain (v : value) :
  Shape.plain v = true -> ToNumber v = Normal (to_number v).
Proof. intros H. unfold ToNumber. rewrite (plain_prints v H). reflexivity. Qed.

Lemma call_toLocaleString_plain :
  forall v, Shape.plain v = true -> is_nullish v = false ->
            exists text, call_toLocaleString v = Normal text.
Proof.
  fix IH 1. intros [| |b|x|s|items|props]; cbn [Shape.plain is_nullish];
    intros H Hn; try discriminate Hn; try (eexists; reflexivity).
  - cbn [call_toLocaleString].
    assert (Hparts : exists parts,
      (fix each (l : list value) : completion (list string) :=
         match l with
         | [] => Normal []
         | it :: rest =>
             let* part := (if is_nullish it then Normal EmptyString
                           else call_toLocaleString it) in
             let* parts := each rest in
             Normal (part :: parts)
         end) items = Normal parts).
    { induction items as [|it rest IHr]; cbn [forallb] in H; [eexists; reflexivity|].
      apply andb_prop in H. destruct H as [H1 H2].
      destruct (IHr H2) as [parts Hparts]. rewrite Hparts.
      destruct (is_nullish it) eqn:Hit; cbn [and_then]; [eexists; reflexivity|].
      destruct (IH it H1 Hit) as [part Hpart]. rewrite Hpart. cbn [and_then].
      eexists; reflexivity. }
    destruct Hparts as [parts Hparts]. rewrite Hparts. eexists; reflexivity.
  - cbn [call_toLocaleString].
    apply andb_prop in H. destruct H as [H _].
    apply andb_prop in H. destruct H as [H1 H2].
    apply negb_true_iff in H1. apply negb_true_iff in H2. rewrite H1, H2.
    eexists; reflexivity.
Qed.

Lemma greater_plain (v : value) (bound : float) :
  Shape.plain v = true -> greater v bound = Normal (PrimFloat.ltb bound (to_number v)).
Proof. intros H. unfold greater. rewrite (ToNumber_plain v H). reflexivity. Qed.

Lemma formatMarketCap_total (v : value) :
  Shape.plain v = true -> exists text, formatMarketCap v = Normal text.
Proof.
  intros H. unfold formatMarketCap, scaled.
  destruct (truthy v) eqn:T; cbn [negb orb]; [|eexists; reflexivity].
  destruct (is_zero v); [eexists; reflexivity|].
  rewrite !(greater_plain v) by exact H. rewrite !(ToNumber_plain v H). cbn [and_then].
  destruct (PrimFloat.ltb 1e12 (to_number v)); [eexists; reflexivity|].
  destruct (PrimFloat.ltb 1e9 (to_number v)); [eexists; reflexivity|].
  destruct (PrimFloat.ltb 1e6 (to_number v)); [eexists; reflexivity|].
  destruct (call_toLocaleString_plain v H) as [text Htext].
  { destruct v; try reflexivity; discriminate T. }
  rewrite Htext. eexists; reflexivity.
Qed.

(** updateStockInfo does not throw on a plain stock_info: the panel gets
    the unavailable placeholder or the table. *)
Lemma stockInfo_html_total (stockInfo : value) :
  Shape.plain stockInfo = true ->
  exists html, stockInfo_html stockInfo = Normal html.
Proof.
  intros Hp. unfold stockInfo_html.
  destruct (truthy stockInfo) eqn:T; [|eexists; reflexivity].
  destruct (get_of_truthy stockInfo "error" T) as [e He]. rewrite He. cbn [and_then].
  destruct (truthy e); [eexists; reflexivity|].
  destruct (get_of_truthy stockInfo "name" T) as [x1 H1].
  destruct (get_of_truthy stockInfo "sector" T) as [x2 H2].
  destruct (get_of_truthy stockInfo "market_cap" T) as [x3 H3].
  destruct (get_of_truthy stockInfo "pe_ratio" T) as [x4 H4].
  destruct (get_of_truthy stockInfo "dividend_yield" T) as [x5 H5].
  destruct (get_of_truthy stockInfo "beta" T) as [x6 H6].
  destruct (get_of_truthy stockInfo "price" T) as [x7 H7].
  destruct (get_of_truthy stockInfo "exchange" T) as [x8 H8].
  pose proof (plain_get _ _ _ Hp H1) as P1. pose proof (plain_get _ _ _ Hp H2) as P2.
  pose proof (plain_get _ _ _ Hp H3) as P3. pose proof (plain_get _ _ _ Hp H4) as P4.
  pose proof (plain_get _ _ _ Hp H5) as P5. pose proof (plain_get _ _ _ Hp H6) as P6.
  pose proof (plain_get _ _ _ Hp H7) as P7. pose proof (plain_get _ _ _ Hp H8) as P8.
  destruct (formatMarketCap_total x3 P3) as [cap Hcap].
  rewrite H1, H2, H3, H4, H5, H6, H7, H8. cbn [and_then].
  rewrite (ToString_plain _ (plain_or_else x1 "N/A" P1)). cbn [and_then].
  rewrite (ToString_plain _ (plain_or_else x2 "N/A" P2)). cbn [and_then].
  rewrite Hcap. cbn [and_then].
  rewrite (ToString_plain _ (plain_formatValue x4 EmptyString P4)). cbn [and_then].
  rewrite (ToNumber_plain x5 P5). cbn [and_then].
  rewrite (ToString_plain (formatValue (VNum (to_number x5 * 100)%float) "%"))
    by (apply plain_formatValue; reflexivity).
  cbn [and_then].
  rewrite (ToString_plain _ (plain_formatValue x6 EmptyString P6)). cbn [and_then].
  rewrite (ToString_plain _ (plain_formatValue x7 EmptyString P7)). cbn [and_then].
  rewrite (ToString_plain _ (plain_or_else x8 "N/A" P8)). cbn [and_then].
  eexists; reflexivity.
Qed.

Lemma map_each_get_total (items : list value) (k : string) :
  forallb (fun it => negb (is_nullish it)) items = true ->
  exists l, map_each (fun item => get item k) items = Normal l /\
            length l = length items.
Proof.
  induction items as [|it rest IH]; cbn [map_each forallb]; intros H.
  - exists []. split; reflexivity.
  - apply andb_prop in H. destruct H as [Hit Hrest].
    destruct (IH Hrest) as (l & Hl & Hlen). rewrite Hl.
    destruct it; cbn in Hit; try discriminate Hit; cbn [get and_then];
      (eexists; split; [reflexivity | cbn [length]; f_equal; exact Hlen]).
Qed.

Lemma map_prop_rows_ok (rows : value) (k : string) :
  Shape.rows_ok rows = true ->
  exists l, map_prop rows k = Normal l /\
            forall its, rows = VArr its -> length l = length its.
Proof.
  destruct rows as [| | | | |items|]; cbn [Shape.rows_ok]; intros H; try discriminate H.
  unfold map_prop. cbn [array_method and_then].
  destruct (map_each_get_total items k H) as (l & Hl & Hlen).
  exists l. split; [exact Hl|]. intros its E. injection E as <-. exact Hlen.
Qed.

Lemma map_each_signal_row_total (items : list value) :
  forallb Shape.plain items = true ->
  exists rows, map_each signal_row items = Normal rows.
Proof.
  induction items as [|it rest IH]; cbn [map_each forallb]; intros H;
    [eexists; reflexivity|].
  apply andb_prop in H. destruct H as [Hit Hrest].
  destruct (IH Hrest) as [rows Hrows]. rewrite Hrows.
  unfold signal_row. rewrite (ToString_plain it Hit). cbn [and_then].
  eexists; reflexivity.
Qed.

(** updateTradingSignals does not throw when [signals] is plain and is
    absent or holds a list, or nothing, under [signals]. *)
Lemma tradingSignals_html_total (signals : value) :
  Shape.plain signals = true ->
  negb (truthy signals) || Shape.readable (get signals "signals") Shape.list_or_absent = true ->
  exists html, tradingSignals_html signals = Normal html.
Proof.
  intros Hp H. unfold tradingSignals_html.
  destruct (truthy signals) eqn:T; cbn [negb orb] in H; [|eexists; reflexivity].
  destruct (get_of_truthy signals "signals" T) as [l Hl]. rewrite Hl in *.
  cbn [Shape.readable and_then] in *.
  pose proof (plain_get _ _ _ Hp Hl) as Pl.
  destruct (truthy l) eqn:Tl; cbn [negb]; [|eexists; reflexivity].
  destruct (get_of_truthy signals "overall_signal" T) as [x1 H1].
  destruct (get_of_truthy signals "signal_strength" T) as [x2 H2].
  destruct (get_of_truthy l "length" Tl) as [n Hn].
  pose proof (plain_get _ _ _ Hp H1) as P1. pose proof (plain_get _ _ _ Hp H2) as P2.
  pose proof (plain_get _ _ _ Pl Hn) as Pn.
  rewrite H1, H2, Hn. cbn [and_then].
  rewrite (ToString_plain x1 P1). cbn [and_then].
  rewrite (ToNumber_plain x2 P2). cbn [and_then].
  rewrite (greater_plain n 0%float Pn). cbn [and_then].
  assert (Hrows : exists rows,
            (if PrimFloat.ltb 0 (to_number n)
             then let* items := array_method "forEach" l in map_each signal_row items
             else Normal []) = Normal rows).
  { destruct (PrimFloat.ltb 0 (to_number n)); [|eexists; reflexivity].
    destruct l; cbn in H, Tl; try discriminate; try (rewrite Tl in H; discriminate H).
    cbn [array_method and_then]. apply map_each_signal_row_total. exact Pl. }
  destruct Hrows as [rows Hrows]. rewrite Hrows. cbn [and_then].
  eexists; reflexivity.
Qed.

Lemma priceChart_config_total (data rows : value) :
  Shape.plain data = true ->
  get data "data" = Normal rows -> Shape.rows_ok rows = true ->
  exists cfg, priceChart_config data = Normal cfg.
Proof.
  intros Hp Hrows Hok. unfold priceChart_config. rewrite Hrows. cbn [and_then].
  destruct (map_prop_rows_ok rows "date" Hok) as (l1 & H1 & _).
  destruct (map_prop_rows_ok rows "close" Hok) as (l2 & H2 & _).
  destruct (map_prop_rows_ok rows "volume" Hok) as (l3 & H3 & _).
  destruct (get_of_readable data rows "data" "symbol" Hrows) as [s Hs].
  destruct (get_of_readable data rows "data" "period" Hrows) as [t Ht].
  rewrite H1, H2, H3, Hs, Ht. cbn [and_then].
  rewrite (ToString_plain s (plain_get _ _ _ Hp Hs)). cbn [and_then].
  rewrite (ToString_plain t (plain_get _ _ _ Hp Ht)). cbn [and_then].
  eexists; reflexivity.
Qed.

Lemma indicator_series_total (indicator : string) (data rows rsi : value) (p : page) :
  Shape.plain data = true ->
  get data "data" = Normal rows -> Shape.rows_ok rows = true ->
  get data "rsi" = Normal rsi -> negb (truthy rsi) || Shape.rows_ok rsi = true ->
  exists ser, fst (indicator_series indicator data p) = Normal ser.
Proof.
  intros Hp Hrows Hok Hrsi Hshape. unfold indicator_series.
  destruct (indicator =? "rsi").
  { unfold rsi_series, lift. cbn [fst]. rewrite Hrsi. cbn [and_then].
    destruct (truthy rsi) eqn:T; cbn [negb orb] in Hshape.
    - destruct (get_of_truthy rsi "length" T) as [n Hn]. rewrite Hn. cbn [and_then].
      rewrite (greater_plain n 0%float
                 (plain_get _ _ _ (plain_get _ _ _ Hp Hrsi) Hn)). cbn [and_then].
      destruct (PrimFloat.ltb 0 (to_number n)); [|eexists; reflexivity].
      destruct (map_prop_rows_ok rsi "value" Hshape) as (l & Hl & _). rewrite Hl.
      eexists; reflexivity.
    - cbn [and_then]. eexists; reflexivity. }
  destruct (indicator =? "macd").
  { unfold macd_series. unfold bind at 1, lift at 1. rewrite Hrows.
    destruct rows as [| | | | |items|]; try discriminate Hok.
    unfold bind at 1, lift at 1. cbn [array_method].
    unfold bind at 1. rewrite each_random. eexists; reflexivity. }
  destruct (indicator =? "volume").
  { unfold volume_series, lift. cbn [fst]. rewrite Hrows. cbn [and_then].
    destruct (map_prop_rows_ok rows "volume" Hok) as (l & Hl & _). rewrite Hl.
    eexists; reflexivity. }
  eexists; reflexivity.
Qed.

(** ** A success line means a rendered page *)

Ltac returned_html :=
  repeat match goal with
         | |- and_then ?c _ = _ -> _ =>
             destruct c; cbn [and_then]; [|intros E; discriminate E]
         | |- (if ?b then _ else _) = _ -> _ => destruct b
         end.

Lemma stockInfo_html_settled (stockInfo : value) (html : string) :
  stockInfo_html stockInfo = Normal html -> html <> div_loading "加载股票信息中...".
Proof.
  assert (U : div_loading "股票信息不可用" <> div_loading "加载股票信息中...").
  { intros E. apply div_loading_inj in E. vm_compute in E. discriminate E. }
  unfold stockInfo_html.
  destruct (truthy stockInfo).
  - destruct (get stockInfo "error") as [e|]; cbn [and_then]; [|intros E; discriminate E].
    destruct (truthy e); [intros E; injection E as <-; exact U|].
    returned_html.
    intros E. injection E as <-. unfold div_loading, lf. cbn [append].
    intros E. discriminate E.
  - cbn [and_then]. intros E. injection E as <-. exact U.
Qed.

Lemma tradingSignals_html_settled (signals : value) (html : string) :
  tradingSignals_html signals = Normal html -> html <> div_loading "生成交易信号中...".
Proof.
  assert (U : div_loading "暂无交易信号" <> div_loading "生成交易信号中...").
  { intros E. apply div_loading_inj in E. vm_compute in E. discriminate E. }
  unfold tradingSignals_html.
  destruct (truthy signals).
  - destruct (get signals "signals") as [l|e]; cbn [and_then]; [|discriminate].
    destruct (truthy l); cbn [negb]; [|intros E; injection E as <-; exact U].
    destruct (get signals "overall_signal") as [x1|e]; cbn [and_then]; [|discriminate].
    destruct (ToString x1) as [t1|e]; cbn [and_then]; [|discriminate].
    destruct (get signals "signal_strength") as [x2|e]; cbn [and_then]; [|discriminate].
    destruct (ToNumber x2) as [t2|e]; cbn [and_then]; [|discriminate].
    destruct (get l "length") as [n|e]; cbn [and_then]; [|discriminate].
    destruct (greater n 0%float) as [some|e]; cbn [and_then]; [|discriminate].
    match goal with
    | |- and_then ?c _ = _ -> _ => destruct c as [rows|e]; cbn [and_then]; [|discriminate]
    end.
    intros E. injection E as <-. unfold div_loading, lf. cbn [append].
    intros E. discriminate E.
  - cbn [and_then]. intros E. injection E as <-. exact U.
Qed.

Lemma pre_is_not_loading (text placeholder : string) : pre text <> div_loading placeholder.
Proof. unfold pre, div_loading. cbn [append]. intros E. discriminate E. Qed.

Lemma panels_settled_texts (p p' : page) :
  texts p' = texts p -> panels_settled p -> panels_settled p'.
Proof.
  unfold texts, panels_settled. intros E. injection E as _ _ -> -> -> ->. auto.
Qed.

Lemma renderIndicatorChart_shows :
  forall data, returns (fun _ => True) (renderIndicatorChart data)
                 (fun q => ChartJs.shown (indicatorChart q) (widgets q) <> None).
Proof.
  intros data p _ a. unfold renderIndicatorChart.
  cbv beta iota delta [Eff.bind Eff.ret Eff.lift Eff.read Eff.modify new_Chart
                       ChartJs.construct]. cbn [fst snd].
  destruct (get data "data") as [rows|e]; [|discriminate].
  destruct (map_prop rows "date") as [labels|e]; [|discriminate].
  match goal with |- context [indicator_series ?i ?d ?q] =>
    destruct (indicator_series i d q) as [[[[ds t] y]|e] q'] end; [|discriminate].
  cbn [fst snd indicatorChart widgets set_indicatorChart set_widgets].
  intros _. rewrite shown_new. discriminate.
Qed.

Lemma fetchStockData_success_settled (symbol : string) (data : value) :
  returns (fun _ => True) (fetchStockData_success symbol data)
    (fun q => panels_settled q /\
              ChartJs.shown (indicatorChart q) (widgets q) <> None).
Proof.
  assert (K : forall (I : page -> Prop) (c : M unit),
             keeps I c -> returns I c I) by (intros I c; apply returns_of_keeps).
  unfold fetchStockData_success.
  apply returns_bind with (R := fun _ => True); [apply returns_modify; auto|]. intros _.
  apply returns_bind with (R := fun _ => True); [apply returns_modify; auto|]. intros _.
  apply returns_bind with (R := fun _ => True); [apply returns_of_keeps, keeps_lift|]. intros rows.
  apply returns_bind with (R := fun _ => True); [apply returns_of_keeps, keeps_lift|]. intros n.
  apply returns_bind with (R := fun _ => True); [apply returns_of_keeps, keeps_lift|]. intros text.
  apply returns_bind with (R := fun _ => True); [apply returns_modify; auto|]. intros _.
  apply returns_bind with (R := fun _ => True); [apply returns_of_keeps, keeps_lift|]. intros si.
  apply returns_bind with (R := fun q => stockInfoBox q <> div_loading "加载股票信息中...").
  { intros p _ a. unfold updateStockInfo, bind, lift, modify.
    destruct (stockInfo_html si) as [html|e] eqn:E; cbn; [|discriminate].
    intros _. apply (stockInfo_html_settled si), E. }
  intros _.
  apply returns_bind with (R := fun q => stockInfoBox q <> div_loading "加载股票信息中...");
    [apply returns_of_keeps, keeps_lift|]. intros ti.
  apply returns_bind with (R := fun q => stockInfoBox q <> div_loading "加载股票信息中...");
    [apply returns_of_keeps, keeps_lift|]. intros summary.
  apply returns_bind with
    (R := fun q => stockInfoBox q <> div_loading "加载股票信息中..." /\
                   technicalSummary q <> div_loading "计算技术指标中...").
  { intros p Hp a. unfold updateTechnicalSummary, technicalSummary_html, bind, lift, modify.
    destruct (ToString _) as [out|e]; cbn; [|discriminate].
    intros _. split; [exact Hp|]. intros E. discriminate E. }
  intros _.
  apply returns_bind with
    (R := fun q => stockInfoBox q <> div_loading "加载股票信息中..." /\
                   technicalSummary q <> div_loading "计算技术指标中...");
    [apply returns_of_keeps, keeps_lift|]. intros ti'.
  apply returns_bind with
    (R := fun q => stockInfoBox q <> div_loading "加载股票信息中..." /\
                   technicalSummary q <> div_loading "计算技术指标中...");
    [apply returns_of_keeps, keeps_lift|]. intros signals.
  apply returns_bind with
    (R := fun q => (stockInfoBox q <> div_loading "加载股票信息中..." /\
                    technicalSummary q <> div_loading "计算技术指标中...") /\
                   tradingSignals q <> div_loading "生成交易信号中...").
  { intros p Hp a. unfold updateTradingSignals, bind, lift, modify.
    destruct (tradingSignals_html signals) as [html|e] eqn:E; cbn; [|discriminate].
    intros _. split; [exact Hp|]. apply (tradingSignals_html_settled signals), E. }
  intros _.
  apply returns_bind with
    (R := fun q => (stockInfoBox q <> div_loading "加载股票信息中..." /\
                    technicalSummary q <> div_loading "计算技术指标中...") /\
                   tradingSignals q <> div_loading "生成交易信号中...");
    [apply returns_of_keeps, keeps_lift|]. intros analysis.
  apply returns_bind with (R := panels_settled).
  { intros p [[H1 H2] H3] a. unfold updateAnalysis, analysis_html, bind, lift, modify.
    destruct (ToString _) as [out|e]; cbn; [|discriminate].
    intros _. repeat split; try assumption. intros E. discriminate E. }
  intros _.
  apply returns_bind with (R := panels_settled).
  { apply K. unfold renderPriceChart. keeps_fields. }
  intros _ p Hp a Ha. split.
  - assert (Hq : around_indicator p p) by (repeat split).
    apply (renderIndicatorChart_around p data) in Hq.
    destruct Hq as (_ & _ & Ht & _). exact (panels_settled_texts _ _ Ht Hp).
  - apply (renderIndicatorChart_shows data p I a Ha).
Qed.

(** ** What the status line tells *)

(** When a stock request settles, however it settles, the status line
    leaves the loading state: it ends on the success line or on an error
    line.  It ends on the success line only when the response was not a
    failure and the whole success branch ran without an exception; then no
    text panel shows its loading placeholder any more, the body is the
    stored data and the indicator chart is drawn. *)
Theorem settle_resolves_status (symbol : string) (o : Net.outcome) (p : page) :
  let p' := fetchStockData_settle symbol o p in
  (success_line symbol p' /\
   panels_settled p' /\
   ChartJs.shown (indicatorChart p') (widgets p') <> None /\
   exists status data,
     o = Net.Responded status data /\
     response_failed status data = Normal false /\
     fetchStockData_success symbol data p = (Normal tt, p') /\
     currentStockData p' = data)
  \/
  (status_className p' = "status error" /\
   exists msg, status_textContent p' = "❌ " ++ msg).
Proof.
  cbv zeta. unfold fetchStockData_settle.
  destruct o as [e|status e|status data].
  - right. split; [reflexivity|]. exists ("请求异常: " ++ err_message e). reflexivity.
  - right. split; [reflexivity|]. exists ("请求异常: " ++ err_message e). reflexivity.
  - unfold fetchStockData_response, try_catch, bind, lift. cbn [fst snd].
    destruct (response_failed status data) as [[|]|e] eqn:Hf.
    + unfold fetchStockData_failure, bind, lift, modify. cbn [fst snd].
      destruct (get data "error") as [err|e]; cbn [fst snd].
      * destruct (ToString _) as [text|e]; cbn [fst snd].
        -- right. split; [reflexivity|]. eexists.
           cbn [status_textContent set_analysisBox set_tradingSignals set_technicalSummary
                set_stockInfoBox set_status_textContent].
           change ("❌ 错误: " ++ ?x) with ("❌ " ++ ("错误: " ++ x)). reflexivity.
        -- right. split; [reflexivity|]. exists ("请求异常: " ++ err_message e).
           reflexivity.
      * right. split; [reflexivity|]. exists ("请求异常: " ++ err_message e). reflexivity.
    + pose proof (fetchStockData_success_stores symbol data p) as Hst.
      unfold try_catch in Hst.
      destruct (fetchStockData_success symbol data p) as [[[]|e] q] eqn:Hs; cbn [fst snd] in *.
      * left.
        pose proof (fetchStockData_success_line symbol data p I tt) as H1.
        pose proof (fetchStockData_success_settled symbol data p I tt) as H2.
        rewrite Hs in H1, H2. cbn [fst snd] in H1, H2.
        destruct (H2 eq_refl) as [Hp Hi].
        split; [exact (H1 eq_refl)|]. split; [exact Hp|]. split; [exact Hi|].
        exists status, data. repeat split; assumption.
      * right. split; [reflexivity|]. exists ("请求异常: " ++ err_message e). reflexivity.
    + right. split; [reflexivity|]. exists ("请求异常: " ++ err_message e). reflexivity.
Qed.

(** ** Bodies of the expected shape render *)

Lemma updateStockInfo_total (stockInfo : value) :
  Shape.plain stockInfo = true -> total (updateStockInfo stockInfo).
Proof.
  intros Hp p. unfold updateStockInfo, bind, lift, modify.
  destruct (stockInfo_html_total stockInfo Hp) as (html & E). rewrite E.
  exists tt. reflexivity.
Qed.

Lemma updateTechnicalSummary_total (summary : value) :
  Shape.plain summary = true -> total (updateTechnicalSummary summary).
Proof.
  intros Hp p. unfold updateTechnicalSummary, technicalSummary_html, bind, lift, modify.
  rewrite (ToString_plain _ (plain_or_else summary _ Hp)). exists tt. reflexivity.
Qed.

Lemma updateAnalysis_total (analysis : value) :
  Shape.plain analysis = true -> total (updateAnalysis analysis).
Proof.
  intros Hp p. unfold updateAnalysis, analysis_html, bind, lift, modify.
  rewrite (ToString_plain _ (plain_or_else analysis _ Hp)). exists tt. reflexivity.
Qed.

Lemma updateTradingSignals_total (signals : value) :
  Shape.plain signals = true ->
  negb (truthy signals) || Shape.readable (get signals "signals") Shape.list_or_absent = true ->
  total (updateTradingSignals signals).
Proof.
  intros Hp H p. unfold updateTradingSignals, bind, lift, modify.
  destruct (tradingSignals_html_total signals Hp H) as (html & E). rewrite E.
  exists tt. reflexivity.
Qed.

Lemma renderPriceChart_total (data rows : value) :
  Shape.plain data = true ->
  get data "data" = Normal rows -> Shape.rows_ok rows = true ->
  total (renderPriceChart data).
Proof.
  intros Hp Hrows Hok p. unfold renderPriceChart.
  cbv beta iota delta [Eff.bind Eff.ret Eff.lift Eff.read Eff.modify new_Chart
                       ChartJs.construct]. cbn [fst snd].
  destruct (priceChart_config_total data rows Hp Hrows Hok) as [cfg E]. rewrite E.
  exists tt. reflexivity.
Qed.

Lemma renderIndicatorChart_total (data rows rsi : value) :
  Shape.plain data = true ->
  get data "data" = Normal rows -> Shape.rows_ok rows = true ->
  get data "rsi" = Normal rsi -> negb (truthy rsi) || Shape.rows_ok rsi = true ->
  total (renderIndicatorChart data).
Proof.
  intros Hp Hrows Hok Hrsi Hshape p. unfold renderIndicatorChart.
  cbv beta iota delta [Eff.bind Eff.ret Eff.lift Eff.read Eff.modify new_Chart
                       ChartJs.construct]. cbn [fst snd].
  rewrite Hrows. destruct (map_prop_rows_ok rows "date" Hok) as (labels & E & _).
  rewrite E.
  match goal with |- context [indicator_series ?i ?d ?q] =>
    destruct (indicator_series_total i d rows rsi q Hp Hrows Hok Hrsi Hshape) as [ser Hser];
    destruct (indicator_series i d q) as [[[[ds t] y]|e] q'] end;
    cbn [fst] in Hser; [|discriminate Hser].
  exists tt. reflexivity.
Qed.

Lemma fetchStockData_success_total (symbol : string) (data : value) :
  Shape.well_shaped data = true -> Shape.plain data = true ->
  total (fetchStockData_success symbol data).
Proof.
  unfold Shape.well_shaped. intros H Hp.
  apply andb_prop in H. destruct H as [H Hrsi].
  apply andb_prop in H. destruct H as [Hrows Hti].
  destruct (get data "data") as [rows|] eqn:Erows; [|discriminate Hrows].
  destruct (get data "technical_indicators") as [ti|] eqn:Eti; [|discriminate Hti].
  destruct (get data "rsi") as [rsi|] eqn:Ersi; [|discriminate Hrsi].
  cbn [Shape.readable] in Hrows, Hti, Hrsi.
  apply andb_prop in Hti. destruct Hti as [Hnn Hsig].
  destruct (get ti "signals") as [signals|] eqn:Esig; [|discriminate Hsig].
  cbn [Shape.readable] in Hsig.
  assert (Hlen : exists n, get rows "length" = Normal n).
  { destruct rows; cbn in Hrows; try discriminate Hrows. eexists; reflexivity. }
  destruct Hlen as [n Hlen].
  destruct (get_of_readable data rows "data" "stock_info" Erows) as [si Esi].
  destruct (get_of_readable data rows "data" "analysis" Erows) as [an Ean].
  destruct (get_of_readable ti signals "signals" "summary" Esig) as [summary Esum].
  pose proof (plain_get _ _ _ Hp Erows) as Prows.
  pose proof (plain_get _ _ _ Hp Eti) as Pti.
  unfold fetchStockData_success.
  apply total_bind; [apply total_modify|]. intros _.
  apply total_bind; [apply total_modify|]. intros _.
  rewrite Erows. apply total_step. rewrite Hlen. apply total_step.
  rewrite (ToString_plain n (plain_get _ _ _ Prows Hlen)). apply total_step.
  apply total_bind; [apply total_modify|]. intros _.
  rewrite Esi. apply total_step.
  apply total_bind; [apply updateStockInfo_total, (plain_get _ _ _ Hp Esi)|]. intros _.
  rewrite Eti. apply total_step. rewrite Esum. apply total_step.
  apply total_bind; [apply updateTechnicalSummary_total, (plain_get _ _ _ Pti Esum)|].
  intros _.
  apply total_step. rewrite Esig. apply total_step.
  apply total_bind;
    [apply updateTradingSignals_total; [apply (plain_get _ _ _ Pti Esig) | exact Hsig]|].
  intros _.
  rewrite Ean. apply total_step.
  apply total_bind; [apply updateAnalysis_total, (plain_get _ _ _ Hp Ean)|]. intros _.
  apply total_bind; [apply (renderPriceChart_total data rows); assumption|]. intros _.
  apply (renderIndicatorChart_total data rows rsi); assumption.
Qed.

(** A 2xx response without a truthy error whose body has the expected
    shape and is plain (no object in it has a member named toString or
    toLocaleString, so that every value in it converts to a string and to a
    number) always succeeds: no step of the success branch throws, whatever
    the page and the selected tab, so the status line ends on the success
    line, no panel keeps its loading placeholder, the body is stored and the
    indicator chart is drawn. *)
Theorem well_shaped_body_renders
  (symbol : string) (status : nat) (data e : value) (p : page) :
  Net.response_ok status = true ->
  get data "error" = Normal e ->
  truthy e = false ->
  Shape.well_shaped data = true ->
  Shape.plain data = true ->
  let p' := fetchStockData_settle symbol (Net.Responded status data) p in
  fetchStockData_success symbol data p = (Normal tt, p') /\
  success_line symbol p' /\
  panels_settled p' /\
  currentStockData p' = data /\
  ChartJs.shown (indicatorChart p') (widgets p') <> None.
Proof.
  intros Hok He Ht Hshape Hplain. cbv zeta.
  assert (Hf : response_failed status data = Normal false).
  { unfold response_failed. rewrite Hok, He. cbn. rewrite Ht. reflexivity. }
  unfold fetchStockData_settle, fetchStockData_response, try_catch, bind, lift.
  rewrite Hf. cbn [fst snd].
  pose proof (fetchStockData_success_stores symbol data p) as Hst.
  unfold try_catch in Hst.
  destruct (fetchStockData_success_total symbol data Hshape Hplain p) as [[] Hret].
  pose proof (fetchStockData_success_line symbol data p I tt Hret) as H1.
  pose proof (fetchStockData_success_settled symbol data p I tt Hret) as [H2 H3].
  destruct (fetchStockData_success symbol data p) as [[[]|err] q];
    cbn [fst snd] in *; [|discriminate Hret].
  split; [reflexivity|]. split; [exact H1|]. split; [exact H2|].
  split; [exact Hst | exact H3].
Qed.

End StockQuery.

(* ===================================================================== *)
(** * The life of a chart widget *)
(* ===================================================================== *)

Lemma destroy_live (r i : nat) (ws : list ChartJs.widget) (w : ChartJs.widget) :
  nth_error (ChartJs.destroy r ws) i = Some w ->
  ChartJs.w_destroyed w = false ->
  i <> r /\ nth_error ws i = Some w.
Proof.
  revert r i. induction ws as [|w0 ws IH]; intros [|r] [|i]; cbn; intros H Hl;
    try discriminate H.
  - injection H as <-. cbn in Hl. discriminate Hl.
  - split; [lia | exact H].
  - split; [lia | exact H].
  - destruct (IH r i H Hl) as [Hne Hn]. split; [lia | exact Hn].
Qed.

Lemma filter_none {A : Type} (f : A -> bool) (l : list A) :
  (forall i x, nth_error l i = Some x -> f x = false) -> filter f l = [].
Proof.
  induction l as [|x l IH]; intros H; cbn; [reflexivity|].
  rewrite (H 0 x eq_refl). apply IH. intros i y Hy. apply (H (S i) y Hy).
Qed.

(** A list whose elements of a kind all sit at one index holds at most one
    of that kind. *)
Lemma filter_at_most_one {A : Type} (f : A -> bool) (l : list A) (r : nat) :
  (forall i x, nth_error l i = Some x -> f x = true -> i = r) ->
  length (filter f l) <= 1.
Proof.
  revert r. induction l as [|x l IH]; intros r H; cbn; [lia|].
  destruct (f x) eqn:Fx.
  - rewrite filter_none; [cbn; lia|].
    intros i y Hy. destruct (f y) eqn:Fy; [|reflexivity].
    pose proof (H 0 x eq_refl Fx). pose proof (H (S i) y Hy Fy). lia.
  - apply (IH (pred r)). intros i y Hy Fy.
    pose proof (H (S i) y Hy Fy). lia.
Qed.

Section ChartLife.
Context {host : Js.Host}.
Import Js Eff Enhanced View Widgets.

Ltac run_eff :=
  cbv beta iota delta [Eff.bind Eff.ret Eff.lift Eff.read Eff.modify Eff.throw
                       Eff.try_catch new_Chart ChartJs.construct Math_random];
  cbn [fst snd].

Lemma destroy_if_any_live (ref : option nat) (i : nat) (ws : list ChartJs.widget)
  (w : ChartJs.widget) :
  nth_error (destroy_if_any ref ws) i = Some w ->
  ChartJs.w_destroyed w = false ->
  ref <> Some i /\ nth_error ws i = Some w.
Proof.
  destruct ref as [r|]; cbn [destroy_if_any]; intros H Hl.
  - destruct (destroy_live r i ws w H Hl) as [Hne Hn]. split; [congruence | exact Hn].
  - split; [discriminate | exact H].
Qed.

(** The widgets after a render that adds [w] at the end for the global
    that was [old], the other global being [other]. *)
Lemma tidy_after_render (old other : option nat) (ws : list ChartJs.widget)
  (mine theirs : string) (cfg : ChartJs.config) (r : nat) (w : ChartJs.widget) :
  (forall r w, nth_error ws r = Some w -> ChartJs.w_destroyed w = false ->
               (old = Some r /\ ChartJs.w_canvas w = mine) \/
               (other = Some r /\ ChartJs.w_canvas w = theirs)) ->
  nth_error (destroy_if_any old ws ++ [ChartJs.mkWidget mine cfg false]) r = Some w ->
  ChartJs.w_destroyed w = false ->
  (Some (length (destroy_if_any old ws)) = Some r /\ ChartJs.w_canvas w = mine) \/
  (other = Some r /\ ChartJs.w_canvas w = theirs).
Proof.
  intros Ht Hn Hl.
  destruct (Nat.lt_ge_cases r (length (destroy_if_any old ws))) as [Hlt|Hge].
  - rewrite nth_error_app1 in Hn by exact Hlt.
    destruct (destroy_if_any_live old r ws w Hn Hl) as [Hne Hw].
    destruct (Ht r w Hw Hl) as [[Ho _]|Hr]; [congruence | right; exact Hr].
  - rewrite nth_error_app2 in Hn by exact Hge.
    destruct (r - length (destroy_if_any old ws)) as [|k] eqn:Ek; cbn in Hn.
    + injection Hn as <-. left. split; [f_equal; lia | reflexivity].
    + destruct k; discriminate Hn.
Qed.

Lemma tidy_after_destroy (old other : option nat) (ws : list ChartJs.widget)
  (mine theirs : string) (r : nat) (w : ChartJs.widget) :
  (forall r w, nth_error ws r = Some w -> ChartJs.w_destroyed w = false ->
               (old = Some r /\ ChartJs.w_canvas w = mine) \/
               (other = Some r /\ ChartJs.w_canvas w = theirs)) ->
  nth_error (destroy_if_any old ws) r = Some w ->
  ChartJs.w_destroyed w = false ->
  (old = Some r /\ ChartJs.w_canvas w = mine) \/
  (other = Some r /\ ChartJs.w_canvas w = theirs).
Proof.
  intros Ht Hn Hl. destruct (destroy_if_any_live old r ws w Hn Hl) as [Hne Hw].
  apply (Ht r w Hw Hl).
Qed.

Lemma renderPriceChart_tidy (data : value) : keeps tidy (renderPriceChart data).
Proof.
  intros p Ht. unfold renderPriceChart. run_eff.
  destruct (priceChart_config data) as [cfg|e]; unfold tidy; cbn; intros r w Hn Hl.
  - apply (tidy_after_render (priceChart p) (indicatorChart p) (widgets p)
             "priceChart" "indicatorChart" cfg r w Ht Hn Hl).
  - apply (tidy_after_destroy (priceChart p) (indicatorChart p) (widgets p)
             "priceChart" "indicatorChart" r w Ht Hn Hl).
Qed.

Lemma tidy_swap (p : page) :
  tidy p ->
  forall r w, nth_error (widgets p) r = Some w -> ChartJs.w_destroyed w = false ->
              (indicatorChart p = Some r /\ ChartJs.w_canvas w = "indicatorChart") \/
              (priceChart p = Some r /\ ChartJs.w_canvas w = "priceChart").
Proof. intros Ht r w Hn Hl. destruct (Ht r w Hn Hl); [right | left]; assumption. Qed.

Lemma renderIndicatorChart_tidy (data : value) : keeps tidy (renderIndicatorChart data).
Proof.
  intros p Ht0. pose proof (tidy_swap p Ht0) as Ht. clear Ht0.
  unfold renderIndicatorChart. run_eff.
  assert (D : forall r w,
             nth_error (destroy_if_any (indicatorChart p) (widgets p)) r = Some w ->
             ChartJs.w_destroyed w = false ->
             (priceChart p = Some r /\ ChartJs.w_canvas w = "priceChart") \/
             (indicatorChart p = Some r /\ ChartJs.w_canvas w = "indicatorChart")).
  { intros r w Hn Hl.
    destruct (tidy_after_destroy (indicatorChart p) (priceChart p) (widgets p)
                "indicatorChart" "priceChart" r w Ht Hn Hl); [right | left]; assumption. }
  destruct (get data "data") as [rows|e]; cbn [snd]; [|exact D].
  destruct (map_prop rows "date") as [labels|e]; cbn [snd]; [|exact D].
  match goal with |- context [indicator_series ?i ?d ?q] =>
    destruct (indicator_series_effect i d q) as [n E];
    destruct (indicator_series i d q) as [[[[ds t] y]|e] q'] end;
    cbn [snd] in E; subst; unfold tidy; cbn; [|exact D].
  intros r w Hn Hl.
  destruct (tidy_after_render (indicatorChart p) (priceChart p) (widgets p)
              "indicatorChart" "priceChart" _ r w Ht Hn Hl); [right | left]; assumption.
Qed.

Lemma fetchStockData_settle_tidy (symbol : string) (o : Net.outcome) (p : page) :
  tidy p -> tidy (fetchStockData_settle symbol o p).
Proof.
  revert p. change (keeps tidy
    (try_catch
       (match o with
        | Net.FetchRejected e => throw e
        | Net.JsonRejected _ e => throw e
        | Net.Responded status data => fetchStockData_response symbol status data
        end)
       fetchStockData_catch)).
  apply keeps_try_catch.
  - destruct o as [e|status e|status data]; try apply keeps_throw.
    unfold fetchStockData_response, fetchStockData_failure, fetchStockData_success,
      updateStockInfo, updateTechnicalSummary, updateTradingSignals, updateAnalysis.
    repeat first
      [ apply renderPriceChart_tidy
      | apply renderIndicatorChart_tidy
      | apply keeps_modify; intros q Hq; exact Hq
      | keeps_step ].
  - intros e. unfold fetchStockData_catch.
    repeat first [ apply keeps_modify; intros q Hq; exact Hq | keeps_step ].
Qed.

Lemma step_tidy (ev : event) (p : page) : tidy p -> tidy (step ev p).
Proof.
  intros H. destruct ev as [f| |i|r o]; cbn [step].
  - exact H.
  - unfold submit. destruct (trim (symbolInput (form p)) =? EmptyString); exact H.
  - unfold tab_click. destruct (nth_error (tabBtns p) i) as [btn|]; [|exact H].
    cbn [currentStockData set_currentIndicator set_tabBtns].
    destruct (truthy (currentStockData p)); [|exact H].
    apply renderIndicatorChart_tidy. exact H.
  - destruct (nth_error (requests p) r) as [q|]; [|exact H].
    destruct (Net.req_settled q); [exact H|].
    destruct (Net.req_path q =? "/api/stock_data"); [|exact H].
    apply fetchStockData_settle_tidy. exact H.
Qed.

Lemma run_tidy (evs : list event) (p : page) : tidy p -> tidy (run evs p).
Proof.
  revert p. induction evs as [|ev evs IH]; intros p H; cbn; [exact H|].
  apply IH, step_tidy, H.
Qed.

Lemma tidy_live_on (p : page) (canvas : string) (ref : option nat) :
  tidy p ->
  (canvas = "priceChart" /\ ref = priceChart p) \/
  (canvas = "indicatorChart" /\ ref = indicatorChart p) ->
  length (ChartJs.live_on canvas (widgets p)) <= 1 /\
  forall w, In w (ChartJs.live_on canvas (widgets p)) ->
            ChartJs.shown ref (widgets p) = Some (ChartJs.w_config w).
Proof.
  intros Ht Hc.
  assert (At : forall i w, nth_error (widgets p) i = Some w ->
                           (ChartJs.w_canvas w =? canvas) && negb (ChartJs.w_destroyed w) = true ->
                           ref = Some i).
  { intros i w Hn Hf. apply andb_prop in Hf. destruct Hf as [Hcv Hl].
    apply String.eqb_eq in Hcv. apply negb_true_iff in Hl.
    destruct (Ht i w Hn Hl) as [[Hr Hw]|[Hr Hw]];
      destruct Hc as [[-> ->]|[-> ->]]; try exact Hr;
      rewrite Hw in Hcv; discriminate Hcv. }
  split.
  - unfold ChartJs.live_on. destruct ref as [r|].
    + apply (filter_at_most_one _ _ r). intros i w Hn Hf.
      specialize (At i w Hn Hf). congruence.
    + rewrite filter_none; [cbn; lia|]. intros i w Hn.
      destruct ((ChartJs.w_canvas w =? canvas) && negb (ChartJs.w_destroyed w)) eqn:Hf;
        [|reflexivity].
      specialize (At i w Hn Hf). discriminate At.
  - intros w Hin. unfold ChartJs.live_on in Hin. apply filter_In in Hin.
    destruct Hin as [Hin Hf]. apply In_nth_error in Hin. destruct Hin as [i Hn].
    rewrite (At i w Hn Hf). unfold ChartJs.shown. rewrite Hn.
    apply andb_prop in Hf. destruct Hf as [_ Hl]. apply negb_true_iff in Hl.
    rewrite Hl. reflexivity.
Qed.

(** Charts do not leak.  On a page reached by any events from a page with
    no stray widget, each canvas carries at most one widget that was not
    destroyed, and such a widget is the one the canvas's global shows. *)
Theorem no_leaked_charts (evs : list event) (p : page) :
  tidy p ->
  let p' := run evs p in
  (length (ChartJs.live_on "priceChart" (widgets p')) <= 1 /\
   forall w, In w (ChartJs.live_on "priceChart" (widgets p')) ->
             ChartJs.shown (priceChart p') (widgets p') = Some (ChartJs.w_config w)) /\
  (length (ChartJs.live_on "indicatorChart" (widgets p')) <= 1 /\
   forall w, In w (ChartJs.live_on "indicatorChart" (widgets p')) ->
             ChartJs.shown (indicatorChart p') (widgets p') = Some (ChartJs.w_config w)).
Proof.
  intros Ht. cbv zeta. apply (run_tidy evs) in Ht. split.
  - apply tidy_live_on; [exact Ht | left; split; reflexivity].
  - apply tidy_live_on; [exact Ht | right; split; reflexivity].
Qed.

End ChartLife.

(* ===================================================================== *)
(** * app.js: every query settles, and a failed one keeps the chart *)
(* ===================================================================== *)

Section BasicQuery.
Context {host : Js.Host}.
Import Js Eff Basic.

Lemma summary_text_settled (s : value) (text : string) :
  summary_text s = Normal text -> text <> "加载中...".
Proof.
  unfold summary_text. intros H.
  repeat match type of H with
         | context [match ?c with Normal _ => _ | Throw _ => _ end] =>
             destruct c; cbn [and_then] in H; try discriminate H
         | and_then ?c _ = _ => destruct c; cbn [and_then] in H; try discriminate H
         end.
  injection H as <-. cbn [join append]. intros E. discriminate E.
Qed.

(** The symbol of a summary whose lines were built converts to a string:
    the first line holds it. *)
Lemma summary_text_symbol (s s_symbol : value) (text : string) :
  summary_text s = Normal text ->
  get s "symbol" = Normal s_symbol ->
  exists label, ToString s_symbol = Normal label.
Proof.
  unfold summary_text. intros H E. rewrite E in H. cbn [and_then] in H.
  destruct (ToString s_symbol) as [label|e]; [eexists; reflexivity | discriminate H].
Qed.

(** The success branch of fetchStock ends in one of three ways: it throws
    before renderChart is called, it returns, or it throws at the last
    assignment, after the chart was replaced. *)
Lemma fetchStock_success_cases (symbol : string) (data : value) (b : page) :
  (exists e b1, fetchStock_success symbol data b = (Throw e, b1) /\
                chart b1 = chart b /\ widgets b1 = widgets b) \/
  (exists b', fetchStock_success symbol data b = (Normal tt, b') /\
              success_shown symbol data b') \/
  (exists llm cfg b1,
     get data "llm_analysis" = Normal llm /\ truthy llm = true /\ prints llm = false /\
     fetchStock_success symbol data b = (Throw (type_error cannot_convert_message), b1) /\
     chart b1 = Some (length (widgets b)) /\
     widgets b1 =
       (match chart b with
        | Some r => ChartJs.destroy r (widgets b)
        | None => widgets b
        end ++ [ChartJs.mkWidget "priceChart" cfg false])%list).
Proof.
  unfold fetchStock_success, renderChart.
  cbv beta iota delta [Eff.bind Eff.ret Eff.lift Eff.read Eff.modify ChartJs.construct].
  cbn [fst snd].
  destruct (get data "points") as [points|e] eqn:Ep;
    [|left; eexists; eexists; repeat split; reflexivity].
  destruct (get points "length") as [n|e];
    [|left; eexists; eexists; repeat split; reflexivity].
  destruct (ToString n) as [count|e];
    [|left; eexists; eexists; repeat split; reflexivity].
  destruct (get data "summary") as [s|e] eqn:Es;
    [|left; eexists; eexists; repeat split; reflexivity].
  destruct (summary_text s) as [text|e] eqn:Et;
    [|left; eexists; eexists; repeat split; reflexivity].
  destruct (map_prop points "time") as [labels|e];
    [|left; eexists; eexists; repeat split; reflexivity].
  destruct (map_prop points "close") as [closes|e];
    [|left; eexists; eexists; repeat split; reflexivity].
  destruct (get s "symbol") as [s_symbol|e] eqn:Esym;
    [|left; eexists; eexists; repeat split; reflexivity].
  destruct (summary_text_symbol s s_symbol text Et Esym) as [label Hlabel].
  rewrite Hlabel. cbn [fst snd].
  destruct (get_of_readable data points "points" "llm_analysis" Ep) as [llm El].
  rewrite El. right.
  assert (Hshown : forall ws w, ChartJs.shown (Some (length ws))
                                  (ws ++ [ChartJs.mkWidget "priceChart" w false]) <> None)
    by (intros ws w; rewrite shown_new; discriminate).
  assert (Hlen : forall r ws, length (match r with
                                      | Some i => ChartJs.destroy i ws
                                      | None => ws
                                      end) = length ws).
  { intros [i|] ws; [apply destroy_length | reflexivity]. }
  destruct (truthy llm) eqn:Tl; [unfold ToString; destruct (prints llm) eqn:Pl|];
    cbn [fst snd].
  - left. eexists. split; [reflexivity|]. unfold success_shown.
    cbn [status_textContent summaryBox analysisBox chart widgets set_analysisBox
         set_chart set_widgets set_summaryBox set_status_textContent].
    split; [exists count; reflexivity|].
    split; [exists s; split; [exact Es | exact Et]|].
    split; [exact (summary_text_settled s text Et)|].
    split; [exists llm; split; [exact El | rewrite Tl; reflexivity]|].
    apply Hshown.
  - right. exists llm. eexists. eexists.
    split; [reflexivity|]. split; [exact Tl|]. split; [exact Pl|].
    split; [reflexivity|].
    cbn [status_textContent summaryBox analysisBox chart widgets set_analysisBox
         set_chart set_widgets set_summaryBox set_status_textContent].
    split; [rewrite Hlen; reflexivity | reflexivity].
  - left. eexists. split; [reflexivity|]. unfold success_shown.
    cbn [status_textContent summaryBox analysisBox chart widgets set_analysisBox
         set_chart set_widgets set_summaryBox set_status_textContent].
    split; [exists count; reflexivity|].
    split; [exists s; split; [exact Es | exact Et]|].
    split; [exact (summary_text_settled s text Et)|].
    split; [exists llm; split; [exact El | rewrite Tl; reflexivity]|].
    apply Hshown.
Qed.

(** Whatever the outcome of a query of app.js, the page ends in one of
    three states.  Either the whole success branch ran: the status line
    reports the records, the summary panel holds the summary lines, the
    analysis panel the analysis text or the notice that none is enabled,
    and the chart is drawn.  Or the failure texts are shown, after an API
    error as after an exception, and the chart and every widget are as they
    were before the response.  Or, when the analysis text of the body is
    truthy and does not convert to a string, the assignment after
    renderChart throws: the failure texts are shown over a chart that was
    replaced by the one of the body. *)
Theorem fetchStock_always_settles (symbol : string) (o : Net.outcome) (b : page) :
  let b' := fetchStock_settle symbol o b in
  failure_shown b b' \/
  (exists status data,
     o = Net.Responded status data /\
     response_failed status data = Normal false /\
     ((fetchStock_success symbol data b = (Normal tt, b') /\
       success_shown symbol data b') \/
      failure_over_new_chart data b b')).
Proof.
  cbv zeta. unfold fetchStock_settle.
  assert (C : forall e b1, chart b1 = chart b -> widgets b1 = widgets b ->
                           failure_shown b (snd (fetchStock_catch e b1))).
  { intros e b1 Hc Hw. unfold failure_shown, fetchStock_catch.
    cbv beta iota delta [Eff.bind Eff.modify]. cbn.
    split; [exists ("请求异常：" ++ error_to_string e); reflexivity|].
    repeat split; assumption. }
  destruct o as [e|status e|status data].
  - left. apply (C e b); reflexivity.
  - left. apply (C e b); reflexivity.
  - unfold fetchStock_response, try_catch, bind, lift. cbn [fst snd].
    destruct (response_failed status data) as [[|]|e] eqn:Hf.
    + left. unfold fetchStock_failure, bind, lift, modify. cbn [fst snd].
      destruct (get data "error") as [err|e]; cbn [fst snd].
      * destruct (ToString _) as [text|e]; cbn [fst snd].
        -- unfold failure_shown. cbn. split; [|repeat split].
           eexists. change ("❌ 出错：" ++ ?x) with ("❌ " ++ ("出错：" ++ x)). reflexivity.
        -- apply (C e b); reflexivity.
      * apply (C e b); reflexivity.
    + destruct (fetchStock_success_cases symbol data b)
        as [(e & b1 & E & Hc & Hw)|[(b' & E & Hs)|
            (llm & cfg & b1 & El & Tl & Pl & E & Hc & Hw)]]; rewrite E; cbn [fst snd].
      * left. apply (C e b1); assumption.
      * right. exists status, data.
        split; [reflexivity|]. split; [exact Hf|]. left. split; [exact E | exact Hs].
      * right. exists status, data.
        split; [reflexivity|]. split; [exact Hf|]. right.
        unfold failure_over_new_chart, fetchStock_catch.
        cbv beta iota delta [Eff.bind Eff.modify].
        cbn [fst snd status_textContent summaryBox analysisBox chart widgets
             set_analysisBox set_summaryBox set_status_textContent].
        split; [reflexivity|]. split; [reflexivity|]. split; [reflexivity|].
        split; [exists llm; repeat split; assumption|].
        split; [exact Hc|]. exists cfg. exact Hw.
    + left. apply (C e b); reflexivity.
Qed.

(** ** The single chart of app.js *)

Lemma renderChart_tidy (labels data : list value) (symbol : value) :
  keeps Widgets.tidy_basic (renderChart labels data symbol).
Proof.
  intros b Ht. unfold renderChart.
  cbv beta iota delta [Eff.bind Eff.ret Eff.lift Eff.read Eff.modify ChartJs.construct].
  cbn [fst snd].
  assert (Ht' : forall r w, nth_error (widgets b) r = Some w ->
                            ChartJs.w_destroyed w = false ->
                            (chart b = Some r /\ ChartJs.w_canvas w = "priceChart") \/
                            (@None nat = Some r /\ ChartJs.w_canvas w = EmptyString))
    by (intros r' w' Hn' Hl'; left; apply (Ht r' w' Hn' Hl')).
  destruct (ToString symbol) as [label|e]; unfold Widgets.tidy_basic; cbn;
    intros r w Hn Hl.
  - destruct (tidy_after_render (chart b) None (widgets b) "priceChart" EmptyString
                _ r w Ht' Hn Hl) as [H|[H _]]; [exact H | discriminate H].
  - destruct (tidy_after_destroy (chart b) None (widgets b) "priceChart" EmptyString
                r w Ht' Hn Hl) as [H|[H _]]; [exact H | discriminate H].
Qed.

(** The chart of app.js does not leak either: after a query settles, at
    most one widget is left that was not destroyed, and it is the one the
    chart global shows. *)
Theorem fetchStock_keeps_one_chart (symbol : string) (o : Net.outcome) (b : page) :
  Widgets.tidy_basic b ->
  let b' := fetchStock_settle symbol o b in
  Widgets.tidy_basic b' /\
  length (ChartJs.live_on "priceChart" (widgets b')) <= 1 /\
  forall w, In w (ChartJs.live_on "priceChart" (widgets b')) ->
            ChartJs.shown (chart b') (widgets b') = Some (ChartJs.w_config w).
Proof.
  intros Ht. cbv zeta.
  assert (Ht' : Widgets.tidy_basic (fetchStock_settle symbol o b)).
  { revert b Ht. change (keeps Widgets.tidy_basic
      (try_catch
         (match o with
          | Net.FetchRejected e => throw e
          | Net.JsonRejected _ e => throw e
          | Net.Responded status data => fetchStock_response symbol status data
          end)
         fetchStock_catch)).
    apply keeps_try_catch.
    - destruct o as [e|status e|status data]; try apply keeps_throw.
      unfold fetchStock_response, fetchStock_failure, fetchStock_success.
      repeat first
        [ apply renderChart_tidy
        | apply keeps_modify; intros q Hq; exact Hq
        | keeps_step ].
    - intros e. unfold fetchStock_catch.
      repeat first [ apply keeps_modify; intros q Hq; exact Hq | keeps_step ]. }
  split; [exact Ht'|].
  set (b' := fetchStock_settle symbol o b) in *.
  assert (At : forall i w, nth_error (widgets b') i = Some w ->
                           (ChartJs.w_canvas w =? "priceChart") &&
                           negb (ChartJs.w_destroyed w) = true ->
                           chart b' = Some i).
  { intros i w Hn Hf. apply andb_prop in Hf. destruct Hf as [_ Hl].
    apply negb_true_iff in Hl. apply (Ht' i w Hn Hl). }
  split.
  - unfold ChartJs.live_on. destruct (chart b') as [r|] eqn:Ec.
    + apply (filter_at_most_one _ _ r). intros i w Hn Hf.
      specialize (At i w Hn Hf). congruence.
    + rewrite filter_none; [cbn; lia|]. intros i w Hn.
      destruct ((ChartJs.w_canvas w =? "priceChart") && negb (ChartJs.w_destroyed w)) eqn:Hf;
        [|reflexivity].
      specialize (At i w Hn Hf). discriminate At.
  - intros w Hin. unfold ChartJs.live_on in Hin. apply filter_In in Hin.
    destruct Hin as [Hin Hf]. apply In_nth_error in Hin. destruct Hin as [i Hn].
    rewrite (At i w Hn Hf). unfold ChartJs.shown. rewrite Hn.
    apply andb_prop in Hf. destruct Hf as [_ Hl]. apply negb_true_iff in Hl.
    rewrite Hl. reflexivity.
Qed.

End BasicQuery.

(* ===================================================================== *)
(** * Tabs and series *)
(* ===================================================================== *)

Section Tabs.
Context {host : Js.Host}.
Import Js Eff Enhanced View Widgets.




(** ** One value per label *)

Lemma map_prop_length (rows : value) (k : string) (l : list value) :
  map_prop rows k = Normal l ->
  exists items, rows = VArr items /\ length l = length items.
Proof.
  unfold map_prop. destruct rows as [| | | | |items|]; cbn [array_method and_then];
    try discriminate.
  intros H. exists items. split; [reflexivity|].
  revert l H. induction items as [|it rest IH]; cbn [map_each]; intros l H.
  - injection H as <-. reflexivity.
  - destruct (get it k) as [y|e]; cbn [and_then] in H; [|discriminate H].
    destruct (map_each (fun item => get item k) rest) as [ys|e]; cbn [and_then] in H;
      [|discriminate H].
    injection H as <-. cbn [length]. f_equal. apply IH. reflexivity.
Qed.

Lemma draws_length (start n : nat) : length (draws start n) = n.
Proof.
  revert start. induction n as [|n IH]; intros start; cbn; [reflexivity|].
  f_equal. apply IH.
Qed.

Lemma indicator_series_aligned (indicator : string) (data rows : value)
  (labels : list value) (ser : series) (p q : page) :
  (indicator =? "rsi") = false ->
  get data "data" = Normal rows ->
  map_prop rows "date" = Normal labels ->
  indicator_series indicator data p = (Normal ser, q) ->
  Forall (fun ds => length (ChartJs.ds_data ds) = length labels) (fst (fst ser)).
Proof.
  intros Hrsi Hrows Hlabels. unfold indicator_series. rewrite Hrsi.
  destruct (map_prop_length rows "date" labels Hlabels) as (items & -> & Hlen).
  destruct (indicator =? "macd").
  { unfold macd_series. unfold bind at 1, lift at 1. rewrite Hrows.
    unfold bind at 1, lift at 1. cbn [array_method].
    unfold bind at 1. rewrite each_random. unfold ret. intros E. injection E as <- _.
    cbn. constructor; [|constructor]. cbn. rewrite draws_length. symmetry. exact Hlen. }
  destruct (indicator =? "volume").
  { unfold volume_series, lift. rewrite Hrows. cbn [and_then].
    destruct (map_prop (VArr items) "volume") as [values|e] eqn:Ev; cbn [and_then];
      [|discriminate].
    intros E. injection E as <- _. cbn. constructor; [|constructor]. cbn.
    destruct (map_prop_length _ _ _ Ev) as (items' & Ei & Hv). injection Ei as <-.
    congruence. }
  unfold ret. intros E. injection E as <- _. constructor.
Qed.

(** Every dataset drawn has one value per label: the closing prices of the
    price chart, and the series of the indicator chart on every tab but
    rsi, whose values are as many as the backend sent. *)
Theorem chart_series_are_aligned (data : value) :
  (forall cfg, priceChart_config data = Normal cfg -> aligned cfg) /\
  (forall p p',
     (currentIndicator p =? "rsi") = false ->
     renderIndicatorChart data p = (Normal tt, p') ->
     exists cfg, ChartJs.shown (indicatorChart p') (widgets p') = Some cfg /\ aligned cfg).
Proof.
  split.
  - intros cfg. unfold priceChart_config.
    destruct (get data "data") as [rows|e]; cbn [and_then]; [|discriminate].
    destruct (map_prop rows "date") as [labels|e] eqn:El; cbn [and_then]; [|discriminate].
    destruct (map_prop rows "close") as [prices|e] eqn:Ep; cbn [and_then]; [|discriminate].
    destruct (map_prop rows "volume") as [volumes|e]; cbn [and_then]; [|discriminate].
    destruct (get data "symbol") as [s|e]; cbn [and_then]; [|discriminate].
    destruct (ToString s) as [label|e]; cbn [and_then]; [|discriminate].
    destruct (get data "period") as [t|e]; cbn [and_then]; [|discriminate].
    destruct (ToString t) as [period|e]; cbn [and_then]; [|discriminate].
    intros E. injection E as <-. unfold aligned. cbn. constructor; [|constructor]. cbn.
    destruct (map_prop_length _ _ _ El) as (items & -> & H1).
    destruct (map_prop_length _ _ _ Ep) as (items' & Ei & H2). injection Ei as <-.
    congruence.
  - intros p p' Hrsi. unfold renderIndicatorChart.
    cbv beta iota delta [Eff.bind Eff.ret Eff.lift Eff.read Eff.modify new_Chart
                         ChartJs.construct]. cbn [fst snd].
    destruct (get data "data") as [rows|e] eqn:Er; [|discriminate].
    destruct (map_prop rows "date") as [labels|e] eqn:El; [|discriminate].
    cbn [currentIndicator set_widgets].
    match goal with |- context [indicator_series ?i ?d ?q] =>
      pose proof (indicator_series_aligned i d rows labels) as Ha;
      destruct (indicator_series i d q) as [[ser|e] q'] eqn:Es end; [|discriminate].
    specialize (Ha ser _ _ Hrsi Er El Es).
    destruct ser as [[ds t] y]. intros E. injection E as <-.
    cbn [indicatorChart widgets set_indicatorChart set_widgets].
    rewrite shown_new. eexists. split; [reflexivity|]. exact Ha.
Qed.

End Tabs.

(* ===================================================================== *)
(** * enhanced_app.js: the market overview *)
(* ===================================================================== *)

Section MarketOverview.
Context {host : Js.Host}.
Import Js Eff Overview.

Lemma loadMarketOverview_settle_grid (o : Net.outcome) (b : board) :
  loadMarketOverview_settle o b = set_indicesGrid (grid_of o) b.
Proof.
  unfold loadMarketOverview_settle, grid_of.
  destruct o as [e|status e|status data]; try reflexivity.
  unfold loadMarketOverview_response, try_catch, bind, lift, modify. cbn [fst snd].
  destruct (Enhanced.response_failed status data) as [[|]|e]; try reflexivity.
  destruct (overview_html data) as [html|e]; reflexivity.
Qed.

Lemma map_each_throws {A B : Type} (f : A -> completion B) (l : list A) (x : A) (e : error) :
  In x l -> f x = Throw e -> exists e', map_each f l = Throw e'.
Proof.
  induction l as [|y l IH]; intros Hin Hx; [destruct Hin|].
  cbn [map_each]. destruct (f y) as [b|e1] eqn:Ey; cbn [and_then]; [|eexists; reflexivity].
  destruct Hin as [->|Hin]; [congruence|].
  destruct (IH Hin Hx) as [e' He']. rewrite He'. eexists; reflexivity.
Qed.

Lemma index_card_head (name : string) (info : value) (card : string) :
  index_card name info = Normal card -> exists rest, card = String "010" rest.
Proof.
  unfold index_card. intros H.
  repeat match type of H with
         | and_then ?c _ = _ => destruct c; cbn [and_then] in H; try discriminate H
         end.
  injection H as <-. unfold lf. cbn [append]. eexists; reflexivity.
Qed.

Lemma cards_are_not_loading (named : list (string * value)) (cards : list string) :
  map_each (fun e => index_card (fst e) (snd e)) named = Normal cards ->
  String.concat EmptyString cards <> loading.
Proof.
  destruct named as [|[name info] named]; cbn [map_each fst snd].
  - intros H. injection H as <-. unfold loading, Enhanced.div_loading.
    cbn [String.concat append]. intros E. discriminate E.
  - destruct (index_card name info) as [card|e] eqn:Ec; cbn [and_then]; [|discriminate].
    destruct (map_each _ named) as [rest|e]; cbn [and_then]; [|discriminate].
    intros H. injection H as <-.
    destruct (index_card_head name info card Ec) as [tail ->].
    unfold loading, Enhanced.div_loading.
    destruct rest; cbn [String.concat append]; intros E; discriminate E.
Qed.

Lemma failure_is_not_loading : failure <> loading.
Proof.
  unfold failure, loading. intros E. apply div_loading_inj in E.
  vm_compute in E. discriminate E.
Qed.

(** Whatever the outcome of the market overview request, the grid leaves
    its loading placeholder and nothing else on the page changes.  The
    grid either shows the failure text, or the cards of all the entries of
    [market_overview] in their enumeration order; one entry that cannot be
    rendered puts the failure text in place of every card. *)
Theorem loadMarketOverview_always_settles (o : Net.outcome) (b : board) :
  let b' := loadMarketOverview_settle o (loadMarketOverview_begin b) in
  page b' = page (loadMarketOverview_begin b) /\
  indicesGrid (loadMarketOverview_begin b) = loading /\
  indicesGrid b' <> loading /\
  (indicesGrid b' = failure \/
   exists status data overview named cards,
     o = Net.Responded status data /\
     Enhanced.response_failed status data = Normal false /\
     get data "market_overview" = Normal overview /\
     entries overview = Normal named /\
     map_each (fun e => index_card (fst e) (snd e)) named = Normal cards /\
     indicesGrid b' = String.concat EmptyString cards) /\
  (forall status data overview named name info e,
     o = Net.Responded status data ->
     get data "market_overview" = Normal overview ->
     entries overview = Normal named ->
     In (name, info) named ->
     index_card name info = Throw e ->
     indicesGrid b' = failure).
Proof.
  cbv zeta. rewrite loadMarketOverview_settle_grid.
  cbn [page indicesGrid set_indicesGrid].
  split; [reflexivity|]. split; [reflexivity|].
  assert (Cases : grid_of o = failure \/
    exists status data overview named cards,
      o = Net.Responded status data /\
      Enhanced.response_failed status data = Normal false /\
      get data "market_overview" = Normal overview /\
      entries overview = Normal named /\
      map_each (fun e => index_card (fst e) (snd e)) named = Normal cards /\
      grid_of o = String.concat EmptyString cards).
  { unfold grid_of. destruct o as [e|status e|status data]; try (left; reflexivity).
    destruct (Enhanced.response_failed status data) as [[|]|e] eqn:Hf;
      try (left; reflexivity).
    unfold overview_html.
    destruct (get data "market_overview") as [overview|e] eqn:Eo; cbn [and_then];
      [|left; reflexivity].
    destruct (entries overview) as [named|e] eqn:En; cbn [and_then]; [|left; reflexivity].
    destruct (map_each (fun e => index_card (fst e) (snd e)) named) as [cards|e] eqn:Ec;
      cbn [and_then]; [|left; reflexivity].
    right. exists status, data, overview, named, cards. repeat split; assumption. }
  split; [|split; [exact Cases|]].
  - destruct Cases as [->|(status & data & overview & named & cards & _ & _ & _ & _ & Hc & ->)].
    + apply failure_is_not_loading.
    + apply (cards_are_not_loading named cards Hc).
  - intros status data overview named name info e -> Eo En Hin Hthrow.
    unfold grid_of.
    destruct (Enhanced.response_failed status data) as [[|]|e']; try reflexivity.
    unfold overview_html. rewrite Eo. cbn [and_then]. rewrite En. cbn [and_then].
    destruct (map_each_throws (fun e => index_card (fst e) (snd e)) named (name, info) e
                Hin Hthrow) as [e' He'].
    rewrite He'. reflexivity.
Qed.

(** ** Names that are not array indices keep the order of the body *)

Lemma ordered_plain (props : list (string * value)) :
  (forall e, In e props -> array_index (fst e) = None) -> ordered props = props.
Proof.
  intros H. unfold ordered.
  assert (F : forall acc, fold_left
            (fun acc e => match array_index (fst e) with
                          | Some n => insert_by_index n e acc
                          | None => acc
                          end) props acc = acc).
  { induction props as [|e props IH]; intros acc; cbn [fold_left]; [reflexivity|].
    rewrite (H e (or_introl eq_refl)). apply IH. intros e' He'. apply H. right. exact He'. }
  rewrite F. cbn [map app].
  induction props as [|e props IH]; cbn [filter]; [reflexivity|].
  rewrite (H e (or_introl eq_refl)). f_equal. apply IH.
  - intros e' He'. apply H. right. exact He'.
  - intros acc. specialize (F acc). cbn [fold_left] in F.
    rewrite (H e (or_introl eq_refl)) in F. exact F.
Qed.

(** When no index name is an array index and every entry renders, the grid
    holds one card per entry in the order of the response body. *)
Theorem overview_cards_follow_the_body
  (status : nat) (data err : value) (props : list (string * value))
  (cards : list string) (b : board) :
  Net.response_ok status = true ->
  get data "error" = Normal err -> truthy err = false ->
  get data "market_overview" = Normal (VObj props) ->
  (forall e, In e props -> array_index (fst e) = None) ->
  map_each (fun e => index_card (fst e) (snd e)) props = Normal cards ->
  indicesGrid (loadMarketOverview_settle (Net.Responded status data) b) =
    String.concat EmptyString cards /\
  length cards = length props.
Proof.
  intros Hok He Ht Ho Hplain Hc. rewrite loadMarketOverview_settle_grid.
  cbn [indicesGrid set_indicesGrid]. unfold grid_of, Enhanced.response_failed.
  rewrite Hok, He. cbn [negb and_then]. rewrite Ht.
  unfold overview_html. rewrite Ho. cbn [and_then entries].
  rewrite (ordered_plain props Hplain), Hc. cbn [and_then]. split; [reflexivity|].
  clear - Hc. revert cards Hc. induction props as [|e props IH]; cbn [map_each]; intros cards H.
  - injection H as <-. reflexivity.
  - destruct (index_card (fst e) (snd e)); cbn [and_then] in H; [|discriminate H].
    destruct (map_each _ props) as [rest|]; cbn [and_then] in H; [|discriminate H].
    injection H as <-. cbn [length]. f_equal. apply IH. reflexivity.
Qed.

End MarketOverview.

(* ===================================================================== *)
(** * The two requests of the enhanced page do not interfere *)
(* ===================================================================== *)

Section Independence.
Context {host : Js.Host}.
Import Js Eff Enhanced.

Lemma settle_settle (r1 r2 : nat) (rs : list Net.request) :
  Net.settle r1 (Net.settle r2 rs) = Net.settle r2 (Net.settle r1 rs).
Proof.
  revert r1 r2. induction rs as [|q rs IH]; intros [|r1] [|r2]; cbn; try reflexivity.
  f_equal. apply IH.
Qed.

(** The rest of fetchStockData neither reads nor writes the list of
    requests. *)
Lemma fetchStockData_settle_requests (symbol : string) (o : Net.outcome)
  (x : list Net.request) (p : page) :
  fetchStockData_settle symbol o (set_requests x p) =
  set_requests x (fetchStockData_settle symbol o p).
Proof.
  assert (O : oblivious (set_requests x)
    (try_catch
       (match o with
        | Net.FetchRejected e => throw e
        | Net.JsonRejected _ e => throw e
        | Net.Responded status data => fetchStockData_response symbol status data
        end)
       fetchStockData_catch)).
  { apply oblivious_try_catch.
    - destruct o as [e|status e|status data]; try apply oblivious_throw.
      unfold fetchStockData_response, fetchStockData_failure, fetchStockData_success,
        updateStockInfo, updateTechnicalSummary, updateTradingSignals, updateAnalysis,
        renderPriceChart, renderIndicatorChart, indicator_series, macd_series.
      repeat first
        [ oblivious_step
        | match goal with
          | |- oblivious _ Math_random => intros ?; reflexivity
          | |- oblivious _ (new_Chart _ _) => intros ?; reflexivity
          end ].
    - intros e. unfold fetchStockData_catch. repeat oblivious_step. }
  unfold fetchStockData_settle. rewrite O. reflexivity.
Qed.

(** The market overview response and a stock response may arrive in either
    order: the page and the grid end the same. *)
Theorem overview_and_stock_commute
  (b : Overview.board) (r1 r2 : nat) (q1 q2 : Net.request) (o1 o2 : Net.outcome) :
  nth_error (requests (Overview.page b)) r1 = Some q1 ->
  Net.req_settled q1 = false ->
  Net.req_path q1 = "/api/market_overview" ->
  nth_error (requests (Overview.page b)) r2 = Some q2 ->
  Net.req_settled q2 = false ->
  Net.req_path q2 = "/api/stock_data" ->
  Overview.run [Settled r1 o1; Settled r2 o2] b =
  Overview.run [Settled r2 o2; Settled r1 o1] b.
Proof.
  intros H1 S1 P1 H2 S2 P2.
  assert (Hne : r1 <> r2).
  { intros ->. rewrite H1 in H2. injection H2 as ->. rewrite P1 in P2. discriminate P2. }
  destruct b as [p g]. cbn [Overview.page] in *.
  unfold Overview.run. cbn [fold_left Overview.step Overview.page Overview.set_page step].
  rewrite H1, H2, S1, S2, P1, P2. cbn [String.eqb Ascii.eqb Bool.eqb].
  rewrite !loadMarketOverview_settle_grid.
  cbn [Overview.page Overview.set_page Overview.set_indicesGrid Overview.indicesGrid
       requests set_requests].
  rewrite (settle_other r1 r2 (requests p)) by exact Hne.
  rewrite H2, S2, P2. cbn [String.eqb Ascii.eqb Bool.eqb].
  rewrite !fetchStockData_settle_requests.
  cbn [requests set_requests].
  rewrite (settle_other r2 r1 (requests p)) by congruence.
  rewrite H1, S1, P1. cbn [String.eqb Ascii.eqb Bool.eqb].
  cbn [Overview.page Overview.set_page Overview.set_indicesGrid Overview.indicesGrid
       requests set_requests].
  rewrite (settle_settle r1 r2). reflexivity.
Qed.

End Independence.

(* ===================================================================== *)
(** * A render that throws leaves its canvas blank *)
(* ===================================================================== *)

Section FailedRender.
Context {host : Js.Host}.
Import Js Eff Enhanced Widgets.

(** After [destroy_if_any] on the global of a canvas, a tidy heap has no
    live widget on that canvas. *)
Lemma destroy_if_any_blank (old other : option nat) (ws : list ChartJs.widget)
  (mine theirs : string) :
  (mine =? theirs) = false ->
  (forall r w, nth_error ws r = Some w -> ChartJs.w_destroyed w = false ->
               (old = Some r /\ ChartJs.w_canvas w = mine) \/
               (other = Some r /\ ChartJs.w_canvas w = theirs)) ->
  ChartJs.live_on mine (destroy_if_any old ws) = [].
Proof.
  intros Hne Ht. unfold ChartJs.live_on. apply filter_none. intros i w Hn.
  destruct (ChartJs.w_destroyed w) eqn:Hl; [apply andb_false_r|].
  destruct (destroy_if_any_live old i ws w Hn Hl) as [Hold Hw].
  destruct (Ht i w Hw Hl) as [[Ho _]|[_ Hc]]; [congruence|].
  rewrite Hc, String.eqb_sym, Hne. reflexivity.
Qed.

(** Both renderers of enhanced_app.js destroy the chart of their canvas
    before they read the body.  When reading it then throws, no chart is
    left on the canvas, and the global still refers to the destroyed
    one. *)
Theorem failed_render_blanks_the_canvas (data : value) (e : error) (p : page) :
  tidy p ->
  (fst (renderPriceChart data p) = Throw e ->
   let p' := snd (renderPriceChart data p) in
   ChartJs.live_on "priceChart" (widgets p') = [] /\
   priceChart p' = priceChart p /\
   ChartJs.shown (priceChart p') (widgets p') = None) /\
  (fst (renderIndicatorChart data p) = Throw e ->
   let p' := snd (renderIndicatorChart data p) in
   ChartJs.live_on "indicatorChart" (widgets p') = [] /\
   indicatorChart p' = indicatorChart p /\
   ChartJs.shown (indicatorChart p') (widgets p') = None).
Proof.
  intros Ht.
  assert (Blank : forall canvas ref ws,
            ChartJs.live_on canvas ws = [] ->
            (forall w, nth_error ws ref = Some w ->
                       ChartJs.w_destroyed w = false -> ChartJs.w_canvas w = canvas) ->
            ChartJs.shown (Some ref) ws = None).
  { intros canvas ref ws Hb Hc. unfold ChartJs.shown.
    destruct (nth_error ws ref) as [w|] eqn:Hn; [|reflexivity].
    destruct (ChartJs.w_destroyed w) eqn:Hl; [reflexivity|].
    assert (Hin : In w (ChartJs.live_on canvas ws)).
    { apply filter_In. split; [apply (nth_error_In _ _ Hn)|].
      rewrite (Hc w eq_refl Hl), String.eqb_refl, Hl. reflexivity. }
    rewrite Hb in Hin. destruct Hin. }
  split.
  - unfold renderPriceChart.
    cbv beta iota delta [Eff.bind Eff.ret Eff.lift Eff.read Eff.modify new_Chart
                         ChartJs.construct]. cbn [fst snd].
    destruct (priceChart_config data) as [cfg|e']; cbn [fst snd]; intros E;
      [discriminate E|]. cbn [widgets set_widgets priceChart].
    assert (Hb : ChartJs.live_on "priceChart"
                   (destroy_if_any (priceChart p) (widgets p)) = []).
    { apply (destroy_if_any_blank (priceChart p) (indicatorChart p) (widgets p)
               "priceChart" "indicatorChart"); [reflexivity | exact Ht]. }
    split; [exact Hb|]. split; [reflexivity|].
    destruct (priceChart p) as [r|] eqn:Hr; [|reflexivity].
    apply (Blank "priceChart" r _ Hb). intros w Hn Hl.
    destruct (destroy_if_any_live (Some r) r (widgets p) w Hn Hl) as [Hne _].
    congruence.
  - pose proof (tidy_swap p Ht) as Hs.
    assert (Hb : ChartJs.live_on "indicatorChart"
                   (destroy_if_any (indicatorChart p) (widgets p)) = []).
    { apply (destroy_if_any_blank (indicatorChart p) (priceChart p) (widgets p)
               "indicatorChart" "priceChart"); [reflexivity | exact Hs]. }
    assert (Hsh : ChartJs.shown (indicatorChart p)
                    (destroy_if_any (indicatorChart p) (widgets p)) = None).
    { destruct (indicatorChart p) as [r|] eqn:Hr; [|reflexivity].
      apply (Blank "indicatorChart" r _ Hb). intros w Hn Hl.
      destruct (destroy_if_any_live (Some r) r (widgets p) w Hn Hl) as [Hne _].
      congruence. }
    unfold renderIndicatorChart.
    cbv beta iota delta [Eff.bind Eff.ret Eff.lift Eff.read Eff.modify new_Chart
                         ChartJs.construct]. cbn [fst snd].
    destruct (get data "data") as [rows|e1]; cbn [fst snd widgets set_widgets indicatorChart];
      [|intros _; split; [exact Hb | split; [reflexivity | exact Hsh]]].
    destruct (map_prop rows "date") as [labels|e2];
      cbn [fst snd widgets set_widgets indicatorChart];
      [|intros _; split; [exact Hb | split; [reflexivity | exact Hsh]]].
    match goal with |- context [indicator_series ?i ?d ?q] =>
      destruct (indicator_series_effect i d q) as [n E];
      destruct (indicator_series i d q) as [[[[ds t] y]|e3] q'] end;
      cbn [fst snd] in *; intros H; [discriminate H|].
    subst q'. cbn [widgets set_widgets set_random_calls indicatorChart].
    split; [exact Hb | split; [reflexivity | exact Hsh]].
Qed.

End FailedRender.

(* ===================================================================== *)
(** * The properties above on the sample pages *)
(* ===================================================================== *)

Lemma well_shaped_body_renders_witness :
  let p' := Enhanced.fetchStockData_settle (host := Browser.host) "AAPL"
              (Net.Responded 200 Samples.aapl) (Samples.fresh "AAPL") in
  Widgets.success_line "AAPL" p' /\ Widgets.panels_settled p' /\
  Enhanced.currentStockData p' = Samples.aapl.
Proof.
  destruct (well_shaped_body_renders (host := Browser.host) "AAPL" 200 Samples.aapl
              Js.VUndef (Samples.fresh "AAPL")) as (_ & H1 & H2 & H3 & _).
  - vm_compute; reflexivity.
  - vm_compute; reflexivity.
  - vm_compute; reflexivity.
  - vm_compute; reflexivity.
  - vm_compute; reflexivity.
  - split; [exact H1 | split; [exact H2 | exact H3]].
Defined.

Lemma no_leaked_charts_witness :
  let p' := Enhanced.run (host := Browser.host)
              [ Enhanced.Submit; Enhanced.Settled 0 (Net.Responded 200 Samples.aapl);
                Enhanced.TabClick 1; Enhanced.TabClick 2 ]
              (Samples.fresh "AAPL") in
  length (ChartJs.live_on "priceChart" (Enhanced.widgets p')) <= 1 /\
  length (ChartJs.live_on "indicatorChart" (Enhanced.widgets p')) <= 1.
Proof.
  destruct (no_leaked_charts (host := Browser.host)
              [ Enhanced.Submit; Enhanced.Settled 0 (Net.Responded 200 Samples.aapl);
                Enhanced.TabClick 1; Enhanced.TabClick 2 ]
              (Samples.fresh "AAPL")) as [[H1 _] [H2 _]].
  - intros [|r] w E; discriminate E.
  - split; [exact H1 | exact H2].
Defined.

Lemma fetchStock_always_settles_witness :
  failure_over_new_chart (host := Browser.host) Samples.unprintable_analysis
    (Samples.fresh_basic "AAPL")
    (Basic.fetchStock_settle (host := Browser.host) "AAPL"
       (Net.Responded 200 Samples.unprintable_analysis) (Samples.fresh_basic "AAPL")).
Proof.
  destruct (fetchStock_always_settles (host := Browser.host) "AAPL"
              (Net.Responded 200 Samples.unprintable_analysis)
              (Samples.fresh_basic "AAPL"))
    as [F|(status & data & E & _ & [[S _]|N])].
  - destruct F as (_ & _ & _ & _ & Hw). vm_compute in Hw. discriminate Hw.
  - injection E as <- <-. vm_compute in S. discriminate S.
  - injection E as <- <-. exact N.
Defined.

Lemma fetchStock_keeps_one_chart_witness :
  let b' := Basic.fetchStock_settle (host := Browser.host) "AAPL"
              (Net.Responded 200 Samples.basic_body) (Samples.fresh_basic "AAPL") in
  length (ChartJs.live_on "priceChart" (Basic.widgets b')) <= 1.
Proof.
  destruct (fetchStock_keeps_one_chart (host := Browser.host) "AAPL"
              (Net.Responded 200 Samples.basic_body) (Samples.fresh_basic "AAPL"))
    as (_ & H & _).
  - intros [|r] w E; discriminate E.
  - exact H.
Defined.


Lemma overview_cards_follow_the_body_witness :
  exists card1 card2,
    Overview.indicesGrid
      (Overview.loadMarketOverview_settle (host := Browser.host)
         (Net.Responded 200 Samples.overview) (Samples.fresh_board "AAPL")) =
    (card1 ++ card2)%string.
Proof.
  destruct (Js.map_each
              (fun e => Overview.index_card (host := Browser.host) (fst e) (snd e))
              [ ("S&P 500",
                 Js.VObj [ ("current_price", Js.VNum 4783.45); ("change", Js.VNum 12.5);
                           ("change_pct", Js.VNum 0.26) ]);
                ("NASDAQ",
                 Js.VObj [ ("current_price", Js.VNum 15055.65);
                           ("change", Js.VNum (-20.25));
                           ("change_pct", Js.VNum (-0.13)) ]) ])
    as [cards|e] eqn:Hc; [| vm_compute in Hc; discriminate Hc].
  destruct (overview_cards_follow_the_body (host := Browser.host) 200 Samples.overview
              Js.VUndef _ cards (Samples.fresh_board "AAPL")
              eq_refl eq_refl eq_refl eq_refl) as [H L].
  - intros e [<-|[<-|[]]]; reflexivity.
  - exact Hc.
  - destruct cards as [|card1 [|card2 [|card3 cards]]]; try discriminate L.
    exists card1, card2. rewrite H. cbn [String.concat].
    reflexivity.
Defined.

Lemma overview_and_stock_commute_witness :
  let b := Overview.DOMContentLoaded (Samples.fresh_board "AAPL") in
  Overview.run (host := Browser.host)
    [ Enhanced.Settled 1 (Net.Responded 200 Samples.overview);
      Enhanced.Settled 0 (Net.Responded 200 Samples.aapl) ] b =
  Overview.run (host := Browser.host)
    [ Enhanced.Settled 0 (Net.Responded 200 Samples.aapl);
      Enhanced.Settled 1 (Net.Responded 200 Samples.overview) ] b.
Proof.
  apply (overview_and_stock_commute (host := Browser.host)
           (Overview.DOMContentLoaded (Samples.fresh_board "AAPL")) 1 0
           (Net.mkRequest "/api/market_overview" [] false)
           (Net.mkRequest "/api/stock_data"
              [("symbol", "AAPL"); ("period", "1mo"); ("interval", "1d");
               ("analysis_type", "quick")] false)).
  - vm_compute; reflexivity.
  - reflexivity.
  - reflexivity.
  - vm_compute; reflexivity.
  - reflexivity.
  - reflexivity.
Defined.

Lemma failed_render_blanks_the_canvas_witness :
  let bad := Js.VObj [("data", Js.VArr [Js.VNull])] in
  ChartJs.live_on "priceChart" (Enhanced.widgets Samples.loaded) <> [] /\
  ChartJs.live_on "priceChart"
    (Enhanced.widgets
       (snd (Enhanced.renderPriceChart (host := Browser.host) bad Samples.loaded))) = [].
Proof.
  cbv zeta. split; [vm_compute; discriminate|].
  assert (T : Widgets.tidy Samples.loaded).
  { unfold Samples.loaded. apply run_tidy. intros [|r] w E; discriminate E. }
  destruct (fst (Enhanced.renderPriceChart (host := Browser.host)
                   (Js.VObj [("data", Js.VArr [Js.VNull])]) Samples.loaded))
    as [u|e] eqn:E; [vm_compute in E; discriminate E|].
  destruct (failed_render_blanks_the_canvas (host := Browser.host)
              (Js.VObj [("data", Js.VArr [Js.VNull])]) e Samples.loaded T) as [H _].
  apply (H E).
Defined.
